(** * OdooSpeak: reconciliation between Infraspeak and Odoo

    A shallow embedding of the request poller ([OdooSpeakRequest.js]) and of
    the stock synchroniser ([OdooSpeakStockSync.js]), with the properties of
    the reconciliation engine, the posting translator, the ledger poster and
    the drift reconciler.

    Modelling conventions.
    - JavaScript numbers that carry identifiers, quantities and prices are
      exact integers ([Z]); [undefined]/[null]/[NaN] are [None] of an option
      type where the code can meet them.
    - JavaScript strings are [string] (sequences of 8-bit characters); case
      mapping and white space are those of ASCII.
    - The DynamoDB table is a finite map from its hash key [request_id] to
      the other attributes of the item; [Scan] lists the map.  Calls to the
      table are taken to succeed.
    - The two remote systems are a record of response functions; writes sent
      to Odoo and Infraspeak are appended to a log kept in the state. *)

From Stdlib Require Import Ascii String.
From stdpp Require Import base option list strings gmap pretty.

Open Scope Z_scope.
Open Scope string_scope.
Open Scope list_scope.

(** ** JavaScript primitives *)

Module Js.

(** An identifier as the Infraspeak API delivers it: a number or a string. *)
Inductive Id := Num (n : Z) | Str (s : string).

(** [String(v)] *)
Definition String (v : Id) : string :=
  match v with
  | Num n => pretty n
  | Str s => s
  end.

#[export] Instance Id_eq_dec : EqDecision Id.
Proof. solve_decision. Defined.

(** A value interpolated in a template literal; [None] is [undefined]. *)
Definition show_id (v : option Id) : string :=
  match v with Some v => String v | None => "undefined" end.

Definition show_number (v : option Z) : string :=
  match v with Some n => pretty n | None => "undefined" end.

(** Arithmetic on numbers that may be [undefined] or [NaN]. *)
Definition mul (x y : option Z) : option Z :=
  match x, y with Some x, Some y => Some (x * y) | _, _ => None end.

Definition sub (x y : option Z) : option Z :=
  match x, y with Some x, Some y => Some (x - y) | _, _ => None end.

(** [x < 0]; a comparison with [NaN] is false. *)
Definition is_negative (x : option Z) : bool :=
  match x with Some x => bool_decide (x < 0) | None => false end.

(** Truthiness of a number, of a string and of an optional value. *)
Definition truthy_number (x : option Z) : bool :=
  match x with Some x => bool_decide (x ≠ 0) | None => false end.

Definition truthy_string (x : option string) : bool :=
  match x with Some s => bool_decide (s ≠ "") | None => false end.

(** White space removed by [trim] and skipped by [parseInt]. *)
Definition is_white_space (c : ascii) : bool :=
  let n := N_of_ascii c in
  bool_decide (n = 9 ∨ n = 10 ∨ n = 11 ∨ n = 12 ∨ n = 13 ∨ n = 32)%N.

(** Characters that [.] of a regular expression does not match. *)
Definition is_line_terminator (c : ascii) : bool :=
  let n := N_of_ascii c in bool_decide (n = 10 ∨ n = 13)%N.

Fixpoint trimStart (s : string) : string :=
  match s with
  | EmptyString => EmptyString
  | String.String c s' => if is_white_space c then trimStart s' else s
  end.

Fixpoint trimEnd (s : string) : string :=
  match s with
  | EmptyString => EmptyString
  | String.String c s' =>
      match trimEnd s' with
      | EmptyString => if is_white_space c then EmptyString
                       else String.String c EmptyString
      | t => String.String c t
      end
  end.

Definition trim (s : string) : string := trimEnd (trimStart s).

Definition upper_char (c : ascii) : ascii :=
  let n := N_of_ascii c in
  if bool_decide (97 ≤ n ∧ n ≤ 122)%N then ascii_of_N (n - 32) else c.

Definition lower_char (c : ascii) : ascii :=
  let n := N_of_ascii c in
  if bool_decide (65 ≤ n ∧ n ≤ 90)%N then ascii_of_N (n + 32) else c.

Fixpoint map_chars (f : ascii → ascii) (s : string) : string :=
  match s with
  | EmptyString => EmptyString
  | String.String c s' => String.String (f c) (map_chars f s')
  end.

Definition toUpperCase : string → string := map_chars upper_char.
Definition toLowerCase : string → string := map_chars lower_char.

(** [s.includes(sub)] *)
Fixpoint includes (sub s : string) : bool :=
  String.prefix sub s
  || match s with
     | EmptyString => false
     | String.String _ s' => includes sub s'
     end.

(** [s.split('.')[0]] *)
Fixpoint before_dot (s : string) : string :=
  match s with
  | EmptyString => EmptyString
  | String.String c s' =>
      if bool_decide (c = "."%char) then EmptyString
      else String.String c (before_dot s')
  end.

(** The lazy group [(.*?)] followed by a closing bracket, from the
    character after an opening bracket. *)
Fixpoint up_to_close (s : string) : option string :=
  match s with
  | EmptyString => None
  | String.String c s' =>
      if bool_decide (c = "]"%char) then Some EmptyString
      else if is_line_terminator c then None
      else String.String c <$> up_to_close s'
  end.

(** [s.match(/\[(.*?)\]/)]: the first group of the leftmost match,
    [None] when the result is [null]. *)
Fixpoint match_bracket (s : string) : option string :=
  match s with
  | EmptyString => None
  | String.String c s' =>
      if bool_decide (c = "["%char) then
        match up_to_close s' with
        | Some code => Some code
        | None => match_bracket s'
        end
      else match_bracket s'
  end.

(** [parseInt(s, 10)]: [None] is [NaN]. *)
Definition digit (c : ascii) : option Z :=
  let n := N_of_ascii c in
  if bool_decide (48 ≤ n ∧ n ≤ 57)%N then Some (Z.of_N (n - 48)) else None.

Fixpoint digits (acc : option Z) (s : string) : option Z :=
  match s with
  | EmptyString => acc
  | String.String c s' =>
      match digit c with
      | Some d => digits (Some (10 * default 0 acc + d)) s'
      | None => acc
      end
  end.

Definition parseInt (s : string) : option Z :=
  match trimStart s with
  | String.String "-"%char s' => Z.opp <$> digits None s'
  | String.String "+"%char s' => digits None s'
  | s' => digits None s'
  end.

End Js.

(** ** Data *)

(** [request.attributes] of one element of the Infraspeak payload. *)
Module Request.
Record attributes := {
  request_id : Js.Id;
  type : string;
  related_to_type : string;
  related_to_id : Js.Id;
  date_created : string;
  date_updated : string;
  operator_id : Js.Id;
  cost_center_odoo : option string;
  journal_move_id : option string;
  stock_move_ids : option (list Z)
}.
End Request.

(** An item of the table [odooSpeakRequests] without its key.  DynamoDB items
    have no schema, every attribute may be absent. *)
Module Item.
Record attributes := {
  type : option string;
  related_to_type : option string;
  related_to_id : option string;
  state : option string;
  date_created : option string;
  date_updated : option string;
  operator_id : option string;
  reversed : option bool;
  stock_move_ids : option (list Z);
  account_move_id : option Z;
  cost_center_odoo : option Z
}.

Definition empty : attributes :=
  {| type := None; related_to_type := None; related_to_id := None;
     state := None; date_created := None; date_updated := None;
     operator_id := None; reversed := None; stock_move_ids := None;
     account_move_id := None; cost_center_odoo := None |}.

(** [item.reversed] used as a condition. *)
Definition is_reversed (a : attributes) : bool := default false (reversed a).
End Item.

(** One element of the list that [checkAndUpsertRequests] returns. *)
Module Classified.
Record item := {
  cost_center_odoo : option string;
  journal_move_id : option string;
  request_id : string;
  related_to_id : option Js.Id;
  related_to_type : option string;
  stock_move_ids : option (list Z);
  state : string;
  upserted : option string
}.
End Classified.

Abbreviation Table := (gmap string Item.attributes).

(** ** The table [odooSpeakRequests] *)

(** [UpdateItem] with a [SET] expression: the item is created when the key is
    new. *)
Definition updateItem (key : string) (set : Item.attributes → Item.attributes)
    (db : Table) : Table :=
  <[key := set (default Item.empty (db !! key))]> db.

Definition getAllRequestsFromDynamo (db : Table) : list (string * Item.attributes) :=
  map_to_list db.

Definition insertRequestToDynamo (attributes : Request.attributes) (db : Table) : Table :=
  <[Js.String (Request.request_id attributes) :=
      {| Item.type := Some (Request.type attributes);
         Item.related_to_type := Some (Request.related_to_type attributes);
         Item.related_to_id := Some (Js.String (Request.related_to_id attributes));
         Item.state := Some "COMPLETED";
         Item.date_created := Some (Request.date_created attributes);
         Item.date_updated := Some (Request.date_updated attributes);
         Item.operator_id := Some (Js.String (Request.operator_id attributes));
         Item.reversed := Some false;
         Item.stock_move_ids := None;
         Item.account_move_id := None;
         Item.cost_center_odoo := None |}]> db.

Definition updateRequestInDynamo (requestId : string)
    (attributes : Request.attributes) (db : Table) : Table :=
  updateItem requestId (λ old,
    {| Item.type := Some (Request.type attributes);
       Item.related_to_type := Some (Request.related_to_type attributes);
       Item.related_to_id := Some (Js.String (Request.related_to_id attributes));
       Item.state := Some "COMPLETED";
       Item.date_created := Some (Request.date_created attributes);
       Item.date_updated := Some (Request.date_updated attributes);
       Item.operator_id := Some (Js.String (Request.operator_id attributes));
       Item.reversed := Some false;
       Item.stock_move_ids := Item.stock_move_ids old;
       Item.account_move_id := Item.account_move_id old;
       Item.cost_center_odoo := Item.cost_center_odoo old |}) db.

Definition set_reversed (b : bool) (old : Item.attributes) : Item.attributes :=
  {| Item.type := Item.type old;
     Item.related_to_type := Item.related_to_type old;
     Item.related_to_id := Item.related_to_id old;
     Item.state := Item.state old;
     Item.date_created := Item.date_created old;
     Item.date_updated := Item.date_updated old;
     Item.operator_id := Item.operator_id old;
     Item.reversed := Some b;
     Item.stock_move_ids := Item.stock_move_ids old;
     Item.account_move_id := Item.account_move_id old;
     Item.cost_center_odoo := Item.cost_center_odoo old |}.

Definition markAsReversed (requestId : string) (db : Table) : Table :=
  updateItem requestId (set_reversed true) db.

Definition resetReversedFlag (requestId : string) (db : Table) : Table :=
  updateItem requestId (set_reversed false) db.

(** ** Reconciliation: [checkAndUpsertRequests] *)

(** [existingItems.find(item => item.request_id === requestId)] *)
Definition find_item (requestId : string)
    (existingItems : list (string * Item.attributes)) :
    option (string * Item.attributes) :=
  List.find (λ item, bool_decide (item.1 = requestId)) existingItems.

(** Body of the loop over the payload. *)
Definition upsert_request (existingItems : list (string * Item.attributes))
    (acc : Table * list Classified.item) (request : Request.attributes) :
    Table * list Classified.item :=
  let '(db, results) := acc in
  let requestId := Js.String (Request.request_id request) in
  match find_item requestId existingItems with
  | None =>
      (insertRequestToDynamo request db,
       results ++ [ {| Classified.cost_center_odoo :=
                         Some (default "" (Request.cost_center_odoo request));
                       Classified.journal_move_id :=
                         Some (default "" (Request.journal_move_id request));
                       Classified.request_id := requestId;
                       Classified.related_to_id := Some (Request.related_to_id request);
                       Classified.related_to_type := Some (Request.related_to_type request);
                       Classified.stock_move_ids := Some [];
                       Classified.state := "COMPLETED";
                       Classified.upserted := Some "INSERTED" |} ])
  | Some existingItem =>
      let db := if Item.is_reversed existingItem.2
                then resetReversedFlag requestId db else db in
      let oldDateUpdated := Item.date_updated existingItem.2 in
      if bool_decide (oldDateUpdated ≠ Some (Request.date_updated request)) then
        (updateRequestInDynamo requestId request db,
         results ++ [ {| Classified.cost_center_odoo :=
                           Some (default "" (Request.cost_center_odoo request));
                         Classified.journal_move_id :=
                           Some (default "" (Request.journal_move_id request));
                         Classified.request_id := requestId;
                         Classified.related_to_id := Some (Request.related_to_id request);
                         Classified.related_to_type := Some (Request.related_to_type request);
                         Classified.stock_move_ids :=
                           Some (default [] (Item.stock_move_ids existingItem.2));
                         Classified.state := "COMPLETED";
                         Classified.upserted := Some "UPDATED" |} ])
      else (db, results)
  end.

(** Body of the loop over the persisted items. *)
Definition reverse_missing (payloadRequestIds : gset string)
    (acc : Table * list Classified.item) (item : string * Item.attributes) :
    Table * list Classified.item :=
  let '(db, results) := acc in
  if bool_decide (item.1 ∉ payloadRequestIds) && negb (Item.is_reversed item.2) then
    (markAsReversed item.1 db,
     results ++ [ {| Classified.cost_center_odoo := None;
                     Classified.journal_move_id := None;
                     Classified.request_id := item.1;
                     Classified.related_to_id := Js.Str <$> Item.related_to_id item.2;
                     Classified.related_to_type := Item.related_to_type item.2;
                     Classified.stock_move_ids := None;
                     Classified.state := "REVERSED";
                     Classified.upserted := None |} ])
  else (db, results).

Definition checkAndUpsertRequests (payloadRequest : list Request.attributes)
    (db : Table) : Table * option (list Classified.item) :=
  let payloadRequestIds : gset string :=
    list_to_set ((λ request, Js.String (Request.request_id request)) <$> payloadRequest) in
  let existingItems := getAllRequestsFromDynamo db in
  let '(db, results) :=
    fold_left (upsert_request existingItems) payloadRequest (db, []) in
  let '(db, results) :=
    fold_left (reverse_missing payloadRequestIds) existingItems (db, results) in
  (db, if bool_decide (0 < length results)%nat then Some results else None).

(** ** Errors, results and effects *)

(** The exceptions of the program, one constructor for each [throw] and for
    each failure raised by the runtime; the handlers that wrap a caught error
    in a new one keep the cause. *)
Inductive Error :=
  | TypeError (reading : string)
  | ReferenceError (name : string)
  | RemoteFailure (call : string)
  | InvalidResponseStructure
  | MaterialCodeMissing
  | FullCodeMissing
  | FolderCodeMissing
  | ErrorPreparingMaterialData (cause : Error)
  | ErrorFetchingCostCenterId (cause : Error)
  | MaterialCodeMissingItem
  | MissingProductReferenceCode
  | CannotPost (quantity : option Z) (stock_id quantity_odoo : Z)
  | NoMatchingProduct (materialCode : string)
  | NoValidInventoryData
  | ErrorPreparingInventory (cause : Error)
  | ErrorPostingStock (cause : Error)
  | ErrorPostingJournal (cause : Error)
  | ErrorUpdatingJournal (cause : Error)
  | ErrorPostingDataToOdoo (cause : Error)
  | FailedStockReversal
  | FailedJournalReversal
  | NoAccountMovement
  | ErrorFetchingAccountMovement (cause : Error)
  | ErrorFetchingStockMovement (cause : Error)
  | ErrorFetchingUserDetails (cause : Error)
  | PostingUnsuccessful
  | EmptyDatasets.

(** A computation that returns or throws. *)
Definition Result (A : Type) : Type := Error + A.

Definition result_bind {A B} (m : Result A) (k : A → Result B) : Result B :=
  match m with inl e => inl e | inr a => k a end.

Notation "'let?' x := m 'in' k" := (result_bind m (λ x, k))
  (at level 10, x pattern, m at level 100, k at level 200).

(** [try { m } catch (error) { throw wrap(error) }] *)
Definition rethrow {A} (wrap : Error → Error) (m : Result A) : Result A :=
  match m with inl e => inl (wrap e) | inr a => inr a end.

(** [l.map(f)] and [l.forEach(f)] where [f] may throw. *)
Fixpoint traverse {A B} (f : A → Result B) (l : list A) : Result (list B) :=
  match l with
  | [] => inr []
  | x :: l => let? y := f x in let? ys := traverse f l in inr (y :: ys)
  end.

(** [l.find(p)] where [p] may throw. *)
Fixpoint find_throwing {A} (p : A → Result bool) (l : list A) : Result (option A) :=
  match l with
  | [] => inr None
  | x :: l => let? b := p x in if b : bool then inr (Some x) else find_throwing p l
  end.

(** ** Data of the translation *)

Module CostCenter.
Record t := { id : string; name : string; code : option string }.
End CostCenter.

Module Account.
Record t := { id : Z; code : option string; name : string }.
End Account.

(** An element of [infraspeakData.included]. *)
Module Included.
Record attrs := {
  material_id : option Z;
  quantity : option Z;
  mean_price : option Z;
  code : option string;
  full_code : option string
}.
Record t := { type : string; attributes : attrs }.
End Included.

(** The response of Infraspeak for one failure or scheduled work. *)
Module Infraspeak.
Record attrs := {
  approved_by_id : option Z;
  completed_date : option string;
  cost_center_id : option Z;
  cost_center_name : option string
}.
Record resource := { attributes : attrs }.
Record response := { data : option resource; included : option (list Included.t) }.
End Infraspeak.

(** A value of [stockMap]. *)
Module StockTotal.
Record t := { totalQuantity : Z; meanPrice : option Z }.
End StockTotal.

(** An element of [material]: built by [processWorkOrder], or by
    [processJournalReversal] with [workOrderId] and [meanPrice] only. *)
Module Material.
Record t := {
  workOrderId : option Js.Id;
  materialId : option Z;
  materialCode : option string;
  folderCode : option string;
  quantity : option Z;
  meanPrice : option Z
}.
End Material.

Module WorkOrder.
Record t := {
  workOrderId : option Js.Id;
  costCenter : option Z;
  material : list Material.t
}.
End WorkOrder.

(** A row of [stock.quant]; [product_id] and [location_id] are the pairs of
    an identifier and a display name that Odoo returns. *)
Module StockQuant.
Record t := {
  id : Z;
  product_id : Z * string;
  location_id : Z * string;
  quantity : Z
}.
End StockQuant.

(** An inventory movement to post. *)
Module Inventory.
Record t := {
  product_id : option Z;
  location_id : option Z;
  location_dest_id : option Z;
  quantity : option Z;
  work_order_id : option Js.Id
}.
End Inventory.

(** ** Calls to Odoo *)

Module StockMove.
(** Argument of [stock.move/create]. *)
Record create := {
  product_id : option Z;
  location_id : option Z;
  location_dest_id : option Z;
  quantity : option Z;
  x_work_order_id : option Js.Id;
  name : string;
  state : string
}.
(** A row of [stock.move/search_read]: the identifiers of its pairs. *)
Record row := {
  row_product_id : option Z;
  row_location_id : option Z;
  row_location_dest_id : option Z;
  row_quantity : option Z;
  row_x_work_order_id : option Js.Id
}.
End StockMove.

Module AccountMove.
(** A line [[0, 0, {account_id, name, debit}]] or
    [[0, 0, {account_id, name, credit}]]; the amount is [None] when it is
    not a number. *)
Inductive line :=
  | Debit (account_id : option Z) (name : string) (debit : option Z)
  | Credit (account_id : option Z) (name : string) (credit : option Z).

(** Argument of [account.move/create]. *)
Record create := {
  ref : option string;
  move_type : string;
  journal_id : Z;
  line_ids : list line;
  x_work_order_id : option Js.Id
}.
End AccountMove.

(** The body of a JSON-RPC answer: [result] is absent when Odoo reports an
    error in the body. *)
Record Response := { result : option Z }.

Inductive OdooCall :=
  | StockMoveCreate (args : StockMove.create)
  | AccountMoveCreate (args : AccountMove.create)
  | AccountMoveActionPost (moveId : Z).

(** The answers of the two remote systems. *)
Record Remote := {
  infraspeak_requests : Result (list Request.attributes);
  infraspeak_cost_centers : Result (list CostCenter.t);
  infraspeak_order : option Js.Id → string → Result Infraspeak.response;
  infraspeak_user : Result (option string * option string);
  odoo_stock_quant : Result (list StockQuant.t);
  odoo_accounts : Result (list Account.t);
  odoo_stock_move_create : StockMove.create → Result Response;
  odoo_account_move_create : AccountMove.create → Result Response;
  odoo_account_move_action_post : Z → Result unit;
  odoo_stock_move_search : option Js.Id → list Z → Result (option (list StockMove.row));
  odoo_account_move_search : option Js.Id → option Z → Result (list (option Z))
}.

(** The state of one invocation: the table and the calls sent to Odoo that
    create or post something. *)
Record World := { table : Table; odoo_log : list OdooCall }.

(** A computation on the world that returns or throws. *)
Definition M (A : Type) : Type := World → World * Result A.

Definition ret {A} (a : A) : M A := λ w, (w, inr a).
Definition throw {A} (e : Error) : M A := λ w, (w, inl e).
Definition lift {A} (r : Result A) : M A := λ w, (w, r).

Definition bind {A B} (m : M A) (k : A → M B) : M B :=
  λ w, match m w with
       | (w', inl e) => (w', inl e)
       | (w', inr a) => k a w'
       end.

Notation "'let!' x := m 'in' k" := (bind m (λ x, k))
  (at level 10, x pattern, m at level 100, k at level 200).

(** [try { m } catch (error) { h error }] *)
Definition catch {A} (m : M A) (h : Error → M A) : M A :=
  λ w, match m w with
       | (w', inl e) => h e w'
       | (w', inr a) => (w', inr a)
       end.

Definition read_table : M Table := λ w, (w, inr (table w)).

Definition write_table (f : Table → Table) : M unit :=
  λ w, ({| table := f (table w); odoo_log := odoo_log w |}, inr tt).

Definition send (call : OdooCall) : M unit :=
  λ w, ({| table := table w; odoo_log := odoo_log w ++ [call] |}, inr tt).

(** How the body of a loop ends: normally, or by [return a]. *)
Inductive Completion (A : Type) := Normal | Return (a : A).
Arguments Normal {A}.
Arguments Return {A} a.

(** [for (let x of l) { body x }] in a function that the body can leave by
    [return]. *)
Fixpoint for_of {A T} (body : T → M (Completion A)) (l : list T) : M (Completion A) :=
  match l with
  | [] => ret Normal
  | x :: l =>
      let! c := body x in
      match c with
      | Return a => ret (Return a)
      | Normal => for_of body l
      end
  end.

(** [await Promise.all(l.map(f))]: every call is started, in the order of
    the list; the first rejection is thrown once all have settled. *)
Fixpoint promise_all {A B} (f : A → M B) (l : list A) : M (list B) :=
  match l with
  | [] => ret []
  | x :: l =>
      λ w, match f x w with
           | (w', inl e) => ((promise_all f l w').1, inl e)
           | (w', inr y) =>
               match promise_all f l w' with
               | (w'', inl e) => (w'', inl e)
               | (w'', inr ys) => (w'', inr (y :: ys))
               end
           end
  end.

(** ** Translation of a completed order *)

Section Translation.
Context (remote : Remote).

Definition getOdooAccounts : M (list Account.t) :=
  lift (rethrow (λ _, RemoteFailure "getOdooAccounts") (odoo_accounts remote)).

(** An account without a code has [code: false], which is not
    [undefined]. *)
Definition getOdooCostCenterId (costCenter : option string) : M Z :=
  catch
    (let! odooAccounts := getOdooAccounts in
     let odooAcccount_Id :=
       filter (λ account, Account.code account = costCenter ∧ is_Some costCenter)
              odooAccounts in
     match odooAcccount_Id with
     | account :: _ => ret (Account.id account)
     | [] => throw (TypeError "id")
     end)
    (λ error, throw (ErrorFetchingCostCenterId error)).

(** The error of the update is caught and logged. *)
Definition saveCostCenterToDynamo (requestId : string) (costCenter : Z) : M unit :=
  write_table (updateItem requestId (λ old,
    {| Item.type := Item.type old;
       Item.related_to_type := Item.related_to_type old;
       Item.related_to_id := Item.related_to_id old;
       Item.state := Item.state old;
       Item.date_created := Item.date_created old;
       Item.date_updated := Item.date_updated old;
       Item.operator_id := Item.operator_id old;
       Item.reversed := Item.reversed old;
       Item.stock_move_ids := Item.stock_move_ids old;
       Item.account_move_id := Item.account_move_id old;
       Item.cost_center_odoo := Some costCenter |})).

(** [costCenterCode] after the lookups by identifier and by name. *)
Definition costCenterCode (attributes : Infraspeak.attrs)
    (costCenters : list CostCenter.t) : option string :=
  let costCenterId := Infraspeak.cost_center_id attributes in
  let costCenterName := Infraspeak.cost_center_name attributes in
  let costCenterCode :=
    if Js.truthy_number costCenterId then
      List.find (λ costCenter,
                   bool_decide (Some (CostCenter.id costCenter) = pretty <$> costCenterId))
                costCenters
      ≫= CostCenter.code
    else None in
  if Js.truthy_string costCenterName && negb (Js.truthy_string costCenterCode) then
    List.find (λ costCenter,
                 bool_decide (Some (CostCenter.name costCenter) = costCenterName))
              costCenters
    ≫= CostCenter.code
  else costCenterCode.

(** The reducer of [stockMap]. *)
Definition aggregate_stock (acc : gmap (option Z) StockTotal.t) (stock : Included.t) :
    gmap (option Z) StockTotal.t :=
  let materialId := Included.material_id (Included.attributes stock) in
  let quantity := default 0 (Included.quantity (Included.attributes stock)) in
  let acc :=
    match acc !! materialId with
    | None =>
        <[materialId :=
            {| StockTotal.totalQuantity := 0;
               StockTotal.meanPrice :=
                 Included.mean_price (Included.attributes stock) |}]> acc
    | Some _ => acc
    end in
  alter (λ total,
           {| StockTotal.totalQuantity := StockTotal.totalQuantity total + quantity;
              StockTotal.meanPrice := StockTotal.meanPrice total |})
        materialId acc.

(** [stockMap]: the stock entries aggregated by [material_id]. *)
Definition stockMap (included : list Included.t) : gmap (option Z) StockTotal.t :=
  fold_left aggregate_stock
    (filter (λ entry, Included.type entry = "stock") included) ∅.

(** The function mapped over the materials: [None] is the [null] of a
    skipped material. *)
Definition material_entry (workOrderId : option Js.Id)
    (stockMap : gmap (option Z) StockTotal.t) (material : Included.t) :
    Result (option Material.t) :=
  let materialId := Included.material_id (Included.attributes material) in
  if negb (Js.truthy_number materialId) then inr None
  else
    let stock :=
      default {| StockTotal.totalQuantity := 0;
                 StockTotal.meanPrice :=
                   Included.mean_price (Included.attributes material) |}
              (stockMap !! materialId) in
    let materialCode := Included.code (Included.attributes material) in
    if negb (Js.truthy_string materialCode) then inl MaterialCodeMissing
    else
      let fullCode := Included.full_code (Included.attributes material) in
      if negb (Js.truthy_string fullCode) then inl FullCodeMissing
      else
        let folderCode := Js.before_dot (default "" fullCode) in
        if bool_decide (folderCode = "") then inl FolderCodeMissing
        else
          inr (Some {| Material.workOrderId := workOrderId;
                       Material.materialId := materialId;
                       Material.materialCode := materialCode;
                       Material.folderCode := Some folderCode;
                       Material.quantity := Some (StockTotal.totalQuantity stock);
                       Material.meanPrice := StockTotal.meanPrice stock |}).

(** [materialData]: the mapped materials without the skipped ones. *)
Definition materialData (workOrderId : option Js.Id) (included : list Included.t) :
    Result (list Material.t) :=
  let materials := filter (λ entry, Included.type entry = "material") included in
  rethrow ErrorPreparingMaterialData
    (let? mapped := traverse (material_entry workOrderId (stockMap included)) materials in
     inr (omap id mapped)).

Definition processWorkOrder (infraspeakData : Infraspeak.response)
    (costCenters : list CostCenter.t) (workOrderId : option Js.Id)
    (orderType : string) (upserted : option string) (requestId : string) :
    M WorkOrder.t :=
  match Infraspeak.data infraspeakData, Infraspeak.included infraspeakData with
  | Some data, Some included =>
      let! costCenter :=
        getOdooCostCenterId (costCenterCode (Infraspeak.attributes data) costCenters) in
      let! _ := saveCostCenterToDynamo requestId costCenter in
      let! materialData := lift (materialData workOrderId included) in
      ret {| WorkOrder.workOrderId := workOrderId;
             WorkOrder.costCenter := Some costCenter;
             WorkOrder.material := materialData |}
  | _, _ => throw InvalidResponseStructure
  end.

End Translation.

(** ** Inventory matching: [prepareInventoryPosting] *)

(** The predicate given to [odooStock.find]. *)
Definition matches_reference (workOrderItem : Material.t) (product : StockQuant.t) :
    Result bool :=
  let productReferenceString := (StockQuant.product_id product).2 in
  match Js.match_bracket productReferenceString with
  | None => inl (TypeError "1")
  | Some productReferenceCode =>
      if bool_decide (productReferenceCode = "") then inl MissingProductReferenceCode
      else
        inr (bool_decide
               (Js.toUpperCase (Js.trim productReferenceCode)
                = Js.toUpperCase
                    (Js.trim (default "" (Material.materialCode workOrderItem)))))
  end.

(** The function given to [processedWorkOrder.forEach]: its result is the
    element pushed to [results]. *)
Definition inventory_item (processedWorkOrder : list Material.t)
    (odooStock : list StockQuant.t) (workOrderItem : Material.t) : Result Inventory.t :=
  if negb (Js.truthy_string (Material.materialCode workOrderItem))
  then inl MaterialCodeMissingItem
  else
    let? matchingProduct := find_throwing (matches_reference workOrderItem) odooStock in
    match matchingProduct with
    | Some matchingProduct =>
        let stock_id_odoo := StockQuant.id matchingProduct in
        let product_id_odoo := (StockQuant.product_id matchingProduct).1 in
        let location_id_odoo := (StockQuant.location_id matchingProduct).1 in
        let quantity_odoo := StockQuant.quantity matchingProduct in
        let newQuantity := Js.sub (Some quantity_odoo) (Material.quantity workOrderItem) in
        if Js.is_negative newQuantity
        then inl (CannotPost (Material.quantity workOrderItem) stock_id_odoo quantity_odoo)
        else
          inr {| Inventory.product_id := Some product_id_odoo;
                 Inventory.location_id := Some location_id_odoo;
                 Inventory.location_dest_id := None;
                 Inventory.quantity := Material.quantity workOrderItem;
                 Inventory.work_order_id :=
                   head processedWorkOrder ≫= Material.workOrderId |}
    | None =>
        inl (NoMatchingProduct (default "" (Material.materialCode workOrderItem)))
    end.

Definition prepareInventoryPosting (processedWorkOrder : list Material.t)
    (odooStock : list StockQuant.t) : Result (list Inventory.t) :=
  rethrow ErrorPreparingInventory
    (let? results := traverse (inventory_item processedWorkOrder odooStock)
                       processedWorkOrder in
     if bool_decide (length results = 0%nat) then inl NoValidInventoryData
     else inr results).

(** ** Posting to Odoo *)

Definition accountJournalId : Z := 16.
Definition accountIdInventories : Z := 482.
Definition locationDestId : Z := 16.

(** What [postToOdoo] returns. *)
Record OdooResponse := { inventory : list (option Z); accounting : option Z }.

Inductive Body := Message (message : string) | ErrorProcessingRequests (error : Error).

Record HttpResponse := { statusCode : Z; body : Body }.

Definition createResponse (message : Body) (statusCode : Z) : HttpResponse :=
  {| statusCode := statusCode; body := message |}.

(** The name of the lines of one material. *)
Definition line_name (accountingData : WorkOrder.t) (orderType state : string)
    (material : Material.t) : string :=
  if bool_decide (state = "REVERSED")
  then orderType +:+ " " +:+ Js.show_id (WorkOrder.workOrderId accountingData)
       +:+ " REVERSED"
  else orderType +:+ " " +:+ Js.show_id (WorkOrder.workOrderId accountingData)
       +:+ " - Ref: " +:+ default "undefined" (Material.materialCode material)
       +:+ " (Qty: " +:+ Js.show_number (Material.quantity material) +:+ ")".

(** [materialLines]: the flattened pairs of lines of the materials. *)
Definition materialLines (accountingData : WorkOrder.t) (costCenterId : option Z)
    (orderType state : string) : list AccountMove.line :=
  let debitAccount :=
    if bool_decide (state = "REVERSED") then costCenterId else Some accountIdInventories in
  let creditAccount :=
    if bool_decide (state = "REVERSED") then Some accountIdInventories else costCenterId in
  concat
    ((λ material,
        let name := line_name accountingData orderType state material in
        let amount :=
          if bool_decide (state = "REVERSED") then Material.meanPrice material
          else Js.mul (Material.meanPrice material) (Material.quantity material) in
        [ AccountMove.Debit debitAccount name amount;
          AccountMove.Credit creditAccount name amount ])
       <$> WorkOrder.material accountingData).

Section Poster.
Context (remote : Remote).

Definition postOdooInventory (data : Inventory.t) (orderType state : string) :
    M Response :=
  let status :=
    if bool_decide (state = "REVERSED") then "Stock Move REVERSED" else "Stock move" in
  let locactionId :=
    if bool_decide (state = "REVERSED") then Some locationDestId
    else Inventory.location_id data in
  let destinationId :=
    if bool_decide (state = "REVERSED") then Inventory.location_id data
    else Some locationDestId in
  let args :=
    {| StockMove.product_id := Inventory.product_id data;
       StockMove.location_id := locactionId;
       StockMove.location_dest_id := destinationId;
       StockMove.quantity := Inventory.quantity data;
       StockMove.x_work_order_id := Inventory.work_order_id data;
       StockMove.name :=
         orderType +:+ " " +:+ Js.show_id (Inventory.work_order_id data)
         +:+ " - " +:+ status;
       StockMove.state := "done" |} in
  let! _ := send (StockMoveCreate args) in
  lift (rethrow ErrorPostingStock (odoo_stock_move_create remote args)).

Definition postOdooAccounting (accountingData : WorkOrder.t)
    (costCenterId : option Z) (orderType state : string) : M Response :=
  let name :=
    last (line_name accountingData orderType state <$> WorkOrder.material accountingData) in
  let materialLines := materialLines accountingData costCenterId orderType state in
  let args :=
    {| AccountMove.ref := name;
       AccountMove.move_type := "entry";
       AccountMove.journal_id := accountJournalId;
       AccountMove.line_ids := materialLines;
       AccountMove.x_work_order_id := WorkOrder.workOrderId accountingData |} in
  let! _ := send (AccountMoveCreate args) in
  lift (rethrow ErrorPostingJournal (odoo_account_move_create remote args)).

(** The document client refuses a list with an [undefined] element; the
    error of the update is caught and logged. *)
Definition saveInventoryResponseToDynamo (requestId : string)
    (inventoryResultIds : list (option Z)) (accountResultId : option Z) : M unit :=
  match mapM id inventoryResultIds with
  | Some stock_move_ids =>
      write_table (updateItem requestId (λ old,
        {| Item.type := Item.type old;
           Item.related_to_type := Item.related_to_type old;
           Item.related_to_id := Item.related_to_id old;
           Item.state := Item.state old;
           Item.date_created := Item.date_created old;
           Item.date_updated := Item.date_updated old;
           Item.operator_id := Item.operator_id old;
           Item.reversed := Item.reversed old;
           Item.stock_move_ids := Some stock_move_ids;
           Item.account_move_id := accountResultId;
           Item.cost_center_odoo := Item.cost_center_odoo old |}))
  | None => ret tt
  end.

Definition updateJournalFromDraftToDone (moveId : Z) : M unit :=
  let! _ := send (AccountMoveActionPost moveId) in
  lift (rethrow ErrorUpdatingJournal (odoo_account_move_action_post remote moveId)).

Definition postToOdoo (inventoryData : list Inventory.t) (accountingData : WorkOrder.t)
    (orderType state requestId : string) : M OdooResponse :=
  catch
    (let! responseInventory :=
       promise_all (λ data, postOdooInventory data orderType state) inventoryData in
     let inventoryResultIds := result <$> responseInventory in
     let! responseAccounting :=
       postOdooAccounting accountingData (WorkOrder.costCenter accountingData)
         orderType state in
     let! _ :=
       match result responseAccounting with
       | Some accountResultId =>
           if bool_decide (requestId ≠ "") && bool_decide (accountResultId ≠ 0) then
             let! _ := saveInventoryResponseToDynamo requestId inventoryResultIds
                         (Some accountResultId) in
             updateJournalFromDraftToDone accountResultId
           else throw (ReferenceError "accountResultId")
       | None => throw (ReferenceError "accountResultId")
       end in
     ret {| inventory := inventoryResultIds;
            accounting := result responseAccounting |})
    (λ error, throw (ErrorPostingDataToOdoo error)).

(** ** Reversal *)

(** [x || null] on a number. *)
Definition nonzero (x : option Z) : option Z :=
  x ≫= (λ n, if bool_decide (n = 0) then None else Some n).

Definition fetchOdooIdsFromDynamo (requestId : string) :
    M (list Z * option Z * option Z) :=
  let! db := read_table in
  let item := db !! requestId in
  ret (default [] (item ≫= Item.stock_move_ids),
       nonzero (item ≫= Item.account_move_id),
       nonzero (item ≫= Item.cost_center_odoo)).

Definition fetchStockMovementOdoo (orderId : option Js.Id) (resultIds : list Z) :
    M (option (list StockMove.row)) :=
  lift (rethrow ErrorFetchingStockMovement (odoo_stock_move_search remote orderId resultIds)).

(** [x || 0] on an identifier. *)
Definition id_or_zero (x : option Js.Id) : Js.Id :=
  match x with
  | Some (Js.Num n) => Js.Num n
  | Some (Js.Str s) => if bool_decide (s = "") then Js.Num 0 else Js.Str s
  | None => Js.Num 0
  end.

Definition processStockReversal (orderId : option Js.Id) (requestId : string)
    (resultIds : list Z) : M (list Inventory.t) :=
  catch
    (let! stockResponse := fetchStockMovementOdoo orderId resultIds in
     ret ((λ item,
             {| Inventory.product_id := nonzero (StockMove.row_product_id item);
                Inventory.location_id := nonzero (StockMove.row_location_id item);
                Inventory.location_dest_id := nonzero (StockMove.row_location_dest_id item);
                Inventory.quantity := Some (default 0 (StockMove.row_quantity item));
                Inventory.work_order_id :=
                  Some (id_or_zero (StockMove.row_x_work_order_id item)) |})
            <$> default [] stockResponse))
    (λ error, throw FailedStockReversal).

(** The branch without a row reads a variable that is not bound there. *)
Definition fetchAccountMovementOdoo (orderId : option Js.Id) (moveId : option Z) :
    M (option Z) :=
  catch
    (let! response := lift (odoo_account_move_search remote orderId moveId) in
     match response with
     | row :: _ => ret row
     | [] => throw (ReferenceError "error")
     end)
    (λ error, throw (ErrorFetchingAccountMovement error)).

Definition processJournalReversal (orderId : option Js.Id) (accountMoveId : option Z)
    (costCenterOdoo : option Z) : M WorkOrder.t :=
  catch
    (let! amount_total := fetchAccountMovementOdoo orderId accountMoveId in
     let materials :=
       [ {| Material.workOrderId := orderId;
            Material.materialId := None;
            Material.materialCode := None;
            Material.folderCode := None;
            Material.quantity := None;
            Material.meanPrice := amount_total |} ] in
     ret {| WorkOrder.workOrderId := orderId;
            WorkOrder.costCenter := costCenterOdoo;
            WorkOrder.material := take 1 materials |})
    (λ error, throw FailedJournalReversal).

(** ** The handler of the request poller *)

Definition getInfraspeakRequests : M (list Request.attributes) :=
  lift (rethrow (λ _, RemoteFailure "getInfraspeakRequests") (infraspeak_requests remote)).

Definition getCostCentersInfraspeak : M (list CostCenter.t) :=
  lift (rethrow (λ _, RemoteFailure "getCostCentersInfraspeak")
          (infraspeak_cost_centers remote)).

Definition getOdooStockQuant : M (list StockQuant.t) :=
  lift (rethrow (λ _, RemoteFailure "getOdooStockQuant") (odoo_stock_quant remote)).

Definition getInfraspeakData (workOrderId : option Js.Id) (orderType : string) :
    M Infraspeak.response :=
  lift (rethrow (λ _, RemoteFailure "getInfraspeakData")
          (infraspeak_order remote workOrderId orderType)).

Definition getUserDetails : M (option string * option string) :=
  lift (rethrow ErrorFetchingUserDetails (infraspeak_user remote)).

(** The body of the loop over the classified items.  The assignments to
    [approvedBy] and [completedDate] are left out: they are read only for
    the text of a notification that is not sent. *)
Definition handle_item (costCenters : list CostCenter.t) (odooStock : list StockQuant.t)
    (item : Classified.item) : M (Completion HttpResponse) :=
  let orderType :=
    if bool_decide (Classified.related_to_type item = Some "FAILURE")
    then "Work Order" else "Planned Order" in
  let! odooResponse :=
    if bool_decide (Classified.state item = "COMPLETED") then
      let! infraspeakData := getInfraspeakData (Classified.related_to_id item) orderType in
      let! _ :=
        match Infraspeak.data infraspeakData with
        | Some data => ret tt
        | None => throw (TypeError "attributes")
        end in
      let! processedWorkOrder :=
        processWorkOrder remote infraspeakData costCenters (Classified.related_to_id item)
          orderType (Classified.upserted item) (Classified.request_id item) in
      let! preparedInventoryPosting :=
        lift (prepareInventoryPosting (WorkOrder.material processedWorkOrder) odooStock) in
      let! odooResponse :=
        postToOdoo preparedInventoryPosting processedWorkOrder orderType
          (Classified.state item) (Classified.request_id item) in
      ret (Some odooResponse)
    else
      let! resultIds := fetchOdooIdsFromDynamo (Classified.request_id item) in
      let! preparedStock :=
        processStockReversal (Classified.related_to_id item)
          (Classified.request_id item) resultIds.1.1 in
      let! preparedJournal :=
        processJournalReversal (Classified.related_to_id item)
          resultIds.1.2 resultIds.2 in
      let! odooResponse :=
        postToOdoo preparedStock preparedJournal orderType
          (Classified.state item) (Classified.request_id item) in
      ret (Some odooResponse) in
  match odooResponse : option OdooResponse with
  | Some _ =>
      ret (Return (createResponse
                     (Message ("Successfully posted " +:+ orderType +:+ " Id "
                               +:+ Js.show_id (Classified.related_to_id item)
                               +:+ " to Odoo."))
                     200))
  | None => throw PostingUnsuccessful
  end.

(** [None] is the end of the function without a [return]. *)
Definition handler : M (option HttpResponse) :=
  catch
    (let! payloadRequest := getInfraspeakRequests in
     let! checkedWithDynamo :=
       (λ w, let checked := checkAndUpsertRequests payloadRequest (table w) in
             ({| table := checked.1; odoo_log := odoo_log w |}, inr checked.2)) in
     match checkedWithDynamo with
     | None =>
         ret (Some (createResponse (Message "Okay. No new Requests to process.") 200))
     | Some checkedWithDynamo =>
         let! costCenters := getCostCentersInfraspeak in
         let! odooStock := getOdooStockQuant in
         let! completion := for_of (handle_item costCenters odooStock) checkedWithDynamo in
         match completion with
         | Return response => ret (Some response)
         | Normal => ret None
         end
     end)
    (λ error,
       let! userDetails := getUserDetails in
       ret (Some (createResponse (ErrorProcessingRequests error) 500))).

End Poster.

(** ** Paginated reads *)

(** The answer of Infraspeak to the GET of one page of a collection:
    [data] when it is an array, and whether [links.next] is there. *)
Module Page.
Record t (A : Type) := { data : option (list A); next : bool }.
Arguments data {A} _.
Arguments next {A} _.
End Page.

(** The loops that read a collection page by page.  A loop is given the
    number of iterations that it may run: [None] says that it is still
    running after that many. *)
Module Paged.

Section Pages.
Context {A : Type}.

(** [fetchRequestOdoo] answers with the body of the reply, whose [result]
    may be absent. *)
Definition fetchRequestOdooPage (fetchRequestOdoo : Z → Z → Result (option (list A)))
    (limit offset : Z) : Result (list A) :=
  rethrow (λ _, RemoteFailure "fetchRequestOdooPage")
    (let? response := fetchRequestOdoo limit offset in
     inr (default [] response)).

(** The [while] of [fetchRequestPaginateOdoo]. *)
Fixpoint fetchRequestPaginateOdoo_from (fuel : nat)
    (fetchRequestOdooPage : Z → Z → Result (list A)) (limit : Z)
    (allResults : list A) (offset : Z) : option (Result (list A)) :=
  match fuel with
  | O => None
  | S fuel =>
      match fetchRequestOdooPage limit offset with
      | inl error => Some (inl error)
      | inr currentBatch =>
          if bool_decide (0 < length currentBatch)%nat then
            fetchRequestPaginateOdoo_from fuel fetchRequestOdooPage limit
              (allResults ++ currentBatch) (offset + limit)
          else Some (inr allResults)
      end
  end.

Definition fetchRequestPaginateOdoo (fuel : nat)
    (fetchRequestOdoo : Z → Z → Result (option (list A))) : option (Result (list A)) :=
  fetchRequestPaginateOdoo_from fuel (fetchRequestOdooPage fetchRequestOdoo) 100 [] 0.

(** The [while (true)] of [getInfraspeakRequests]. *)
Fixpoint getInfraspeakRequests_from (fuel : nat)
    (fetchRequestInfraspeak : Z → Result (Page.t A)) (pageNumber : Z)
    (allRequests : list A) : option (Result (list A)) :=
  match fuel with
  | O => None
  | S fuel =>
      match fetchRequestInfraspeak pageNumber with
      | inl error => Some (inl error)
      | inr response =>
          let allRequests := allRequests ++ default [] (Page.data response) in
          if Page.next response then
            getInfraspeakRequests_from fuel fetchRequestInfraspeak (pageNumber + 1)
              allRequests
          else Some (inr allRequests)
      end
  end.

Definition getInfraspeakRequests (fuel : nat)
    (fetchRequestInfraspeak : Z → Result (Page.t A)) : option (Result (list A)) :=
  rethrow (λ _, RemoteFailure "getInfraspeakRequests")
    <$> getInfraspeakRequests_from fuel fetchRequestInfraspeak 1 [].

End Pages.

End Paged.

(** ** The stock synchroniser *)

Module Sync.

(** A row of [stock.quant]; [warehouse_id] is [false] or a pair. *)
Module Stock.
Record t := {
  id : Z;
  product_id : Z * string;
  warehouse_id : option (Z * string);
  quantity : Z
}.
End Stock.

Module Product.
Record t := {
  stock_quant_ids : list Z;
  standard_price : option Z;
  avg_cost : option Z
}.
End Product.

(** A material of Infraspeak: its [id] and [attributes.code]. *)
Module MaterialRef.
Record t := { id : string; code : option string }.
End MaterialRef.

(** [attributes] of a warehouse of Infraspeak. *)
Module Warehouse.
Record t := { full_code : string; warehouse_id : Z }.
End Warehouse.

(** [attributes] of a record of [warehouses/material-quantities]. *)
Module MaterialQuantity.
Record t := {
  material_id : option Z;
  warehouse_id : option Z;
  stock_quantity : option Js.Id
}.
End MaterialQuantity.

(** An element of the result of [processOdooData]; [MaterialId] is
    [None] when [parseInt] gives [NaN]. *)
Module Row.
Record t := {
  MaterialId : option Z;
  StandardCost : option Z;
  AverageCost : option Z;
  WarehouseId : Z;
  AvailableQty : Z
}.
End Row.

(** The payload of a stock movement, with the one element of [stocks]. *)
Module Movement.
Record t := {
  action : string;
  warehouse_id : Z;
  mean_price : option Z;
  material_id : Z;
  quantity : Z
}.
End Movement.

(** What the callback of [postStockToInfraspeak] returns. *)
Inductive posted (R : Type) := Posted (response : R) | Null | Undefined.
Arguments Posted {R} response.
Arguments Null {R}.
Arguments Undefined {R}.

(** [result !== null] *)
Definition not_null {R} (result : posted R) : bool :=
  match result with Null => false | _ => true end.

(** [parseInt(v, 10)] of a number or a string; [undefined] gives [NaN]. *)
Definition parseInt (v : option Js.Id) : option Z :=
  match v with
  | Some (Js.Num n) => Some n
  | Some (Js.Str s) => Js.parseInt s
  | None => None
  end.

(** [productMap]: the last product that lists a stock quant wins. *)
Definition productMap (productsOdoo : list Product.t) : gmap Z Product.t :=
  fold_left
    (λ acc product,
       fold_left (λ acc stock_id, <[stock_id := product]> acc)
                 (Product.stock_quant_ids product) acc)
    productsOdoo ∅.

(** [materialMap]: the last material of a code wins; a material without
    a code is under the key [undefined]. *)
Definition materialMap (materialInfraspeak : list MaterialRef.t) : gmap (option string) string :=
  fold_left (λ acc material, <[MaterialRef.code material := MaterialRef.id material]> acc)
            materialInfraspeak ∅.

(** The body of the loop of [processOdooData]; [None] is [continue]. *)
Definition process_stock (productMap : gmap Z Product.t)
    (materialMap : gmap (option string) string)
    (warehouseInfraspeak : list Warehouse.t) (stock : Stock.t) : Result (option Row.t) :=
  match productMap !! Stock.id stock with
  | None => inr None
  | Some product =>
      let productReferenceString := (Stock.product_id stock).2 in
      match Js.match_bracket productReferenceString with
      | None => inl (TypeError "1")
      | Some productReferenceCode =>
          match materialMap !! Some productReferenceCode with
          | None => inr None
          | Some materialId =>
              if bool_decide (materialId = "") then inr None
              else
                let warehouseCode :=
                  match Stock.warehouse_id stock with
                  | Some warehouse_id => Js.toLowerCase warehouse_id.2
                  | None => "null"
                  end in
                match List.find (λ warehouse,
                                   Js.includes warehouseCode
                                     (Js.toLowerCase (Warehouse.full_code warehouse)))
                                warehouseInfraspeak with
                | None => inr None
                | Some warehouseDetails =>
                    inr (Some {| Row.MaterialId := Js.parseInt materialId;
                                 Row.StandardCost := Product.standard_price product;
                                 Row.AverageCost := Product.avg_cost product;
                                 Row.WarehouseId := Warehouse.warehouse_id warehouseDetails;
                                 Row.AvailableQty := Stock.quantity stock |})
                end
          end
      end
  end.

Definition processOdooData (stockOdoo : list Stock.t) (productsOdoo : list Product.t)
    (materialInfraspeak : list MaterialRef.t) (warehouseInfraspeak : list Warehouse.t) :
    Result (list Row.t) :=
  if bool_decide (stockOdoo = [] ∨ productsOdoo = [] ∨ materialInfraspeak = []
                  ∨ warehouseInfraspeak = [])
  then inl EmptyDatasets
  else
    let? rows := traverse (process_stock (productMap productsOdoo)
                             (materialMap materialInfraspeak) warehouseInfraspeak)
                   stockOdoo in
    inr (omap (λ row, row) rows).

(** [None] is [null]; [Some None] is [NaN]. *)
Fixpoint getMaterialQuantitiesFromInfraspeak
    (warehouseQuantitiesInfraspeak : list MaterialQuantity.t)
    (materialId warehouseId : Z) : option (option Z) :=
  match warehouseQuantitiesInfraspeak with
  | [] => None
  | qty :: rest =>
      if bool_decide (MaterialQuantity.material_id qty = Some materialId
                      ∧ MaterialQuantity.warehouse_id qty = Some warehouseId)
      then Some (parseInt (MaterialQuantity.stock_quantity qty))
      else getMaterialQuantitiesFromInfraspeak rest materialId warehouseId
  end.

Definition stockMovementPayloadAdd (materialId quantity warehouseId : Z)
    (averageCost : option Z) : Movement.t :=
  {| Movement.action := "ADD";
     Movement.warehouse_id := warehouseId;
     Movement.mean_price := averageCost;
     Movement.material_id := materialId;
     Movement.quantity := quantity |}.

Definition stockMovementPayloadConsume (materialId quantity warehouseId : Z)
    (averageCost : option Z) : Movement.t :=
  {| Movement.action := "ABATE";
     Movement.warehouse_id := warehouseId;
     Movement.mean_price := averageCost;
     Movement.material_id := materialId;
     Movement.quantity := quantity |}.

Section Post.
(** The answer of Infraspeak to the POST of a stock movement. *)
Context {R : Type} (fetchRequestInfraspeak : Movement.t → Result R).

(** A POST inside the [try] of the callback: the movement is sent, a
    failure gives [null]. *)
Definition post (payload : Movement.t) : list Movement.t * posted R :=
  ([payload],
   match fetchRequestInfraspeak payload with
   | inr response => Posted response
   | inl _ => Null
   end).

(** The callback of [stockToPost.map]: the movements it sends and what
    it returns. *)
Definition post_stock (warehouseQtyInfraspeak : list MaterialQuantity.t)
    (warehouse : Row.t) : list Movement.t * posted R :=
  let averageCost := Row.AverageCost warehouse in
  let warehouseId := Row.WarehouseId warehouse in
  let quantityOdoo := Row.AvailableQty warehouse in
  match Row.MaterialId warehouse with
  | Some materialId =>
      if bool_decide (materialId ≠ 0) then
        let quantityInfraspeak :=
          getMaterialQuantitiesFromInfraspeak warehouseQtyInfraspeak
            materialId warehouseId in
        match quantityInfraspeak with
        | Some (Some quantityInfraspeak) =>
            if bool_decide (quantityInfraspeak ≠ 0) then
              if bool_decide (quantityOdoo > quantityInfraspeak) then
                let quantityToAdd := quantityOdoo - quantityInfraspeak in
                post (stockMovementPayloadAdd materialId quantityToAdd
                        warehouseId averageCost)
              else if bool_decide (quantityOdoo < quantityInfraspeak) then
                let quantityToConsume := quantityInfraspeak - quantityOdoo in
                post (stockMovementPayloadConsume materialId quantityToConsume
                        warehouseId averageCost)
              else ([], Null)
            else
              post (stockMovementPayloadAdd materialId quantityOdoo
                      warehouseId averageCost)
        | Some None => ([], Undefined)
        | None =>
            post (stockMovementPayloadAdd materialId quantityOdoo
                    warehouseId averageCost)
        end
      else ([], Null)
  | None => ([], Null)
  end.

(** The movements sent, in the order of the rows, and the results that
    are not [null]. *)
Definition postStockToInfraspeak (stockToPost : list Row.t)
    (warehouseQtyInfraspeak : list MaterialQuantity.t) :
    list Movement.t * list (posted R) :=
  let postedResults := post_stock warehouseQtyInfraspeak <$> stockToPost in
  (concat (fst <$> postedResults),
   filter (λ result, not_null result = true) (snd <$> postedResults)).

End Post.

(** *** The reads of the synchroniser *)

Section Reads.
Context {A : Type}.

(** [fetchRequestOdoo] catches every error and logs it: its result is then
    [undefined]. *)
Definition fetchRequestOdoo (post : Z → Z → Result (option (list A)))
    (limit offset : Z) : option (option (list A)) :=
  match post limit offset with
  | inl error => None
  | inr data => Some data
  end.

(** An answer that is [undefined] or without rows gives the empty page;
    the [catch] of the function is never entered, [fetchRequestOdoo] does
    not throw. *)
Definition fetchRequestOdooPage (post : Z → Z → Result (option (list A)))
    (limit offset : Z) : Result (list A) :=
  inr (default [] (mjoin (fetchRequestOdoo post limit offset))).

(** The loop is the one of the request poller, with pages of 500. *)
Definition fetchRequestPaginateOdoo (fuel : nat)
    (post : Z → Z → Result (option (list A))) : option (Result (list A)) :=
  Paged.fetchRequestPaginateOdoo_from fuel (fetchRequestOdooPage post) 500 [] 0.

End Reads.

(** *** The handler of the synchroniser *)

(** [data.attributes] of the answer to the POST of a stock movement; the
    answer is taken to have them. *)
Module Created.
Record t := { stock_movement_id : option Z }.
End Created.

(** An array of identifiers in a template literal: the elements joined by
    commas, [undefined] as the empty string. *)
Fixpoint show_ids (ids : list (option Z)) : string :=
  match ids with
  | [] => ""
  | id :: rest =>
      match rest with
      | [] => from_option pretty "" id
      | _ => from_option pretty "" id +:+ "," +:+ show_ids rest
      end
  end.

(** [item.data.attributes.stock_movement_id] *)
Definition stock_movement_id (item : posted Created.t) : Result (option Z) :=
  match item with
  | Posted response => inr (Created.stock_movement_id response)
  | Null => inl (TypeError "data")
  | Undefined => inl (TypeError "data")
  end.

(** The movements sent to Infraspeak and the response of the handler, from
    the outcomes of the five reads. *)
Definition handler (fetchRequestInfraspeak : Movement.t → Result Created.t)
    (stockOdoo : Result (list Stock.t)) (productsOdoo : Result (list Product.t))
    (materialInfraspeak : Result (list MaterialRef.t))
    (warehouseInfraspeak : Result (list Warehouse.t))
    (warehouseQtyInfraspeak : Result (list MaterialQuantity.t)) :
    list Movement.t * HttpResponse :=
  match (let? stockOdoo := stockOdoo in
         let? productsOdoo := productsOdoo in
         let? materialInfraspeak := materialInfraspeak in
         let? warehouseInfraspeak := warehouseInfraspeak in
         let? warehouseQtyInfraspeak := warehouseQtyInfraspeak in
         let? processedOdooData :=
           processOdooData stockOdoo productsOdoo materialInfraspeak
             warehouseInfraspeak in
         inr (processedOdooData, warehouseQtyInfraspeak)) with
  | inl error => ([], createResponse (Message "Error handling webhook event") 500)
  | inr fetched =>
      let postedStock := postStockToInfraspeak fetchRequestInfraspeak fetched.1 fetched.2 in
      (postedStock.1,
       match traverse stock_movement_id postedStock.2 with
       | inl error => createResponse (Message "Error handling webhook event") 500
       | inr stockMovementIds =>
           if bool_decide (stockMovementIds = []) then
             createResponse (Message "No stock quantity differences. Nothing to post") 200
           else
             createResponse
               (Message ("Success! Stock-Movement Id(s): " +:+ show_ids stockMovementIds))
               200
       end)
  end.

End Sync.

(** * Definitions for the statements *)

(** What one request adds to the results: it depends on the scanned
    items only. *)
Definition emitted_for (existingItems : list (string * Item.attributes))
    (request : Request.attributes) : list Classified.item :=
  (upsert_request existingItems (∅, []) request).2.

(** What one persisted item adds to the results in the second loop. *)
Definition reversal_for (payloadRequestIds : gset string)
    (item : string * Item.attributes) : list Classified.item :=
  (reverse_missing payloadRequestIds (∅, []) item).2.

(** The string-normalised ids of the payload. *)
Definition payload_ids (payload : list Request.attributes) : gset string :=
  list_to_set ((λ request, Js.String (Request.request_id request)) <$> payload).

(** Everything that one run emits, in order. *)
Definition all_items (payload : list Request.attributes) (db : Table) :
    list Classified.item :=
  concat (emitted_for (getAllRequestsFromDynamo db) <$> payload)
  ++ concat (reversal_for (payload_ids payload) <$> getAllRequestsFromDynamo db).

(** The item that [insertRequestToDynamo] and [updateRequestInDynamo]
    leave for a request: the attributes of the request, state COMPLETED,
    not reversed, with the identifiers of the ledger entries of [old]. *)
Definition written (request : Request.attributes) (old : Item.attributes) :
    Item.attributes :=
  {| Item.type := Some (Request.type request);
     Item.related_to_type := Some (Request.related_to_type request);
     Item.related_to_id := Some (Js.String (Request.related_to_id request));
     Item.state := Some "COMPLETED";
     Item.date_created := Some (Request.date_created request);
     Item.date_updated := Some (Request.date_updated request);
     Item.operator_id := Some (Js.String (Request.operator_id request));
     Item.reversed := Some false;
     Item.stock_move_ids := Item.stock_move_ids old;
     Item.account_move_id := Item.account_move_id old;
     Item.cost_center_odoo := Item.cost_center_odoo old |}.

(** The stock entries of one material, and the sum of their quantities. *)
Definition stock_entries (materialId : option Z) (included : list Included.t) :
    list Included.t :=
  filter (λ entry, Included.type entry = "stock"
                   ∧ Included.material_id (Included.attributes entry) = materialId)
         included.

Definition sum_quantities (entries : list Included.t) : Z :=
  foldr (λ entry total,
           default 0 (Included.quantity (Included.attributes entry)) + total)
        0 entries.

(** The material entries that have a material id. *)
Definition materials_with_id (included : list Included.t) : list Included.t :=
  filter (λ entry, Js.truthy_number (Included.material_id (Included.attributes entry)) = true)
         (filter (λ entry, Included.type entry = "material") included).

(** A material entry that lacks its material id, its code or its full
    code. *)
Definition lacks_required_field (material : Included.t) : Prop :=
  Js.truthy_number (Included.material_id (Included.attributes material)) = false
  ∨ Js.truthy_string (Included.code (Included.attributes material)) = false
  ∨ Js.truthy_string (Included.full_code (Included.attributes material)) = false.

(** A material entry with its code, and a full code with a folder code
    before its first dot. *)
Definition has_codes (material : Included.t) : Prop :=
  Js.truthy_string (Included.code (Included.attributes material)) = true
  ∧ Js.truthy_string (Included.full_code (Included.attributes material)) = true
  ∧ Js.before_dot (default "" (Included.full_code (Included.attributes material))) ≠ "".

(** The reference code of a stock record: the bracketed part of the display
    name of its product. *)
Definition reference_code (product : StockQuant.t) : option string :=
  Js.match_bracket (StockQuant.product_id product).2.

(** Equality of codes up to case and surrounding white space. *)
Definition same_code (a b : string) : Prop :=
  Js.toUpperCase (Js.trim a) = Js.toUpperCase (Js.trim b).

Definition code_matches (materialCode : string) (product : StockQuant.t) : Prop :=
  ∃ code, reference_code product = Some code ∧ same_code code materialCode.

#[global] Instance same_code_dec a b : Decision (same_code a b).
Proof. unfold same_code. apply _. Defined.

#[global] Instance code_matches_dec materialCode product :
  Decision (code_matches materialCode product).
Proof.
  unfold code_matches. destruct (reference_code product) as [code|].
  - destruct (decide (same_code code materialCode)) as [Heq|Hne].
    + left. eauto.
    + right. by intros (code' & [= <-] & Heq).
  - right. by intros (code' & [=] & _).
Defined.

(** A stock record whose display name has a bracketed, non-empty code. *)
Definition well_formed (product : StockQuant.t) : Prop :=
  ∃ code, reference_code product = Some code ∧ code ≠ "".

(** [m] is the first record of the snapshot that matches the code. *)
Definition first_match (materialCode : string) (odooStock : list StockQuant.t)
    (m : StockQuant.t) : Prop :=
  ∃ pre post, odooStock = pre ++ m :: post
    ∧ Forall (λ product, ¬ code_matches materialCode product) pre
    ∧ code_matches materialCode m.

(** The posting that [inventory_item] builds from a matched record. *)
Definition posting_of (lines : list Material.t) (line : Material.t)
    (m : StockQuant.t) : Inventory.t :=
  {| Inventory.product_id := Some (StockQuant.product_id m).1;
     Inventory.location_id := Some (StockQuant.location_id m).1;
     Inventory.location_dest_id := None;
     Inventory.quantity := Material.quantity line;
     Inventory.work_order_id := head lines ≫= Material.workOrderId |}.

(** The journal entries among the calls sent to Odoo. *)
Definition journal_entries (calls : list OdooCall) : list AccountMove.create :=
  omap (λ call, match call with AccountMoveCreate args => Some args | _ => None end) calls.

(** [m] sends at most [n] journal entries, whatever the world and the
    outcome. *)
Definition sends_at_most {A} (n : nat) (m : M A) : Prop :=
  ∀ w : World, ∃ calls,
    odoo_log (m w).1 = odoo_log w ++ calls ∧ (length (journal_entries calls) ≤ n)%nat.

(** The identifiers of the ledger entries kept on an item. *)
Definition ledger_ids (a : Item.attributes) : option (list Z) * option Z * option Z :=
  (Item.stock_move_ids a, Item.account_move_id a, Item.cost_center_odoo a).

(** The requests of a payload that share a string-normalised id share
    [date_updated]. *)
Definition consistent_dates (payload : list Request.attributes) : Prop :=
  ∀ r1 r2, r1 ∈ payload → r2 ∈ payload →
    Js.String (Request.request_id r1) = Js.String (Request.request_id r2) →
    Request.date_updated r1 = Request.date_updated r2.

(** A table on which a payload has nothing left to do: its requests are
    there with their date and not reversed, every other item is reversed. *)
Definition settled (payload : list Request.attributes) (db : Table) : Prop :=
  (∀ request, request ∈ payload →
     ∃ a, db !! Js.String (Request.request_id request) = Some a
          ∧ Item.date_updated a = Some (Request.date_updated request)
          ∧ Item.is_reversed a = false)
  ∧ (∀ k a, db !! k = Some a → k ∉ payload_ids payload → Item.is_reversed a = true).

(** What the reconciliation reads of an item. *)
Definition flags (a : Item.attributes) : option string * option bool :=
  (Item.date_updated a, Item.reversed a).

Definition same_flags (db db' : Table) : Prop :=
  ∀ k, flags <$> db !! k = flags <$> db' !! k.

(** [m] leaves the keys of the table and what the reconciliation reads of
    the items as they are, when the item of [k] is there. *)
Definition keeps_flags {A} (k : string) (m : M A) : Prop :=
  ∀ w, is_Some (table w !! k) → same_flags (table w) (table (m w).1).

(** The stock moves and the postings of journal entries among the calls
    sent to Odoo. *)
Definition stock_moves (calls : list OdooCall) : list StockMove.create :=
  omap (λ call, match call with StockMoveCreate args => Some args | _ => None end) calls.

Definition journal_posts (calls : list OdooCall) : list Z :=
  omap (λ call, match call with AccountMoveActionPost moveId => Some moveId | _ => None end)
       calls.

(** The stock moves that [m] sends from the world [w]. *)
Definition sent_moves {A} (m : M A) (w : World) : list StockMove.create :=
  stock_moves (drop (length (odoo_log w)) (odoo_log (m w).1)).

(** The row that [stock.move/search_read] gives for a created move. *)
Definition row_of (args : StockMove.create) : StockMove.row :=
  {| StockMove.row_product_id := StockMove.product_id args;
     StockMove.row_location_id := StockMove.location_id args;
     StockMove.row_location_dest_id := StockMove.location_dest_id args;
     StockMove.row_quantity := StockMove.quantity args;
     StockMove.row_x_work_order_id := StockMove.x_work_order_id args |}.

(** [reversed] moves the product and the quantity of [posted] the other
    way. *)
Definition mirrors (posted reversed : StockMove.create) : Prop :=
  StockMove.location_id reversed = StockMove.location_dest_id posted
  ∧ StockMove.location_dest_id reversed = StockMove.location_id posted
  ∧ StockMove.product_id reversed = StockMove.product_id posted
  ∧ StockMove.quantity reversed = StockMove.quantity posted.

(** An inventory movement with a product, a location and a quantity. *)
Definition has_ids (data : Inventory.t) : Prop :=
  (∃ product, Inventory.product_id data = Some product ∧ product ≠ 0)
  ∧ (∃ location, Inventory.location_id data = Some location ∧ location ≠ 0)
  ∧ is_Some (Inventory.quantity data).

(** Odoo holds [rows] and answers the request of a page with its slice of
    them. *)
Definition serves {A} (rows : list A)
    (fetchRequestOdoo : Z → Z → Result (option (list A))) : Prop :=
  ∀ limit offset : nat,
    fetchRequestOdoo (Z.of_nat limit) (Z.of_nat offset)
    = inr (Some (take limit (drop offset rows))).

(** The answers to the first requests of a paginated read are the
    non-empty [batches], one for each page of [limit] rows. *)
Definition answers {A} (batches : list (list A)) (limit : Z)
    (fetchRequestOdoo : Z → Z → Result (option (list A))) : Prop :=
  Forall (λ batch, batch ≠ []) batches
  ∧ ∀ (i : nat) batch, batches !! i = Some batch →
      fetchRequestOdoo limit (limit * Z.of_nat i) = inr (Some batch).

(** The name of a line of a journal entry. *)
Definition line_label (line : AccountMove.line) : string :=
  match line with
  | AccountMove.Debit _ name _ => name
  | AccountMove.Credit _ name _ => name
  end.

(** The field quantity after a movement, taking [ADD] to add its quantity
    and [ABATE] to subtract it. *)
Definition apply_movement (quantity : Z) (movement : Sync.Movement.t) : Z :=
  if bool_decide (Sync.Movement.action movement = "ADD")
  then quantity + Sync.Movement.quantity movement
  else quantity - Sync.Movement.quantity movement.

(** The id that Infraspeak gives for a movement. *)
Definition movement_id (fetchRequestInfraspeak : Sync.Movement.t → Result Sync.Created.t)
    (payload : Sync.Movement.t) : option Z :=
  match fetchRequestInfraspeak payload with
  | inr response => Sync.Created.stock_movement_id response
  | inl _ => None
  end.

(** A row whose field quantity, when Infraspeak has a record of it, is a
    number. *)
Definition readable (warehouseQtyInfraspeak : list Sync.MaterialQuantity.t)
    (row : Sync.Row.t) : Prop :=
  ∀ materialId, Sync.Row.MaterialId row = Some materialId →
    Sync.getMaterialQuantitiesFromInfraspeak warehouseQtyInfraspeak materialId
      (Sync.Row.WarehouseId row) ≠ Some None.

(** What the first record of the material and the warehouse gives as its
    [stock_quantity]; [None] when Infraspeak has no record of them. *)
Definition reported (warehouseQtyInfraspeak : list Sync.MaterialQuantity.t)
    (materialId warehouseId : Z) : option (option Js.Id) :=
  Sync.MaterialQuantity.stock_quantity <$>
    List.find (λ qty,
                 bool_decide (Sync.MaterialQuantity.material_id qty = Some materialId
                              ∧ Sync.MaterialQuantity.warehouse_id qty = Some warehouseId))
              warehouseQtyInfraspeak.

(** A stock quantity that is the whole number [n], as a number or as its
    decimal numeral, in the range where a JavaScript number is exact. *)
Definition whole (v : option Js.Id) (n : Z) : Prop :=
  Z.abs n < 2 ^ 53 ∧ (v = Some (Js.Num n) ∨ v = Some (Js.Str (pretty n))).

(** * Concrete inputs *)

Module Inputs.

Definition request (request_id : Z) (date_updated : string) : Request.attributes :=
  {| Request.request_id := Js.Num request_id;
     Request.type := "MATERIAL_REQUEST";
     Request.related_to_type := "FAILURE";
     Request.related_to_id := Js.Num 100;
     Request.date_created := "2024-01-01";
     Request.date_updated := date_updated;
     Request.operator_id := Js.Num 3;
     Request.cost_center_odoo := None;
     Request.journal_move_id := None;
     Request.stock_move_ids := None |}.

Definition persisted (date_updated : string) (reversed : bool) : Item.attributes :=
  {| Item.type := Some "MATERIAL_REQUEST";
     Item.related_to_type := Some "FAILURE";
     Item.related_to_id := Some "100";
     Item.state := Some "COMPLETED";
     Item.date_created := Some "2024-01-01";
     Item.date_updated := Some date_updated;
     Item.operator_id := Some "3";
     Item.reversed := Some reversed;
     Item.stock_move_ids := Some [501];
     Item.account_move_id := Some 900;
     Item.cost_center_odoo := Some 77 |}.

Definition entry (type : string) (material_id quantity mean_price : option Z)
    (code full_code : option string) : Included.t :=
  {| Included.type := type;
     Included.attributes :=
       {| Included.material_id := material_id;
          Included.quantity := quantity;
          Included.mean_price := mean_price;
          Included.code := code;
          Included.full_code := full_code |} |}.

Definition order (included : list Included.t) : Infraspeak.response :=
  {| Infraspeak.data :=
       Some {| Infraspeak.attributes :=
                 {| Infraspeak.approved_by_id := Some 3;
                    Infraspeak.completed_date := Some "2024-01-01";
                    Infraspeak.cost_center_id := Some 12;
                    Infraspeak.cost_center_name := None |} |};
     Infraspeak.included := Some included |}.

Definition costCenters : list CostCenter.t :=
  [ {| CostCenter.id := "12"; CostCenter.name := "Workshop";
       CostCenter.code := Some "6100" |} ].

Definition quant (id product : Z) (display : string) (quantity : Z) : StockQuant.t :=
  {| StockQuant.id := id;
     StockQuant.product_id := (product, display);
     StockQuant.location_id := (8, "WH/Stock");
     StockQuant.quantity := quantity |}.

(** Remote systems that answer every call. *)
Definition remote (included : list Included.t) (odooStock : list StockQuant.t) : Remote :=
  {| infraspeak_requests := inr [];
     infraspeak_cost_centers := inr costCenters;
     infraspeak_order := λ _ _, inr (order included);
     infraspeak_user := inr (None, None);
     odoo_stock_quant := inr odooStock;
     odoo_accounts :=
       inr [ {| Account.id := 77; Account.code := Some "6100";
                Account.name := "Workshop" |} ];
     odoo_stock_move_create := λ _, inr {| result := Some 501 |};
     odoo_account_move_create := λ _, inr {| result := Some 900 |};
     odoo_account_move_action_post := λ _, inr tt;
     odoo_stock_move_search := λ _ _, inr (Some []);
     odoo_account_move_search := λ _ _, inr [Some 40] |}.

Definition world : World := {| table := ∅; odoo_log := [] |}.

Definition widget : Included.t :=
  entry "material" (Some 5) None (Some 2) (Some "WID-001") (Some "EL.WID-001").

(** Two stock entries of 3 and 5 for one material: one line of 8, at the
    price of the first entry. *)
Definition two_entries : list Included.t :=
  [ widget;
    entry "stock" (Some 5) (Some 3) (Some 10) None None;
    entry "stock" (Some 5) (Some 5) (Some 20) None None ].

(** A material without an id next to a valid one, and a material without
    a code. *)
Definition without_id : list Included.t :=
  [ entry "material" None None (Some 2) (Some "NUT-002") (Some "EL.NUT-002"); widget ].

Definition without_code : list Included.t :=
  [ widget; entry "material" (Some 6) None (Some 2) None (Some "EL.NUT-002") ].

Definition line (materialCode : string) (quantity : Z) : Material.t :=
  {| Material.workOrderId := Some (Js.Num 100);
     Material.materialId := Some 5;
     Material.materialCode := Some materialCode;
     Material.folderCode := Some "EL";
     Material.quantity := Some quantity;
     Material.meanPrice := Some 10 |}.

(** A record without brackets before the record that matches. *)
Definition unlabelled_first : list StockQuant.t :=
  [ quant 1 8 "Unlabelled widget" 10; quant 2 9 "Widget [WID-001]" 10 ].

Definition stockOdoo : list Sync.Stock.t :=
  [ {| Sync.Stock.id := 1; Sync.Stock.product_id := (8, "Unlabelled widget");
       Sync.Stock.warehouse_id := Some (1, "Main"); Sync.Stock.quantity := 10 |};
    {| Sync.Stock.id := 2; Sync.Stock.product_id := (9, "Widget [WID-001]");
       Sync.Stock.warehouse_id := Some (1, "Main"); Sync.Stock.quantity := 12 |} ].

Definition productsOdoo : list Sync.Product.t :=
  [ {| Sync.Product.stock_quant_ids := [1]; Sync.Product.standard_price := Some 2;
       Sync.Product.avg_cost := Some 3 |};
    {| Sync.Product.stock_quant_ids := [2]; Sync.Product.standard_price := Some 2;
       Sync.Product.avg_cost := Some 3 |} ].

Definition materialInfraspeak : list Sync.MaterialRef.t :=
  [ {| Sync.MaterialRef.id := "5"; Sync.MaterialRef.code := Some "WID-001" |} ].

Definition warehouseInfraspeak : list Sync.Warehouse.t :=
  [ {| Sync.Warehouse.full_code := "WH.MAIN"; Sync.Warehouse.warehouse_id := 2 |} ].

Definition row (ledger : Z) : Sync.Row.t :=
  {| Sync.Row.MaterialId := Some 5; Sync.Row.StandardCost := Some 2;
     Sync.Row.AverageCost := Some 3; Sync.Row.WarehouseId := 2;
     Sync.Row.AvailableQty := ledger |}.

Definition field (quantity : Z) : Sync.MaterialQuantity.t :=
  {| Sync.MaterialQuantity.material_id := Some 5;
     Sync.MaterialQuantity.warehouse_id := Some 2;
     Sync.MaterialQuantity.stock_quantity := Some (Js.Num quantity) |}.

(** Infraspeak accepts every movement. *)
Definition accept (payload : Sync.Movement.t) : Result Z := inr 1.

(** Two new requests in one poll, and stock for both. *)
Definition two_requests : Remote :=
  {| infraspeak_requests := inr [request 7 "2024-01-01"; request 9 "2024-01-01"];
     infraspeak_cost_centers := inr costCenters;
     infraspeak_order := λ _ _, inr (order two_entries);
     infraspeak_user := inr (None, None);
     odoo_stock_quant := inr [quant 1 9 "Widget [WID-001]" 20];
     odoo_accounts :=
       inr [ {| Account.id := 77; Account.code := Some "6100";
                Account.name := "Workshop" |} ];
     odoo_stock_move_create := λ _, inr {| result := Some 501 |};
     odoo_account_move_create := λ _, inr {| result := Some 900 |};
     odoo_account_move_action_post := λ _, inr tt;
     odoo_stock_move_search := λ _ _, inr (Some []);
     odoo_account_move_search := λ _ _, inr [Some 40] |}.
End Inputs.

(** Further inputs: remote systems that refuse a call, paginated
    collections and a snapshot of the synchroniser. *)
Module Cases.

Import Inputs.

Definition posting : Inventory.t :=
  {| Inventory.product_id := Some 9;
     Inventory.location_id := Some 8;
     Inventory.location_dest_id := None;
     Inventory.quantity := Some 2;
     Inventory.work_order_id := Some (Js.Num 100) |}.

Definition workOrder : WorkOrder.t :=
  {| WorkOrder.workOrderId := Some (Js.Num 100);
     WorkOrder.costCenter := Some 77;
     WorkOrder.material := [line "WID-001" 2] |}.

(** Odoo refuses every stock move. *)
Definition refusing_stock_moves : Remote :=
  {| infraspeak_requests := inr [];
     infraspeak_cost_centers := inr costCenters;
     infraspeak_order := λ _ _, inr (order []);
     infraspeak_user := inr (None, None);
     odoo_stock_quant := inr [];
     odoo_accounts := inr [];
     odoo_stock_move_create := λ _, inl (RemoteFailure "fetchRequestOdoo");
     odoo_account_move_create := λ _, inr {| result := Some 900 |};
     odoo_account_move_action_post := λ _, inr tt;
     odoo_stock_move_search := λ _ _, inr (Some []);
     odoo_account_move_search := λ _ _, inr [] |}.

(** Odoo gives back the move of [posting] as it was created. *)
Definition replaying : Remote :=
  {| infraspeak_requests := inr [];
     infraspeak_cost_centers := inr costCenters;
     infraspeak_order := λ _ _, inr (order []);
     infraspeak_user := inr (None, None);
     odoo_stock_quant := inr [];
     odoo_accounts := inr [];
     odoo_stock_move_create := λ _, inr {| result := Some 501 |};
     odoo_account_move_create := λ _, inr {| result := Some 900 |};
     odoo_account_move_action_post := λ _, inr tt;
     odoo_stock_move_search := λ _ _,
       inr (Some [ {| StockMove.row_product_id := Some 9;
                      StockMove.row_location_id := Some 8;
                      StockMove.row_location_dest_id := Some 16;
                      StockMove.row_quantity := Some 2;
                      StockMove.row_x_work_order_id := Some (Js.Num 100) |} ]);
     odoo_account_move_search := λ _ _, inr [Some 40] |}.

(** A collection of Odoo read by slices. *)
Definition served (rows : list Z) (limit offset : Z) : Result (option (list Z)) :=
  inr (Some (take (Z.to_nat limit) (drop (Z.to_nat offset) rows))).

(** Odoo answers the first page and fails on the second. *)
Definition failing_after_first (limit offset : Z) : Result (option (list Z)) :=
  if bool_decide (offset = 0) then inr (Some [1; 2])
  else inl (RemoteFailure "fetchRequestOdoo").

(** Two pages of Infraspeak. *)
Definition two_pages (pageNumber : Z) : Result (Page.t Z) :=
  if bool_decide (pageNumber = 1)
  then inr {| Page.data := Some [1]; Page.next := true |}
  else inr {| Page.data := Some [2]; Page.next := false |}.

(** A stock record with a bracketed code, and the product that lists it. *)
Definition labelled : list Sync.Stock.t :=
  [ {| Sync.Stock.id := 2; Sync.Stock.product_id := (9, "Widget [WID-001]");
       Sync.Stock.warehouse_id := Some (1, "Main"); Sync.Stock.quantity := 12 |} ].

(** Infraspeak refuses every movement. *)
Definition refuse (payload : Sync.Movement.t) : Result Sync.Created.t :=
  inl (RemoteFailure "fetchRequestInfraspeak").

(** Infraspeak accepts every movement and gives its id. *)
Definition accept' (payload : Sync.Movement.t) : Result Sync.Created.t :=
  inr {| Sync.Created.stock_movement_id := Some 1 |}.

(** A record of Infraspeak without a stock quantity. *)
Definition unreadable : Sync.MaterialQuantity.t :=
  {| Sync.MaterialQuantity.material_id := Some 5;
     Sync.MaterialQuantity.warehouse_id := Some 2;
     Sync.MaterialQuantity.stock_quantity := None |}.

(** A record of Infraspeak with a quantity that is not whole. *)
Definition decimal : Sync.MaterialQuantity.t :=
  {| Sync.MaterialQuantity.material_id := Some 5;
     Sync.MaterialQuantity.warehouse_id := Some 2;
     Sync.MaterialQuantity.stock_quantity := Some (Js.Str "7.9") |}.

(** An item that the reconciliation classified as reversed. *)
Definition retracted : Classified.item :=
  {| Classified.cost_center_odoo := None;
     Classified.journal_move_id := None;
     Classified.request_id := "7";
     Classified.related_to_id := Some (Js.Str "100");
     Classified.related_to_type := Some "FAILURE";
     Classified.stock_move_ids := None;
     Classified.state := "REVERSED";
     Classified.upserted := None |}.

(** The row that [processOdooData] makes of [labelled]. *)
Definition mapped : Sync.Row.t :=
  {| Sync.Row.MaterialId := Some 5; Sync.Row.StandardCost := Some 2;
     Sync.Row.AverageCost := Some 3; Sync.Row.WarehouseId := 2;
     Sync.Row.AvailableQty := 12 |}.

End Cases.

(** * Properties *)

(** Unfolds the operations on the world. *)
Ltac run :=
  unfold bind, catch, ret, throw, lift, rethrow, read_table, write_table, send in *;
  simpl in *.

(** Loops as left folds: invariants. *)
Section Folds.
Context {A B : Type} (f : A → B → A).

(** A property of the accumulator that every iteration keeps is kept by
    the loop. *)
Lemma fold_left_invariant (Φ : A → Prop) (l : list B) (a : A) :
  (∀ a b, b ∈ l → Φ a → Φ (f a b)) → Φ a → Φ (fold_left f l a).
Proof.
  revert a. induction l as [|b l IH]; intros a Hstep HΦ; [done|].
  simpl. apply IH.
  - intros ?? Hin. apply Hstep. by right.
  - apply Hstep; [by left|done].
Qed.

(** [Φ] holds until the iteration on [b], which turns it into [Ψ]; [Ψ]
    is kept from then on. *)
Lemma fold_left_establish (Φ Ψ : A → Prop) (l : list B) (a : A) (b : B) :
  b ∈ l → Φ a →
  (∀ a b', b' ∈ l → Φ a → Φ (f a b')) →
  (∀ a, Φ a → Ψ (f a b)) →
  (∀ a b', b' ∈ l → Ψ a → Ψ (f a b')) →
  Ψ (fold_left f l a).
Proof.
  intros Hin HΦ Hkeep Hest Hkeep'.
  apply list_elem_of_split in Hin as (pre & post & ->).
  rewrite fold_left_app. simpl.
  apply fold_left_invariant.
  - intros ?? Hin. apply Hkeep'. rewrite elem_of_app, elem_of_cons. tauto.
  - apply Hest, fold_left_invariant; [|done].
    intros ?? Hin. apply Hkeep. rewrite elem_of_app. tauto.
Qed.

(** A loop whose iterations all leave the accumulator as it is. *)
Lemma fold_left_fixed (l : list B) (a : A) :
  (∀ b, b ∈ l → f a b = a) → fold_left f l a = a.
Proof.
  induction l as [|b l IH]; intros Hfix; [done|]. simpl.
  rewrite Hfix by by left. apply IH. intros b' Hin. apply Hfix. by right.
Qed.
End Folds.

(** * Properties of the reconciliation *)

Section Reconciliation.

Implicit Types (db : Table) (k requestId : string).
Implicit Types (request : Request.attributes) (results : list Classified.item).

#[local] Arguments upsert_request : simpl never.
#[local] Arguments reverse_missing : simpl never.

(** [find] over the scanned items is the lookup in the table. *)
Lemma find_item_scan db k :
  find_item k (getAllRequestsFromDynamo db) = pair k <$> db !! k.
Proof.
  unfold find_item, getAllRequestsFromDynamo.
  destruct (List.find _ _) as [[k' a]|] eqn:Hfind.
  - apply find_some in Hfind as [Hin Hk].
    apply bool_decide_eq_true in Hk. simpl in Hk. subst k'.
    apply list_elem_of_In, elem_of_map_to_list in Hin. by rewrite Hin.
  - destruct (db !! k) as [a|] eqn:Hk; [|done].
    apply elem_of_map_to_list, list_elem_of_In in Hk.
    eapply find_none in Hfind; [|exact Hk].
    simpl in Hfind. by rewrite bool_decide_eq_false in Hfind.
Qed.

Lemma updateItem_lookup_eq k set db :
  updateItem k set db !! k = Some (set (default Item.empty (db !! k))).
Proof. unfold updateItem. by rewrite lookup_insert_eq. Qed.

Lemma updateItem_lookup_ne k k' set db :
  k ≠ k' → updateItem k set db !! k' = db !! k'.
Proof. intros. unfold updateItem. by rewrite lookup_insert_ne. Qed.

Lemma upsert_request_results existingItems db results request :
  (upsert_request existingItems (db, results) request).2
  = results ++ emitted_for existingItems request.
Proof.
  unfold emitted_for, upsert_request.
  destruct (find_item _ _) as [e|]; [|done].
  case_bool_decide; simpl; by rewrite ?app_nil_r.
Qed.

Lemma upsert_request_lookup_ne existingItems db results request k :
  Js.String (Request.request_id request) ≠ k →
  (upsert_request existingItems (db, results) request).1 !! k = db !! k.
Proof.
  intros Hne. unfold upsert_request.
  destruct (find_item _ _) as [e|]; simpl.
  - unfold updateRequestInDynamo, resetReversedFlag.
    destruct (Item.is_reversed _); case_bool_decide; simpl;
      by rewrite ?updateItem_lookup_ne.
  - unfold insertRequestToDynamo. by rewrite lookup_insert_ne.
Qed.

Lemma fold_upsert_results existingItems payload db results :
  (fold_left (upsert_request existingItems) payload (db, results)).2
  = results ++ concat (emitted_for existingItems <$> payload).
Proof.
  revert db results. induction payload as [|request payload IH]; intros db results; simpl.
  - by rewrite app_nil_r.
  - destruct (upsert_request existingItems (db, results) request) as [db1 results1] eqn:Hstep.
    rewrite IH. replace results1 with (upsert_request existingItems (db, results) request).2
      by by rewrite Hstep.
    by rewrite upsert_request_results, <- app_assoc.
Qed.

Lemma fold_upsert_lookup_ne existingItems payload db results k :
  (∀ request, request ∈ payload → Js.String (Request.request_id request) ≠ k) →
  (fold_left (upsert_request existingItems) payload (db, results)).1 !! k = db !! k.
Proof.
  intros Hne.
  apply (fold_left_invariant _ (λ acc, acc.1 !! k = db !! k)); [|done].
  intros [db' results'] request Hin <-. apply upsert_request_lookup_ne; auto.
Qed.

Lemma reverse_missing_results ids db results item :
  (reverse_missing ids (db, results) item).2 = results ++ reversal_for ids item.
Proof.
  unfold reversal_for, reverse_missing.
  destruct (_ && _); simpl; by rewrite ?app_nil_r.
Qed.

Lemma fold_reverse_results ids items db results :
  (fold_left (reverse_missing ids) items (db, results)).2
  = results ++ concat (reversal_for ids <$> items).
Proof.
  revert db results. induction items as [|item items IH]; intros db results; simpl.
  - by rewrite app_nil_r.
  - destruct (reverse_missing ids (db, results) item) as [db1 results1] eqn:Hstep.
    rewrite IH. replace results1 with (reverse_missing ids (db, results) item).2
      by by rewrite Hstep.
    by rewrite reverse_missing_results, <- app_assoc.
Qed.

Lemma reverse_missing_lookup_ne ids db results item k :
  item.1 ≠ k → (reverse_missing ids (db, results) item).1 !! k = db !! k.
Proof.
  intros Hne. unfold reverse_missing, markAsReversed.
  destruct (_ && _); simpl; by rewrite ?updateItem_lookup_ne.
Qed.

Lemma fold_reverse_lookup_skip ids items db results k :
  (k ∈ ids ∨ ∀ a, (k, a) ∈ items → Item.is_reversed a = true) →
  (fold_left (reverse_missing ids) items (db, results)).1 !! k = db !! k.
Proof.
  intros Hskip.
  apply (fold_left_invariant _ (λ acc, acc.1 !! k = db !! k)); [|done].
  intros [db' results'] [k' a] Hin <-.
  destruct (decide (k' = k)) as [->|]; [|by apply reverse_missing_lookup_ne].
  unfold reverse_missing. simpl.
  destruct Hskip as [Hk|Hrev].
  - by rewrite bool_decide_eq_false_2 by tauto.
  - by rewrite (Hrev a Hin), andb_false_r.
Qed.

Lemma set_reversed_idemp b a : set_reversed b (set_reversed b a) = set_reversed b a.
Proof. done. Qed.

Lemma fold_reverse_lookup_mark ids items db results k a :
  k ∉ ids → (k, a) ∈ items → Item.is_reversed a = false →
  (fold_left (reverse_missing ids) items (db, results)).1 !! k
  = Some (set_reversed true (default Item.empty (db !! k))).
Proof.
  intros Hk Hin Hrev.
  set (marked := Some (set_reversed true (default Item.empty (db !! k)))).
  assert (Hmark : ∀ (acc : Table * list Classified.item) item,
             acc.1 !! k = db !! k ∨ acc.1 !! k = marked →
             (reverse_missing ids acc item).1 !! k = db !! k ∨
             (reverse_missing ids acc item).1 !! k = marked).
  { intros [db' results'] [k' a'] Hacc.
    destruct (decide (k' = k)) as [->|]; [|by rewrite reverse_missing_lookup_ne].
    unfold reverse_missing, markAsReversed. simpl in *.
    destruct (_ && _); simpl; [right|done].
    rewrite updateItem_lookup_eq. by destruct Hacc as [->| ->]. }
  apply (fold_left_establish _
           (λ acc, acc.1 !! k = db !! k ∨ acc.1 !! k = marked)
           (λ acc, acc.1 !! k = marked) items (db, results) (k, a)); auto.
  - intros [db' results'] Hacc.
    unfold reverse_missing, markAsReversed. simpl in *.
    rewrite bool_decide_eq_true_2, Hrev by done. simpl.
    rewrite updateItem_lookup_eq. by destruct Hacc as [->| ->].
  - intros [db' results'] [k' a'] _ Hacc. simpl in *.
    destruct (decide (k' = k)) as [->|]; [|by rewrite reverse_missing_lookup_ne].
    unfold reverse_missing, markAsReversed. simpl.
    destruct (_ && _); simpl; [|done].
    by rewrite updateItem_lookup_eq, Hacc.
Qed.

(** The first loop, seen from one key of the table. *)
Lemma fold_upsert_establish (Φ Ψ : option Item.attributes → Prop)
    existingItems payload request k db results :
  request ∈ payload → Φ (db !! k) →
  (∀ db results request', request' ∈ payload →
     Js.String (Request.request_id request') = k → Φ (db !! k) →
     Φ ((upsert_request existingItems (db, results) request').1 !! k)) →
  (∀ db results, Φ (db !! k) →
     Ψ ((upsert_request existingItems (db, results) request).1 !! k)) →
  (∀ db results request', request' ∈ payload →
     Js.String (Request.request_id request') = k → Ψ (db !! k) →
     Ψ ((upsert_request existingItems (db, results) request').1 !! k)) →
  Ψ ((fold_left (upsert_request existingItems) payload (db, results)).1 !! k).
Proof.
  intros Hin HΦ Hkeep Hest Hkeep'.
  apply (fold_left_establish _ (λ acc, Φ (acc.1 !! k)) (λ acc, Ψ (acc.1 !! k))
           payload (db, results) request); auto.
  - intros [db' results'] request' Hin' H'. simpl in *.
    destruct (decide (Js.String (Request.request_id request') = k)); [by auto|].
    by rewrite upsert_request_lookup_ne.
  - intros [db' results'] H'. by apply Hest.
  - intros [db' results'] request' Hin' H'. simpl in *.
    destruct (decide (Js.String (Request.request_id request') = k)); [by auto|].
    by rewrite upsert_request_lookup_ne.
Qed.

(** Unfolds one iteration of the first loop at the key [k] of its
    request, [Heq] being the equation between that key and [k]. *)
Ltac upsert_step Heq :=
  unfold upsert_request, insertRequestToDynamo, updateRequestInDynamo,
    resetReversedFlag;
  rewrite ?Heq, ?find_item_scan;
  repeat match goal with
    | H : ?db !! ?k = _ |- context [?db !! ?k] => rewrite H
    end;
  simpl;
  repeat match goal with
    | |- context [bool_decide _] => case_bool_decide
    | |- context [Item.is_reversed ?x] => destruct (Item.is_reversed x) eqn:?
    end;
  simpl;
  rewrite ?updateItem_lookup_eq, ?lookup_insert_eq;
  repeat match goal with
    | H : ?db !! ?k = _ |- context [?db !! ?k] => rewrite H
    end;
  simpl.

(** A request without a persisted item leaves a fresh item. *)
Lemma fold_upsert_inserted payload db0 db results request k :
  request ∈ payload → Js.String (Request.request_id request) = k →
  db0 !! k = None →
  ∃ a, (fold_left (upsert_request (getAllRequestsFromDynamo db0)) payload
          (db, results)).1 !! k = Some a
       ∧ Item.state a = Some "COMPLETED" ∧ Item.reversed a = Some false.
Proof.
  intros Hin Hk Hnone.
  apply (fold_upsert_establish (λ _, True)
           (λ o, ∃ a, o = Some a ∧ Item.state a = Some "COMPLETED"
                      ∧ Item.reversed a = Some false) _ payload request);
    auto.
  - intros db' results' _. upsert_step Hk. eauto.
  - intros db' results' request' _ Heq _. upsert_step Heq. eauto.
Qed.

(** A request whose [date_updated] differs from the persisted one leaves
    an updated item that keeps the persisted [stock_move_ids]. *)
Lemma fold_upsert_updated payload db0 results request k e :
  request ∈ payload → Js.String (Request.request_id request) = k →
  db0 !! k = Some e →
  Item.date_updated e ≠ Some (Request.date_updated request) →
  ∃ a, (fold_left (upsert_request (getAllRequestsFromDynamo db0)) payload
          (db0, results)).1 !! k = Some a
       ∧ Item.state a = Some "COMPLETED" ∧ Item.reversed a = Some false
       ∧ Item.stock_move_ids a = Item.stock_move_ids e.
Proof.
  intros Hin Hk He Hdate.
  apply (fold_upsert_establish
           (λ o, ∃ a, o = Some a ∧ Item.stock_move_ids a = Item.stock_move_ids e)
           (λ o, ∃ a, o = Some a ∧ Item.state a = Some "COMPLETED"
                      ∧ Item.reversed a = Some false
                      ∧ Item.stock_move_ids a = Item.stock_move_ids e)
           _ payload request); eauto.
  - intros db' results' request' _ Heq (a & Ha & Hids).
    upsert_step Heq; eauto.
  - intros db' results' (a & Ha & Hids).
    upsert_step Hk; try done; eauto.
  - intros db' results' request' _ Heq (a & Ha & Hst & Hrev & Hids).
    upsert_step Heq; eauto.
Qed.

(** A persisted item whose key is in the payload is not reversed after
    the first loop: its flag is [false], or still absent when the item never
    had one. *)
Lemma fold_upsert_not_reversed payload db0 results request k e :
  request ∈ payload → Js.String (Request.request_id request) = k →
  db0 !! k = Some e →
  ∃ a, (fold_left (upsert_request (getAllRequestsFromDynamo db0)) payload
          (db0, results)).1 !! k = Some a
       ∧ Item.is_reversed a = false
       ∧ (is_Some (Item.reversed e) → Item.reversed a = Some false).
Proof.
  intros Hin Hk He.
  set (Ψ := λ o : option Item.attributes,
         ∃ a, o = Some a ∧ Item.is_reversed a = false
              ∧ (is_Some (Item.reversed e) → Item.reversed a = Some false)).
  assert (Hflag : Item.is_reversed e = false → is_Some (Item.reversed e) →
                  Item.reversed e = Some false).
  { unfold Item.is_reversed. by intros Hfalse [[] Hb]; rewrite Hb in Hfalse |- *. }
  assert (Hstep : ∀ db results request',
             Js.String (Request.request_id request') = k →
             db !! k = db0 !! k ∨ Ψ (db !! k) →
             Ψ ((upsert_request (getAllRequestsFromDynamo db0) (db, results) request').1 !! k)).
  { intros db' results' request' Heq [Hsame|(a & Ha & Hrev & Hset)]; unfold Ψ.
    - rewrite He in Hsame. upsert_step Heq; eauto 10.
    - upsert_step Heq; eauto 10. }
  apply (fold_upsert_establish (λ o, o = db0 !! k ∨ Ψ o) Ψ _ payload request); auto.
Qed.

(** When the requests of one key agree on [date_updated], the item of that
    key carries this date after the first loop and is not reversed. *)
Lemma fold_upsert_settled payload db0 results request k :
  request ∈ payload → Js.String (Request.request_id request) = k →
  (∀ request', request' ∈ payload →
     Js.String (Request.request_id request') = k →
     Request.date_updated request' = Request.date_updated request) →
  ∃ a, (fold_left (upsert_request (getAllRequestsFromDynamo db0)) payload
          (db0, results)).1 !! k = Some a
       ∧ Item.date_updated a = Some (Request.date_updated request)
       ∧ Item.is_reversed a = false.
Proof.
  intros Hin Hk Hagree.
  set (Ψ := λ o : option Item.attributes,
         ∃ a, o = Some a ∧ Item.date_updated a = Some (Request.date_updated request)
              ∧ Item.is_reversed a = false).
  assert (Hstep : ∀ db results request', request' ∈ payload →
             Js.String (Request.request_id request') = k →
             db !! k = db0 !! k ∨ Ψ (db !! k) →
             Ψ ((upsert_request (getAllRequestsFromDynamo db0) (db, results) request').1 !! k)).
  { intros db' results' request' Hin' Heq HΦ; unfold Ψ.
    pose proof (Hagree request' Hin' Heq) as Hd.
    destruct (db0 !! k) as [e|] eqn:He.
    - destruct HΦ as [Hsame|(a & Ha & Hdt & Hrev)].
      + upsert_step Heq;
          (eexists; split; [done|]; split; [simpl; congruence|done]).
      + upsert_step Heq;
          (eexists; split; [done|]; split; [simpl; congruence|done]).
    - upsert_step Heq;
        (eexists; split; [done|]; split; [simpl; congruence|done]). }
  apply (fold_upsert_establish (λ o, o = db0 !! k ∨ Ψ o) Ψ _ payload request); auto.
Qed.

(** The first loop keeps the ledger identifiers of a persisted item. *)
Lemma fold_upsert_ledger_ids payload db0 results k e :
  db0 !! k = Some e →
  ∃ a, (fold_left (upsert_request (getAllRequestsFromDynamo db0)) payload
          (db0, results)).1 !! k = Some a
       ∧ ledger_ids a = ledger_ids e.
Proof.
  intros He.
  apply (fold_left_invariant _
           (λ acc, ∃ a, acc.1 !! k = Some a ∧ ledger_ids a = ledger_ids e));
    [|simpl; eauto].
  intros [db results'] request _ (a & Ha & Hids). simpl in Ha.
  destruct (decide (Js.String (Request.request_id request) = k)) as [Heq|Hne].
  - upsert_step Heq; eauto.
  - rewrite upsert_request_lookup_ne by done. eauto.
Qed.

(** The last request of a new id leaves its item. *)
Lemma fold_upsert_last_insert pre request post db0 db results k :
  Js.String (Request.request_id request) = k → db0 !! k = None →
  Forall (λ later, Js.String (Request.request_id later) ≠ k) post →
  (fold_left (upsert_request (getAllRequestsFromDynamo db0)) (pre ++ request :: post)
     (db, results)).1 !! k
  = Some (written request Item.empty).
Proof.
  intros Hk Hnone Hpost. rewrite fold_left_app. simpl.
  destruct (fold_left _ pre _) as [db1 results1].
  destruct (upsert_request _ (db1, results1) request) as [db2 results2] eqn:Hstep.
  rewrite fold_upsert_lookup_ne by (rewrite Forall_forall in Hpost; auto).
  replace db2 with (upsert_request (getAllRequestsFromDynamo db0) (db1, results1)
                      request).1 by by rewrite Hstep.
  upsert_step Hk. done.
Qed.

(** The last request of a persisted id with another date leaves its
    attributes on the item. *)
Lemma fold_upsert_last_update pre request post db0 results k e :
  Js.String (Request.request_id request) = k → db0 !! k = Some e →
  Item.date_updated e ≠ Some (Request.date_updated request) →
  Forall (λ later, Js.String (Request.request_id later) = k →
                   Item.date_updated e = Some (Request.date_updated later)) post →
  (fold_left (upsert_request (getAllRequestsFromDynamo db0)) (pre ++ request :: post)
     (db0, results)).1 !! k
  = Some (written request e).
Proof.
  intros Hk He Hdate Hpost. rewrite fold_left_app. simpl.
  destruct (fold_upsert_ledger_ids pre db0 results k e He) as (a & Ha & Hids).
  destruct (fold_left _ pre _) as [db1 results1]. simpl in Ha.
  apply (fold_left_invariant _ (λ acc, acc.1 !! k = Some (written request e))).
  - intros [db results'] later Hin Hacc. simpl in Hacc.
    destruct (decide (Js.String (Request.request_id later) = k)) as [Heq|Hne].
    + rewrite Forall_forall in Hpost. pose proof (Hpost later Hin Heq) as Hsame.
      upsert_step Heq; done.
    + by rewrite upsert_request_lookup_ne.
  - injection Hids as Hstock Haccount Hcenter.
    upsert_step Hk; try done; unfold written; congruence.
Qed.

(** Requests that all carry the persisted date leave the item as it is,
    but for its flag. *)
Lemma fold_upsert_unchanged payload db0 results request k e :
  request ∈ payload → Js.String (Request.request_id request) = k →
  db0 !! k = Some e →
  (∀ other, other ∈ payload → Js.String (Request.request_id other) = k →
     Item.date_updated e = Some (Request.date_updated other)) →
  (fold_left (upsert_request (getAllRequestsFromDynamo db0)) payload
     (db0, results)).1 !! k
  = Some (if Item.is_reversed e then set_reversed false e else e).
Proof.
  intros Hin Hk He Hsame.
  set (kept := Some (if Item.is_reversed e then set_reversed false e else e)).
  assert (Hstep : ∀ db results request', request' ∈ payload →
             Js.String (Request.request_id request') = k →
             db !! k = Some e ∨ db !! k = kept →
             (upsert_request (getAllRequestsFromDynamo db0) (db, results) request').1 !! k
             = kept).
  { intros db results' request' Hin' Heq Hacc. unfold kept in *.
    pose proof (Hsame request' Hin' Heq) as Hd.
    destruct Hacc as [Hacc|Hacc]; upsert_step Heq; done. }
  apply (fold_upsert_establish (λ o, o = Some e ∨ o = kept) (λ o, o = kept)
           _ payload request); auto.
Qed.

Lemma elem_of_payload_ids payload k :
  k ∈ payload_ids payload
  ↔ k ∈ (λ request, Js.String (Request.request_id request)) <$> payload.
Proof. unfold payload_ids. by rewrite elem_of_list_to_set. Qed.

Lemma checkAndUpsertRequests_table payload db :
  (checkAndUpsertRequests payload db).1
  = (fold_left (reverse_missing (payload_ids payload)) (getAllRequestsFromDynamo db)
       (fold_left (upsert_request (getAllRequestsFromDynamo db)) payload (db, []))).1.
Proof.
  unfold checkAndUpsertRequests. fold (payload_ids payload).
  destruct (fold_left (upsert_request _) _ _) as [db1 results1].
  by destruct (fold_left (reverse_missing _) _ _) as [db2 results2].
Qed.

Lemma checkAndUpsertRequests_returned payload db :
  (checkAndUpsertRequests payload db).2
  = match all_items payload db with [] => None | items => Some items end.
Proof.
  unfold checkAndUpsertRequests. fold (payload_ids payload).
  pose proof (fold_upsert_results (getAllRequestsFromDynamo db) payload db []) as H1.
  destruct (fold_left (upsert_request _) _ _) as [db1 results1].
  pose proof (fold_reverse_results (payload_ids payload)
                (getAllRequestsFromDynamo db) db1 results1) as H2.
  destruct (fold_left (reverse_missing _) _ _) as [db2 results2].
  simpl in *. subst results1 results2. fold (all_items payload db).
  by destruct (all_items payload db).
Qed.

Lemma checkAndUpsertRequests_lookup_present payload db k :
  k ∈ (λ request, Js.String (Request.request_id request)) <$> payload →
  (checkAndUpsertRequests payload db).1 !! k
  = (fold_left (upsert_request (getAllRequestsFromDynamo db)) payload (db, [])).1 !! k.
Proof.
  intros Hk. rewrite checkAndUpsertRequests_table.
  destruct (fold_left (upsert_request _) _ _) as [db1 results1].
  apply fold_reverse_lookup_skip. left. by apply elem_of_payload_ids.
Qed.

Lemma checkAndUpsertRequests_lookup_absent payload db k :
  k ∉ (λ request, Js.String (Request.request_id request)) <$> payload →
  (checkAndUpsertRequests payload db).1 !! k
  = (λ e, if Item.is_reversed e then e else set_reversed true e) <$> db !! k.
Proof.
  intros Hk. rewrite checkAndUpsertRequests_table.
  assert (Hne : ∀ request, request ∈ payload →
                  Js.String (Request.request_id request) ≠ k).
  { intros request Hin Heq. apply Hk, list_elem_of_fmap. eauto. }
  pose proof (fold_upsert_lookup_ne (getAllRequestsFromDynamo db) payload db [] k Hne) as H1.
  destruct (fold_left (upsert_request _) _ _) as [db1 results1]. simpl in H1.
  destruct (db !! k) as [e|] eqn:He; simpl.
  - destruct (Item.is_reversed e) eqn:Hrev.
    + rewrite fold_reverse_lookup_skip; [done|].
      right. intros a Ha. apply elem_of_map_to_list in Ha. congruence.
    + rewrite (fold_reverse_lookup_mark _ _ _ _ _ e).
      * by rewrite H1.
      * by rewrite elem_of_payload_ids.
      * by apply elem_of_map_to_list.
      * done.
  - rewrite fold_reverse_lookup_skip; [done|].
    right. intros a Ha. apply elem_of_map_to_list in Ha. congruence.
Qed.

Lemma emitted_for_scan db request :
  emitted_for (getAllRequestsFromDynamo db) request
  = match db !! Js.String (Request.request_id request) with
    | None =>
        [ {| Classified.cost_center_odoo :=
               Some (default "" (Request.cost_center_odoo request));
             Classified.journal_move_id :=
               Some (default "" (Request.journal_move_id request));
             Classified.request_id := Js.String (Request.request_id request);
             Classified.related_to_id := Some (Request.related_to_id request);
             Classified.related_to_type := Some (Request.related_to_type request);
             Classified.stock_move_ids := Some [];
             Classified.state := "COMPLETED";
             Classified.upserted := Some "INSERTED" |} ]
    | Some existing =>
        if decide (Item.date_updated existing = Some (Request.date_updated request))
        then []
        else
          [ {| Classified.cost_center_odoo :=
                 Some (default "" (Request.cost_center_odoo request));
               Classified.journal_move_id :=
                 Some (default "" (Request.journal_move_id request));
               Classified.request_id := Js.String (Request.request_id request);
               Classified.related_to_id := Some (Request.related_to_id request);
               Classified.related_to_type := Some (Request.related_to_type request);
               Classified.stock_move_ids :=
                 Some (default [] (Item.stock_move_ids existing));
               Classified.state := "COMPLETED";
               Classified.upserted := Some "UPDATED" |} ]
    end.
Proof.
  unfold emitted_for, upsert_request. rewrite find_item_scan.
  destruct (db !! _) as [e|]; simpl; [|done].
  case_bool_decide; case_decide; done.
Qed.

Lemma reversal_for_state ids k a x :
  x ∈ reversal_for ids (k, a) →
  Classified.state x = "REVERSED" ∧ Classified.request_id x = k
  ∧ (k ∉ ids) ∧ Item.is_reversed a = false.
Proof.
  unfold reversal_for, reverse_missing.
  destruct (bool_decide _) eqn:Hk, (Item.is_reversed _) eqn:Hrev; simpl;
    rewrite ?elem_of_nil, ?list_elem_of_singleton; try done.
  intros ->. apply bool_decide_eq_true in Hk. done.
Qed.

Lemma emitted_for_request_id db request x :
  x ∈ emitted_for (getAllRequestsFromDynamo db) request →
  Classified.request_id x = Js.String (Request.request_id request).
Proof.
  rewrite emitted_for_scan.
  destruct (db !! _) as [e|]; [case_decide|];
    rewrite ?elem_of_nil, ?list_elem_of_singleton; by try intros ->.
Qed.

Lemma elem_of_all_items payload db x :
  x ∈ all_items payload db ↔
    (∃ request, request ∈ payload
                ∧ x ∈ emitted_for (getAllRequestsFromDynamo db) request)
    ∨ (∃ k a, db !! k = Some a ∧ x ∈ reversal_for (payload_ids payload) (k, a)).
Proof.
  unfold all_items. rewrite elem_of_app, !list_elem_of_In, !in_concat.
  split.
  - intros [(l & Hl & Hx)|(l & Hl & Hx)];
      apply list_elem_of_In, list_elem_of_fmap in Hl as (y & -> & Hy);
      apply list_elem_of_In in Hx; [left; eauto|right].
    destruct y as [k a]. apply elem_of_map_to_list in Hy. eauto.
  - intros [(request & Hin & Hx)|(k & a & Hk & Hx)]; [left|right];
      eexists; (split; [|apply list_elem_of_In, Hx]);
      apply list_elem_of_In, list_elem_of_fmap; eexists; (split; [done|]);
      [done|by apply elem_of_map_to_list].
Qed.

Lemma returned_items payload db :
  default [] (checkAndUpsertRequests payload db).2 = all_items payload db.
Proof. rewrite checkAndUpsertRequests_returned. by destruct (all_items _ _). Qed.

(** C1. [checkAndUpsertRequests] classifies every request of the payload by
    its string-normalised [request_id] against the persisted items: without
    a persisted item it leaves a new item (state COMPLETED, not reversed)
    and emits one classified item with state COMPLETED, upserted INSERTED
    and no stock moves; with a persisted item whose [date_updated] differs
    it updates the item and emits one classified item with upserted UPDATED
    and the persisted [stock_move_ids]; with an unchanged [date_updated] it
    emits nothing.  The other emitted items are those of the second loop:
    one item with state REVERSED for every persisted item that is not
    reversed and whose id is not in the payload, and nothing for the other
    persisted items.  The function returns null exactly when nothing was
    emitted.  The item stored for an id is that of the last request that
    writes it: the attributes of the request, with its [date_updated], and
    the ledger identifiers of the persisted item (none after an insertion).
    When every request of an id carries the persisted [date_updated], no
    emitted item has that id and the persisted item is kept, but for its
    flag. *)
Theorem C1_checkAndUpsertRequests_classifies
    (payloadRequest : list Request.attributes) (db : Table) :
  ∃ (emitted reversals : list (list Classified.item)),
    let out := checkAndUpsertRequests payloadRequest db in
    let produced := concat emitted ++ concat reversals in
    (out.2 = None ↔ produced = [])
    ∧ (∀ results, out.2 = Some results → results = produced)
    ∧ Forall2 (λ request items,
        let requestId := Js.String (Request.request_id request) in
        match db !! requestId with
        | None =>
            (∃ item, items = [item]
               ∧ Classified.request_id item = requestId
               ∧ Classified.state item = "COMPLETED"
               ∧ Classified.upserted item = Some "INSERTED"
               ∧ Classified.stock_move_ids item = Some [])
            ∧ (∃ a, out.1 !! requestId = Some a
                 ∧ Item.state a = Some "COMPLETED"
                 ∧ Item.reversed a = Some false)
        | Some existing =>
            if decide (Item.date_updated existing = Some (Request.date_updated request))
            then items = []
            else
              (∃ item, items = [item]
                 ∧ Classified.request_id item = requestId
                 ∧ Classified.state item = "COMPLETED"
                 ∧ Classified.upserted item = Some "UPDATED"
                 ∧ Classified.stock_move_ids item
                   = Some (default [] (Item.stock_move_ids existing)))
              ∧ (∃ a, out.1 !! requestId = Some a
                   ∧ Item.state a = Some "COMPLETED"
                   ∧ Item.reversed a = Some false
                   ∧ Item.stock_move_ids a = Item.stock_move_ids existing)
        end) payloadRequest emitted
    ∧ Forall2 (λ persisted items,
        if decide (persisted.1
                   ∈ (λ request, Js.String (Request.request_id request))
                     <$> payloadRequest)
        then items = []
        else if Item.is_reversed persisted.2 then items = []
        else ∃ item, items = [item]
               ∧ Classified.request_id item = persisted.1
               ∧ Classified.state item = "REVERSED"
               ∧ Classified.upserted item = None)
        (getAllRequestsFromDynamo db) reversals
    ∧ (∀ pre request post, payloadRequest = pre ++ request :: post →
         let requestId := Js.String (Request.request_id request) in
         match db !! requestId with
         | None =>
             Forall (λ later, Js.String (Request.request_id later) ≠ requestId) post →
             out.1 !! requestId = Some (written request Item.empty)
         | Some existing =>
             Item.date_updated existing ≠ Some (Request.date_updated request) →
             Forall (λ later,
                       Js.String (Request.request_id later) = requestId →
                       Item.date_updated existing
                       = Some (Request.date_updated later)) post →
             out.1 !! requestId = Some (written request existing)
         end)
    ∧ (∀ request existing, request ∈ payloadRequest →
         let requestId := Js.String (Request.request_id request) in
         db !! requestId = Some existing →
         (∀ other, other ∈ payloadRequest →
            Js.String (Request.request_id other) = requestId →
            Item.date_updated existing = Some (Request.date_updated other)) →
         Forall (λ item, Classified.request_id item ≠ requestId) produced
         ∧ out.1 !! requestId
           = Some (if Item.is_reversed existing
                   then set_reversed false existing else existing)).
Proof.
  exists (emitted_for (getAllRequestsFromDynamo db) <$> payloadRequest),
    (reversal_for (payload_ids payloadRequest) <$> getAllRequestsFromDynamo db).
  cbv zeta. rewrite checkAndUpsertRequests_returned. fold (all_items payloadRequest db).
  split; [by destruct (all_items _ _)|].
  split; [by destruct (all_items _ _); intros; simplify_eq|].
  assert (Hpresent : ∀ request, request ∈ payloadRequest →
            Js.String (Request.request_id request)
            ∈ (λ request, Js.String (Request.request_id request)) <$> payloadRequest).
  { intros request Hin. apply list_elem_of_fmap. eauto. }
  split; [|split; [|split]].
  - apply Forall2_fmap_r, Forall_Forall2_diag, Forall_forall.
    intros request Hin. unfold compose. cbv zeta.
    rewrite emitted_for_scan, checkAndUpsertRequests_lookup_present by auto.
    destruct (db !! _) as [e|] eqn:He.
    + case_decide; [done|]. split; [eauto 10|].
      by eapply fold_upsert_updated.
    + split; [eauto 10|]. by eapply fold_upsert_inserted.
  - apply Forall2_fmap_r, Forall_Forall2_diag, Forall_forall.
    intros [k a] _. unfold compose, reversal_for, reverse_missing. simpl.
    case_decide as Hk.
    + by rewrite bool_decide_eq_false_2
        by (rewrite elem_of_payload_ids; tauto).
    + rewrite bool_decide_eq_true_2 by by rewrite elem_of_payload_ids.
      destruct (Item.is_reversed a); simpl; eauto 10.
  - intros pre request post ->.
    rewrite checkAndUpsertRequests_lookup_present
      by (apply Hpresent; rewrite elem_of_app, elem_of_cons; tauto).
    destruct (db !! _) as [e|] eqn:He.
    + intros Hdate Hpost. by apply fold_upsert_last_update.
    + intros Hpost. by apply fold_upsert_last_insert.
  - intros request existing Hin He Hsame. split.
    + apply Forall_forall. intros item Hitem Heq.
      apply elem_of_all_items in Hitem
        as [(request' & Hin' & Hitem)|(k & a & Hk & Hitem)].
      * pose proof (emitted_for_request_id _ _ _ Hitem) as Hid.
        rewrite Heq in Hid. symmetry in Hid.
        rewrite emitted_for_scan, Hid, He in Hitem.
        rewrite decide_True in Hitem by auto.
        by apply elem_of_nil in Hitem.
      * apply reversal_for_state in Hitem as (_ & Hid & Hk' & _).
        apply Hk'. rewrite elem_of_payload_ids, <- Hid, Heq. auto.
    + rewrite checkAndUpsertRequests_lookup_present by auto.
      by eapply fold_upsert_unchanged.
Qed.

(** C2. After one run of [checkAndUpsertRequests], a persisted item is
    still in the table; if its key is absent from the payload and it was
    not reversed it is now reversed and a classified item with state
    REVERSED was emitted for it; if its key is in the payload it is not
    reversed (its flag is [false], or absent when the item never had the
    attribute); if it is absent and was already reversed it is unchanged and
    no classified item carries its key. *)
Theorem C2_reversed_flag_after_run
    (payloadRequest : list Request.attributes) (db : Table)
    (k : string) (e : Item.attributes) :
  db !! k = Some e →
  let out := checkAndUpsertRequests payloadRequest db in
  let present :=
    k ∈ (λ request, Js.String (Request.request_id request)) <$> payloadRequest in
  let items := default [] out.2 in
  is_Some (out.1 !! k)
  ∧ (¬ present → Item.is_reversed e = false →
       (∃ e', out.1 !! k = Some e' ∧ Item.reversed e' = Some true)
       ∧ (∃ item, item ∈ items ∧ Classified.request_id item = k
                  ∧ Classified.state item = "REVERSED"))
  ∧ (present →
       ∃ e', out.1 !! k = Some e' ∧ Item.is_reversed e' = false
             ∧ (is_Some (Item.reversed e) → Item.reversed e' = Some false))
  ∧ (¬ present → Item.is_reversed e = true →
       out.1 !! k = Some e
       ∧ ∀ item, item ∈ items → Classified.request_id item ≠ k).
Proof.
  intros He out present items. subst out items. rewrite returned_items.
  assert (Hpresent : present →
            ∃ e', (checkAndUpsertRequests payloadRequest db).1 !! k = Some e'
                  ∧ Item.is_reversed e' = false
                  ∧ (is_Some (Item.reversed e) → Item.reversed e' = Some false)).
  { intros Hk. rewrite checkAndUpsertRequests_lookup_present by done.
    apply list_elem_of_fmap in Hk as (request & -> & Hin).
    by eapply fold_upsert_not_reversed. }
  split; [|split; [|split]]; [|intros Hk Hrev| |intros Hk Hrev].
  - destruct (decide present) as [Hk|Hk].
    + destruct (Hpresent Hk) as (e' & -> & _). eauto.
    + rewrite checkAndUpsertRequests_lookup_absent, He by done. eauto.
  - rewrite checkAndUpsertRequests_lookup_absent, He by done. simpl.
    rewrite Hrev. split; [eauto|].
    eexists. split; [|split].
    + apply elem_of_all_items. right. exists k, e. split; [done|].
      unfold reversal_for, reverse_missing. simpl.
      rewrite bool_decide_eq_true_2, Hrev by (by rewrite elem_of_payload_ids).
      simpl. apply list_elem_of_singleton. reflexivity.
    + done.
    + done.
  - done.
  - rewrite checkAndUpsertRequests_lookup_absent, He by done. simpl.
    rewrite Hrev. split; [done|].
    intros x [(request & Hin & Hx)|(k' & a & Ha & Hx)]%elem_of_all_items Heq.
    + apply emitted_for_request_id in Hx. apply Hk, list_elem_of_fmap.
      exists request. split; [congruence|done].
    + apply reversal_for_state in Hx as (_ & Hid & _ & Hnot).
      assert (k' = k) by congruence. subst k'. congruence.
Qed.

(** C3 (amended). When the requests of the payload that share a
    string-normalised [request_id] also share [date_updated] (in particular
    when the ids of the payload are pairwise distinct), a second run of
    [checkAndUpsertRequests] on the same payload over the table left by the
    first run returns null and leaves the table as it is. *)
Theorem C3_second_run_returns_null
    (payloadRequest : list Request.attributes) (db : Table) :
  (∀ r1 r2, r1 ∈ payloadRequest → r2 ∈ payloadRequest →
     Js.String (Request.request_id r1) = Js.String (Request.request_id r2) →
     Request.date_updated r1 = Request.date_updated r2) →
  let first := checkAndUpsertRequests payloadRequest db in
  checkAndUpsertRequests payloadRequest first.1 = (first.1, None).
Proof.
  intros Hagree first.
  assert (H1 : fold_left (upsert_request (getAllRequestsFromDynamo first.1))
                 payloadRequest (first.1, []) = (first.1, [])).
  { apply fold_left_fixed. intros request Hin.
    assert (Hk : Js.String (Request.request_id request)
                 ∈ (λ request, Js.String (Request.request_id request))
                     <$> payloadRequest).
    { apply list_elem_of_fmap. eauto. }
    destruct (fold_upsert_settled payloadRequest db [] request _ Hin eq_refl)
      as (a & Ha & Hdate & Hrev).
    { intros request' Hin' Heq. by apply Hagree. }
    rewrite <- checkAndUpsertRequests_lookup_present in Ha by done.
    unfold upsert_request. rewrite find_item_scan. fold first in Ha.
    rewrite Ha. simpl. rewrite Hrev, Hdate.
    by rewrite bool_decide_eq_false_2 by (intros Hne; by apply Hne). }
  assert (H2 : fold_left (reverse_missing (payload_ids payloadRequest))
                 (getAllRequestsFromDynamo first.1) (first.1, []) = (first.1, [])).
  { apply fold_left_fixed. intros [k a] Hin.
    apply elem_of_map_to_list in Hin.
    unfold reverse_missing. simpl.
    destruct (decide (k ∈ payload_ids payloadRequest)) as [Hk|Hk].
    - by rewrite bool_decide_eq_false_2 by tauto.
    - rewrite elem_of_payload_ids in Hk.
      unfold first in Hin.
      rewrite checkAndUpsertRequests_lookup_absent in Hin by done.
      destruct (db !! k) as [e|]; simplify_eq/=.
      destruct (Item.is_reversed e) eqn:Hrev.
      + by rewrite Hrev, andb_false_r.
      + by rewrite andb_false_r. }
  unfold checkAndUpsertRequests at 1. fold (payload_ids payloadRequest).
  by rewrite H1, H2.
Qed.

End Reconciliation.

(** ** Concrete runs of the reconciliation *)

Module ReconciliationExamples.

Import Inputs.

(** A first sighting is inserted and classified. *)
Example first_sighting :
  (checkAndUpsertRequests [request 7 "2024-01-01"] ∅).2
  = Some [ {| Classified.cost_center_odoo := Some "";
              Classified.journal_move_id := Some "";
              Classified.request_id := "7";
              Classified.related_to_id := Some (Js.Num 100);
              Classified.related_to_type := Some "FAILURE";
              Classified.stock_move_ids := Some [];
              Classified.state := "COMPLETED";
              Classified.upserted := Some "INSERTED" |} ].
Proof. vm_compute. reflexivity. Qed.

(** A persisted request that the payload omits is classified REVERSED. *)
Example retraction :
  (checkAndUpsertRequests [] {["7" := persisted "2024-01-01" false]}).2
  = Some [ {| Classified.cost_center_odoo := None;
              Classified.journal_move_id := None;
              Classified.request_id := "7";
              Classified.related_to_id := Some (Js.Str "100");
              Classified.related_to_type := Some "FAILURE";
              Classified.stock_move_ids := None;
              Classified.state := "REVERSED";
              Classified.upserted := None |} ].
Proof. vm_compute. reflexivity. Qed.

Lemma C2_reversed_flag_witness :
  ({["8" := persisted "2024-01-01" false]} : Table) !! "8"
    = Some (persisted "2024-01-01" false)
  ∧ is_Some ((checkAndUpsertRequests [request 7 "2024-01-01"]
                {["8" := persisted "2024-01-01" false]}).1 !! "8").
Proof.
  split; [vm_compute; reflexivity|].
  apply (C2_reversed_flag_after_run [request 7 "2024-01-01"]
           {["8" := persisted "2024-01-01" false]} "8"
           (persisted "2024-01-01" false)).
  vm_compute; reflexivity.
Defined.

Lemma C3_second_run_witness :
  let payloadRequest := [request 7 "2024-01-01"; request 9 "2024-02-02"] in
  let db : Table := {["8" := persisted "2024-01-01" false]} in
  checkAndUpsertRequests payloadRequest (checkAndUpsertRequests payloadRequest db).1
  = ((checkAndUpsertRequests payloadRequest db).1, None).
Proof.
  intros payloadRequest db.
  apply (C3_second_run_returns_null payloadRequest db).
  intros r1 r2 H1 H2.
  apply list_elem_of_In in H1, H2. simpl in H1, H2.
  destruct H1 as [<-|[<-|[]]], H2 as [<-|[<-|[]]]; vm_compute; congruence.
Defined.

(** Two requests of one id with different dates: the second run is not
    empty. *)
Lemma C3_counterexample :
  ¬ (∀ (payloadRequest : list Request.attributes) (db : Table),
       let first := checkAndUpsertRequests payloadRequest db in
       (checkAndUpsertRequests payloadRequest first.1).2 = None).
Proof.
  intros H. specialize (H [request 7 "2024-01-01"; request 7 "2024-01-02"] ∅).
  vm_compute in H. discriminate H.
Qed.

End ReconciliationExamples.

(** * Properties of the translation *)

Section Results.
Context {A B : Type} (f : A → Result B).

Lemma traverse_inr (l : list A) (ys : list B) :
  traverse f l = inr ys ↔ Forall2 (λ x y, f x = inr y) l ys.
Proof.
  revert ys. induction l as [|x l IH]; intros ys; simpl.
  - split; [intros [= <-]; constructor|by inversion 1].
  - destruct (f x) as [e|y] eqn:Hx; simpl.
    + split; [done|]. inversion 1; congruence.
    + destruct (traverse f l) as [e|ys'] eqn:Hl; simpl.
      * split; [done|]. inversion 1; subst.
        by apply IH in H4.
      * split.
        -- intros [= <-]. constructor; [done|]. by apply IH.
        -- inversion 1; subst. apply IH in H4. congruence.
Qed.

(** One element on which [f] throws makes the whole traversal throw. *)
Lemma traverse_inl (l : list A) (x : A) (e : Error) :
  x ∈ l → f x = inl e → ∃ e', traverse f l = inl e'.
Proof.
  intros Hin Hx. induction l as [|x' l IH]; [by apply elem_of_nil in Hin|].
  simpl. destruct (f x') as [e'|y] eqn:Hx'; simpl; [eauto|].
  apply elem_of_cons in Hin as [->|Hin]; [congruence|].
  destruct (IH Hin) as [e' ->]. simpl. eauto.
Qed.

Lemma traverse_inl_inv (l : list A) (e : Error) :
  traverse f l = inl e → ∃ x, x ∈ l ∧ f x = inl e.
Proof.
  induction l as [|x l IH]; simpl; [done|].
  destruct (f x) as [e'|y] eqn:Hx; simpl.
  - intros [= ->]. exists x. split; [by left|done].
  - destruct (traverse f l) as [e'|ys]; simpl; [|done].
    intros [= ->]. destruct IH as (x' & Hin & Hx'); [done|].
    exists x'. split; [by right|done].
Qed.

Lemma traverse_total (l : list A) :
  (∀ x, x ∈ l → ∃ y, f x = inr y) → ∃ ys, traverse f l = inr ys.
Proof.
  intros Hall. destruct (traverse f l) as [e|ys] eqn:Hl; [|eauto].
  apply traverse_inl_inv in Hl as (x & Hin & Hx).
  destruct (Hall x Hin) as [y Hy]. congruence.
Qed.
End Results.

Section TranslationProperties.
Context (remote : Remote).

Implicit Types (included : list Included.t) (materialId : option Z).

(** [acc] with the stock entries [entries] added, at one key. *)
Lemma aggregate_stock_lookup (entries : list Included.t)
    (acc : gmap (option Z) StockTotal.t) materialId :
  let group :=
    filter (λ entry, Included.material_id (Included.attributes entry) = materialId)
           entries in
  fold_left aggregate_stock entries acc !! materialId
  = match acc !! materialId, group with
    | Some total, _ =>
        Some {| StockTotal.totalQuantity :=
                  StockTotal.totalQuantity total + sum_quantities group;
                StockTotal.meanPrice := StockTotal.meanPrice total |}
    | None, first :: _ =>
        Some {| StockTotal.totalQuantity := sum_quantities group;
                StockTotal.meanPrice :=
                  Included.mean_price (Included.attributes first) |}
    | None, [] => None
    end.
Proof.
  intros group. subst group. revert acc.
  induction entries as [|stock entries IH]; intros acc.
  - simpl. destruct (acc !! materialId) as [[q p]|]; [|done].
    simpl. by rewrite Z.add_0_r.
  - cbn [fold_left]. rewrite IH. clear IH.
    destruct (decide (Included.material_id (Included.attributes stock) = materialId))
      as [Heq|Hne].
    + rewrite filter_cons_True by done. unfold aggregate_stock.
      rewrite Heq. destruct (acc !! materialId) as [[q p]|] eqn:Hacc.
      * rewrite lookup_alter_eq, Hacc. simpl. do 2 f_equal. lia.
      * rewrite lookup_alter_eq, lookup_insert_eq. simpl.
        do 2 f_equal.
    + rewrite filter_cons_False by done. unfold aggregate_stock.
      rewrite lookup_alter_ne by done.
      destruct (acc !! Included.material_id _); [done|].
      by rewrite lookup_insert_ne.
Qed.

(** [stockMap] at the key of a material: the sum of the quantities of its
    stock entries, with the price of the first of them. *)
Lemma stockMap_lookup included materialId :
  stockMap included !! materialId
  = match stock_entries materialId included with
    | first :: _ =>
        Some {| StockTotal.totalQuantity :=
                  sum_quantities (stock_entries materialId included);
                StockTotal.meanPrice :=
                  Included.mean_price (Included.attributes first) |}
    | [] => None
    end.
Proof.
  unfold stockMap. rewrite aggregate_stock_lookup, lookup_empty.
  replace (filter _ (filter _ included)) with (stock_entries materialId included);
    [done|].
  unfold stock_entries. rewrite list_filter_filter.
  apply list_filter_iff. tauto.
Qed.

Lemma material_entry_skipped workOrderId stocks (material : Included.t) :
  Js.truthy_number (Included.material_id (Included.attributes material)) = false →
  material_entry workOrderId stocks material = inr None.
Proof. unfold material_entry. by intros ->. Qed.

Lemma material_entry_invalid workOrderId stocks (material : Included.t) :
  Js.truthy_number (Included.material_id (Included.attributes material)) = true →
  Js.truthy_string (Included.code (Included.attributes material)) = false
  ∨ Js.truthy_string (Included.full_code (Included.attributes material)) = false →
  ∃ e, material_entry workOrderId stocks material = inl e.
Proof.
  unfold material_entry. intros -> [Hcode|Hfull]; simpl.
  - rewrite Hcode. simpl. eauto.
  - destruct (Js.truthy_string (Included.code _)); simpl; [|eauto].
    rewrite Hfull. simpl. eauto.
Qed.

Lemma material_entry_line workOrderId stocks (material : Included.t) line :
  Js.truthy_number (Included.material_id (Included.attributes material)) = true →
  material_entry workOrderId stocks material = inr line →
  ∃ l, line = Some l
    ∧ Material.materialId l = Included.material_id (Included.attributes material)
    ∧ Material.materialCode l = Included.code (Included.attributes material)
    ∧ Material.quantity l
      = Some (match stocks !! Included.material_id (Included.attributes material) with
              | Some total => StockTotal.totalQuantity total
              | None => 0
              end)
    ∧ Material.meanPrice l
      = match stocks !! Included.material_id (Included.attributes material) with
        | Some total => StockTotal.meanPrice total
        | None => Included.mean_price (Included.attributes material)
        end.
Proof.
  unfold material_entry. intros ->. simpl.
  repeat (case_match; simpl; try done); intros [= <-]; eauto 10.
Qed.

(** The lines of [materialData] are those of the materials with an id, in
    their order. *)
Lemma materialData_lines workOrderId included lines :
  materialData workOrderId included = inr lines →
  Forall2 (λ material line,
             Material.materialId line
             = Included.material_id (Included.attributes material)
             ∧ Material.materialCode line
               = Included.code (Included.attributes material)
             ∧ Material.quantity line
               = Some (sum_quantities
                         (stock_entries
                            (Included.material_id (Included.attributes material))
                            included))
             ∧ Material.meanPrice line
               = match stock_entries
                         (Included.material_id (Included.attributes material))
                         included with
                 | first :: _ => Included.mean_price (Included.attributes first)
                 | [] => Included.mean_price (Included.attributes material)
                 end)
          (materials_with_id included) lines.
Proof.
  unfold materialData, materials_with_id.
  destruct (traverse _ _) as [e|mapped] eqn:Hmapped; simpl; [done|].
  intros [= <-]. apply traverse_inr in Hmapped.
  induction Hmapped as [|material line materials mapped Hline _ IH]; [constructor|].
  destruct (Js.truthy_number (Included.material_id (Included.attributes material)))
    eqn:Hid.
  - rewrite filter_cons_True by done.
    apply material_entry_line in Hline as (l & -> & Hi & Hc & Hq & Hp); [|done].
    simpl. constructor; [|done].
    rewrite stockMap_lookup in Hq, Hp.
    destruct (stock_entries _ included); done.
  - rewrite filter_cons_False by (by rewrite Hid).
    rewrite material_entry_skipped in Hline by done.
    by injection Hline as <-.
Qed.

Lemma materialData_invalid workOrderId included (material : Included.t) :
  material ∈ included → Included.type material = "material" →
  Js.truthy_number (Included.material_id (Included.attributes material)) = true →
  Js.truthy_string (Included.code (Included.attributes material)) = false
  ∨ Js.truthy_string (Included.full_code (Included.attributes material)) = false →
  ∃ e, materialData workOrderId included = inl e.
Proof.
  intros Hin Htype Hid Hbad. unfold materialData.
  destruct (material_entry_invalid workOrderId (stockMap included) material Hid Hbad)
    as [e He].
  destruct (traverse_inl (material_entry workOrderId (stockMap included))
              (filter (λ entry, Included.type entry = "material") included)
              material e) as [e' ->]; [|done|simpl; eauto].
  by apply list_elem_of_filter.
Qed.

Lemma processWorkOrder_inr infraspeakData costCenters workOrderId orderType
    upserted requestId (w w' : World) order :
  processWorkOrder remote infraspeakData costCenters workOrderId orderType
    upserted requestId w = (w', inr order) →
  ∃ included,
    Infraspeak.included infraspeakData = Some included
    ∧ materialData workOrderId included = inr (WorkOrder.material order)
    ∧ odoo_log w' = odoo_log w.
Proof.
  unfold processWorkOrder, getOdooCostCenterId, getOdooAccounts, saveCostCenterToDynamo.
  destruct (Infraspeak.data _) as [data|], (Infraspeak.included _) as [included|];
    run; try done.
  destruct (odoo_accounts remote) as [e|accounts]; [done|]. simpl.
  destruct (filter _ accounts) as [|account ?]; [done|].
  destruct (materialData workOrderId included) as [e|lines] eqn:Hlines; [done|].
  intros [= <- <-]. eauto.
Qed.

Lemma processWorkOrder_invalid infraspeakData costCenters workOrderId orderType
    upserted requestId (w : World) included e :
  Infraspeak.included infraspeakData = Some included →
  materialData workOrderId included = inl e →
  ∃ e', (processWorkOrder remote infraspeakData costCenters workOrderId orderType
           upserted requestId w).2 = inl e'.
Proof.
  intros Hincluded Hlines.
  unfold processWorkOrder, getOdooCostCenterId, getOdooAccounts, saveCostCenterToDynamo.
  rewrite Hincluded. destruct (Infraspeak.data _) as [data|]; run; [|eauto].
  destruct (odoo_accounts remote) as [e'|accounts]; simpl; [eauto|].
  destruct (filter _ accounts) as [|account ?]; [eauto|].
  rewrite Hlines. eauto.
Qed.

(** A material entry throws only when it has an id and lacks a code. *)
Lemma material_entry_inl workOrderId stocks (material : Included.t) e :
  material_entry workOrderId stocks material = inl e →
  Js.truthy_number (Included.material_id (Included.attributes material)) = true
  ∧ ¬ has_codes material.
Proof.
  unfold material_entry, has_codes.
  destruct (Js.truthy_number _); simpl; [|done].
  destruct (Js.truthy_string (Included.code _)); simpl; [|intros _; split; [done|]; by intros [? _]].
  destruct (Js.truthy_string (Included.full_code _)); simpl;
    [|intros _; split; [done|]; by intros (_ & ? & _)].
  case_bool_decide; [|done].
  intros _. split; [done|]. by intros (_ & _ & ?).
Qed.

Lemma material_entry_valid workOrderId stocks (material : Included.t) :
  has_codes material → ∃ line, material_entry workOrderId stocks material = inr line.
Proof.
  intros Hcodes. destruct (material_entry workOrderId stocks material) as [e|line] eqn:H;
    [|eauto].
  apply material_entry_inl in H as [_ H]. done.
Qed.

Lemma materialData_inl workOrderId included e :
  materialData workOrderId included = inl e →
  ∃ (material : Included.t) cause,
    material ∈ materials_with_id included ∧ ¬ has_codes material
    ∧ e = ErrorPreparingMaterialData cause.
Proof.
  unfold materialData, materials_with_id.
  destruct (traverse _ _) as [cause|mapped] eqn:Hmapped; simpl; [|done].
  intros [= <-]. apply traverse_inl_inv in Hmapped as (material & Hin & Hentry).
  apply material_entry_inl in Hentry as [Hid Hcodes].
  exists material, cause. split; [|done]. by apply list_elem_of_filter.
Qed.

Lemma materialData_valid workOrderId included :
  Forall has_codes (materials_with_id included) →
  ∃ lines, materialData workOrderId included = inr lines.
Proof.
  intros Hall. destruct (materialData workOrderId included) as [e|lines] eqn:H; [|eauto].
  apply materialData_inl in H as (material & cause & Hin & Hcodes & _).
  rewrite Forall_forall in Hall. by destruct Hcodes; apply Hall.
Qed.

Lemma processWorkOrder_resolved infraspeakData data included costCenters workOrderId
    orderType upserted requestId (w : World) costCenter :
  Infraspeak.data infraspeakData = Some data →
  Infraspeak.included infraspeakData = Some included →
  (getOdooCostCenterId remote (costCenterCode (Infraspeak.attributes data) costCenters)
     w).2 = inr costCenter →
  (processWorkOrder remote infraspeakData costCenters workOrderId orderType upserted
     requestId w).2
  = match materialData workOrderId included with
    | inl e => inl e
    | inr lines => inr {| WorkOrder.workOrderId := workOrderId;
                          WorkOrder.costCenter := Some costCenter;
                          WorkOrder.material := lines |}
    end.
Proof.
  intros Hdata Hincluded.
  unfold processWorkOrder, getOdooCostCenterId, getOdooAccounts, saveCostCenterToDynamo.
  rewrite Hdata, Hincluded. run.
  destruct (odoo_accounts remote) as [e|accounts]; [done|]. simpl.
  destruct (filter _ accounts) as [|account ?]; [done|]. simpl.
  intros [= <-]. by destruct (materialData workOrderId included).
Qed.

(** C4 (amended). In [processWorkOrder], a material entry that has a
    material id but lacks its code or its non-empty full code makes the
    translation of the whole order fail, so that no material list is
    produced; a material entry without a material id is skipped: a
    translation that succeeds has one line for each material entry with an
    id, in their order.  A material entry without an id raises no error:
    once the cost center is resolved, the translation succeeds whenever
    every material entry with an id has its code and a full code with a
    folder code, and an error is that of the material data, raised for a
    material entry that has an id. *)
Theorem C4_material_validation infraspeakData costCenters workOrderId orderType
    upserted requestId (w : World) included :
  Infraspeak.included infraspeakData = Some included →
  let out := processWorkOrder remote infraspeakData costCenters workOrderId
               orderType upserted requestId w in
  (∀ material : Included.t,
     material ∈ included → Included.type material = "material" →
     Js.truthy_number (Included.material_id (Included.attributes material)) = true →
     Js.truthy_string (Included.code (Included.attributes material)) = false
     ∨ Js.truthy_string (Included.full_code (Included.attributes material)) = false →
     ∃ e, out.2 = inl e)
  ∧ (∀ order, out.2 = inr order →
       Forall2 (λ material line,
                  Material.materialId line
                  = Included.material_id (Included.attributes material))
               (materials_with_id included) (WorkOrder.material order))
  ∧ (∀ data costCenter,
       Infraspeak.data infraspeakData = Some data →
       (getOdooCostCenterId remote
          (costCenterCode (Infraspeak.attributes data) costCenters) w).2
       = inr costCenter →
       (Forall has_codes (materials_with_id included) →
        ∃ lines, out.2 = inr {| WorkOrder.workOrderId := workOrderId;
                                WorkOrder.costCenter := Some costCenter;
                                WorkOrder.material := lines |})
       ∧ (∀ e, out.2 = inl e →
            ∃ (material : Included.t) cause,
              material ∈ materials_with_id included ∧ ¬ has_codes material
              ∧ e = ErrorPreparingMaterialData cause)).
Proof.
  intros Hincluded out. split; [|split].
  - intros material Hin Htype Hid Hbad.
    destruct (materialData_invalid workOrderId included material Hin Htype Hid Hbad)
      as [e He].
    by eapply processWorkOrder_invalid.
  - intros order Hout. subst out.
    destruct (processWorkOrder _ _ _ _ _ _ _ _) as [w' r] eqn:Hrun.
    simpl in Hout. subst r.
    apply processWorkOrder_inr in Hrun as (included' & Hincluded' & Hlines & _).
    assert (included' = included) as -> by congruence.
    apply materialData_lines in Hlines.
    eapply Forall2_impl; [exact Hlines|]. by intros ?? (? & _).
  - intros data costCenter Hdata Hcenter. subst out.
    rewrite (processWorkOrder_resolved _ data included _ _ _ _ _ _ costCenter)
      by done.
    split.
    + intros Hall. destruct (materialData_valid workOrderId included Hall) as [lines ->].
      eauto.
    + intros e He.
      destruct (materialData workOrderId included) as [e'|lines] eqn:Hlines; [|done].
      injection He as <-. by apply materialData_inl in Hlines.
Qed.

(** C6. Every line of the material list that [processWorkOrder] derives
    belongs to one material entry with an id; its quantity is the sum of
    the quantities of all the stock entries with that [material_id], and
    its [meanPrice] is the [mean_price] of the first of these stock
    entries (that of the material entry when there is none). *)
Theorem C6_material_line_aggregates infraspeakData costCenters workOrderId
    orderType upserted requestId (w w' : World) order :
  processWorkOrder remote infraspeakData costCenters workOrderId orderType
    upserted requestId w = (w', inr order) →
  ∃ included,
    Infraspeak.included infraspeakData = Some included
    ∧ Forall2 (λ material line,
                 let group :=
                   stock_entries
                     (Included.material_id (Included.attributes material))
                     included in
                 Material.materialId line
                 = Included.material_id (Included.attributes material)
                 ∧ Material.quantity line = Some (sum_quantities group)
                 ∧ Material.meanPrice line
                   = match group with
                     | first :: _ => Included.mean_price (Included.attributes first)
                     | [] => Included.mean_price (Included.attributes material)
                     end)
              (materials_with_id included) (WorkOrder.material order).
Proof.
  intros Hrun.
  apply processWorkOrder_inr in Hrun as (included & Hincluded & Hlines & _).
  exists included. split; [done|].
  apply materialData_lines in Hlines.
  eapply Forall2_impl; [exact Hlines|]. by intros ?? (? & _ & ? & ?).
Qed.

End TranslationProperties.

(** * Properties of the inventory matching *)

Section Find.
Context {A : Type} (p : A → Result bool).

Lemma find_throwing_app_false (pre l : list A) :
  Forall (λ x, p x = inr false) pre →
  find_throwing p (pre ++ l) = find_throwing p l.
Proof.
  induction 1 as [|x pre Hx _ IH]; [done|]. simpl. by rewrite Hx.
Qed.

(** The outcome of [find]: the first element on which the predicate does
    not answer [false] decides. *)
Lemma find_throwing_spec (l : list A) :
  match find_throwing p l with
  | inr None => Forall (λ x, p x = inr false) l
  | inr (Some x) =>
      ∃ pre post, l = pre ++ x :: post
        ∧ Forall (λ y, p y = inr false) pre ∧ p x = inr true
  | inl e =>
      ∃ pre x post, l = pre ++ x :: post
        ∧ Forall (λ y, p y = inr false) pre ∧ p x = inl e
  end.
Proof.
  induction l as [|x l IH]; simpl; [constructor|].
  destruct (p x) as [e|[]] eqn:Hx; simpl.
  - exists [], x, l. by repeat split.
  - exists [], l. by repeat split.
  - destruct (find_throwing p l) as [e|[y|]].
    + destruct IH as (pre & y & post & -> & Hpre & Hy).
      exists (x :: pre), y, post. repeat split; [|done]. by constructor.
    + destruct IH as (pre & post & -> & Hpre & Hy).
      exists (x :: pre), post. repeat split; [|done]. by constructor.
    + by constructor.
Qed.
End Find.

Section Matching.
Implicit Types (line workOrderItem : Material.t) (product m : StockQuant.t).
Implicit Types (odooStock : list StockQuant.t) (lines : list Material.t).

Lemma matches_reference_true workOrderItem product :
  matches_reference workOrderItem product = inr true →
  code_matches (default "" (Material.materialCode workOrderItem)) product.
Proof.
  unfold matches_reference, code_matches, reference_code, same_code.
  destruct (Js.match_bracket _) as [code|]; [|done].
  case_bool_decide; [done|]. intros [= Heq%bool_decide_eq_true]. eauto.
Qed.

Lemma matches_reference_false workOrderItem product :
  matches_reference workOrderItem product = inr false →
  ¬ code_matches (default "" (Material.materialCode workOrderItem)) product.
Proof.
  unfold matches_reference, code_matches, reference_code, same_code.
  destruct (Js.match_bracket _) as [code|]; [|done].
  case_bool_decide; [done|]. intros [= Hne%bool_decide_eq_false].
  intros (code' & [= <-] & Heq). done.
Qed.

(** On a well-formed record the predicate answers, and it answers [true]
    exactly on a match. *)
Lemma matches_reference_well_formed workOrderItem product :
  well_formed product →
  matches_reference workOrderItem product
  = inr (bool_decide
           (code_matches (default "" (Material.materialCode workOrderItem)) product)).
Proof.
  intros (code & Hcode & Hne).
  unfold matches_reference. unfold reference_code in Hcode.
  rewrite Hcode, bool_decide_eq_false_2 by done. f_equal.
  apply bool_decide_ext. unfold code_matches, reference_code, same_code.
  rewrite Hcode. split; [eauto|]. by intros (code' & [= <-] & Heq).
Qed.

(** The scan stops at the first match, unless it throws before. *)
Lemma find_first_match line odooStock m :
  first_match (default "" (Material.materialCode line)) odooStock m →
  (∃ e, find_throwing (matches_reference line) odooStock = inl e)
  ∨ find_throwing (matches_reference line) odooStock = inr (Some m).
Proof.
  intros (pre & post & -> & Hpre & Hm).
  induction Hpre as [|product pre Hproduct _ IH]; simpl.
  - destruct (matches_reference line m) as [e|[]] eqn:Hmatch; simpl; eauto.
    by apply matches_reference_false in Hmatch.
  - destruct (matches_reference line product) as [e|[]] eqn:Hmatch; simpl; eauto.
    by apply matches_reference_true in Hmatch.
Qed.

Lemma find_well_formed_first_match line odooStock pre m post :
  odooStock = pre ++ m :: post →
  Forall (λ product,
            well_formed product
            ∧ ¬ code_matches (default "" (Material.materialCode line)) product) pre →
  well_formed m → code_matches (default "" (Material.materialCode line)) m →
  find_throwing (matches_reference line) odooStock = inr (Some m).
Proof.
  intros -> Hpre Hwf Hm. rewrite find_throwing_app_false.
  - simpl. rewrite matches_reference_well_formed by done.
    by rewrite bool_decide_eq_true_2.
  - eapply Forall_impl; [exact Hpre|]. intros product [Hwf' Hno]. simpl.
    rewrite matches_reference_well_formed by done.
    by rewrite bool_decide_eq_false_2.
Qed.

Lemma find_well_formed_no_match line odooStock :
  Forall (λ product,
            well_formed product
            ∧ ¬ code_matches (default "" (Material.materialCode line)) product)
         odooStock →
  find_throwing (matches_reference line) odooStock = inr None.
Proof.
  intros Hall. rewrite <- (app_nil_r odooStock), find_throwing_app_false; [done|].
  eapply Forall_impl; [exact Hall|]. intros product [Hwf Hno]. simpl.
  rewrite matches_reference_well_formed by done.
  by rewrite bool_decide_eq_false_2.
Qed.

(** No record matches the code of the line: the callback throws. *)
Lemma inventory_item_no_match lines odooStock line code :
  Material.materialCode line = Some code →
  Forall (λ product, ¬ code_matches code product) odooStock →
  ∃ e, inventory_item lines odooStock line = inl e.
Proof.
  intros Hcode Hall. unfold inventory_item.
  destruct (Js.truthy_string _); simpl; [|eauto].
  pose proof (find_throwing_spec (matches_reference line) odooStock) as Hfind.
  destruct (find_throwing _ _) as [e|[m|]]; simpl; eauto.
  destruct Hfind as (pre & post & -> & _ & Hm%matches_reference_true).
  rewrite Hcode in Hm. apply Forall_app in Hall as [_ Hall].
  by apply Forall_cons in Hall as [Hno _].
Qed.

(** The first matching record has less on hand than the line requests: the
    callback throws. *)
Lemma inventory_item_insufficient lines odooStock line code quantity m :
  Material.materialCode line = Some code →
  Material.quantity line = Some quantity →
  first_match code odooStock m →
  quantity > StockQuant.quantity m →
  ∃ e, inventory_item lines odooStock line = inl e.
Proof.
  intros Hcode Hquantity Hfirst Hgt. unfold inventory_item.
  destruct (Js.truthy_string _); simpl; [|eauto].
  destruct (find_first_match line odooStock m) as [[e ->]| ->]; simpl; eauto.
  { by rewrite Hcode. }
  rewrite Hquantity. simpl. rewrite bool_decide_eq_true_2 by lia. eauto.
Qed.

(** What a posting that the callback returns is made of. *)
Lemma inventory_item_inr lines odooStock line posting :
  inventory_item lines odooStock line = inr posting →
  ∃ code m,
    Material.materialCode line = Some code
    ∧ first_match code odooStock m
    ∧ posting = posting_of lines line m
    ∧ (∀ quantity, Material.quantity line = Some quantity →
                   (quantity ≤ StockQuant.quantity m)%Z).
Proof.
  unfold inventory_item.
  destruct (Material.materialCode line) as [code|] eqn:Hcode; simpl; [|done].
  case_bool_decide; simpl; [|done].
  pose proof (find_throwing_spec (matches_reference line) odooStock) as Hfind.
  destruct (find_throwing _ _) as [e|[m|]]; simpl; try done.
  destruct Hfind as (pre & post & -> & Hpre & Hm%matches_reference_true).
  rewrite Hcode in Hm. simpl in Hm.
  destruct (Js.is_negative _) eqn:Hneg; [done|]. intros [= <-].
  exists code, m. repeat split.
  - exists pre, post. repeat split; [|done].
    eapply Forall_impl; [exact Hpre|]. intros product Hfalse%matches_reference_false.
    by rewrite Hcode in Hfalse.
  - intros quantity Hquantity. rewrite Hquantity in Hneg. simpl in Hneg.
    apply bool_decide_eq_false in Hneg. lia.
Qed.

(** On a snapshot that is well-formed up to the first match, the callback
    returns the posting or reports the missing quantity. *)
Lemma inventory_item_well_formed lines odooStock line code pre m post :
  Material.materialCode line = Some code → code ≠ "" →
  odooStock = pre ++ m :: post →
  Forall (λ product, well_formed product ∧ ¬ code_matches code product) pre →
  well_formed m → code_matches code m →
  inventory_item lines odooStock line
  = if Js.is_negative (Js.sub (Some (StockQuant.quantity m)) (Material.quantity line))
    then inl (CannotPost (Material.quantity line) (StockQuant.id m)
                (StockQuant.quantity m))
    else inr (posting_of lines line m).
Proof.
  intros Hcode Hne Hstock Hpre Hwf Hm. unfold inventory_item.
  rewrite (find_well_formed_first_match line odooStock pre m post); try done.
  - rewrite Hcode. simpl. by rewrite bool_decide_eq_true_2.
  - by rewrite Hcode.
  - by rewrite Hcode.
Qed.

Lemma inventory_item_well_formed_no_match lines odooStock line code :
  Material.materialCode line = Some code → code ≠ "" →
  Forall (λ product, well_formed product ∧ ¬ code_matches code product) odooStock →
  inventory_item lines odooStock line = inl (NoMatchingProduct code).
Proof.
  intros Hcode Hne Hall. unfold inventory_item.
  rewrite find_well_formed_no_match by by rewrite Hcode.
  rewrite Hcode. simpl. by rewrite bool_decide_eq_true_2.
Qed.

(** [prepareInventoryPosting] from its callback. *)
Lemma prepareInventoryPosting_inl lines odooStock line e :
  line ∈ lines → inventory_item lines odooStock line = inl e →
  ∃ e', prepareInventoryPosting lines odooStock = inl (ErrorPreparingInventory e').
Proof.
  intros Hin Hline. unfold prepareInventoryPosting.
  destruct (traverse_inl (inventory_item lines odooStock) lines line e Hin Hline)
    as [e' ->].
  simpl. eauto.
Qed.

Lemma prepareInventoryPosting_inr lines odooStock postings :
  prepareInventoryPosting lines odooStock = inr postings ↔
  lines ≠ []
  ∧ Forall2 (λ line posting, inventory_item lines odooStock line = inr posting)
            lines postings.
Proof.
  unfold prepareInventoryPosting.
  destruct (traverse _ lines) as [e|results] eqn:Htraverse; simpl.
  - split; [done|]. intros [_ Hall%traverse_inr]. congruence.
  - apply traverse_inr in Htraverse as Hall.
    case_bool_decide as Hlen; simpl.
    + split; [done|]. intros [Hne _].
      apply Forall2_length in Hall. destruct lines; [done|]. simpl in *. lia.
    + split.
      * intros [= <-]. split; [|done]. intros ->.
        apply Forall2_nil_inv_l in Hall. by subst.
      * intros [_ Hall'%traverse_inr]. congruence.
Qed.

Lemma prepareInventoryPosting_error lines odooStock e :
  prepareInventoryPosting lines odooStock = inl e →
  ∃ e', e = ErrorPreparingInventory e'.
Proof.
  unfold prepareInventoryPosting, rethrow.
  destruct (result_bind _ _); [|done]. intros [= <-]. eauto.
Qed.

End Matching.

(** * Properties of the ledger poster *)

Section PosterProperties.
Context (remote : Remote).

Lemma postOdooAccounting_world accountingData costCenterId orderType state (w : World) :
  (postOdooAccounting remote accountingData costCenterId orderType state w).1
  = {| table := table w;
       odoo_log :=
         odoo_log w ++
         [ AccountMoveCreate
             {| AccountMove.ref :=
                  last (line_name accountingData orderType state
                          <$> WorkOrder.material accountingData);
                AccountMove.move_type := "entry";
                AccountMove.journal_id := accountJournalId;
                AccountMove.line_ids :=
                  materialLines accountingData costCenterId orderType state;
                AccountMove.x_work_order_id := WorkOrder.workOrderId accountingData |} ] |}.
Proof.
  unfold postOdooAccounting. run. reflexivity.
Qed.

(** C7. The journal entry that [postOdooAccounting] sends has, for every
    material in order, one debit line followed by one credit line of the same
    amount; when the state is REVERSED the amount is [meanPrice], the debit
    account is the cost center and the credit account is the inventories
    account; otherwise (state COMPLETED) the amount is [meanPrice * quantity],
    the debit account is the inventories account and the credit account is
    the cost center. *)
Theorem C7_journal_entry_lines accountingData costCenterId orderType state (w : World) :
  ∃ (args : AccountMove.create) (pairs : list (AccountMove.line * AccountMove.line)),
    odoo_log (postOdooAccounting remote accountingData costCenterId orderType state w).1
    = odoo_log w ++ [AccountMoveCreate args]
    ∧ AccountMove.line_ids args = concat ((λ pair, [pair.1; pair.2]) <$> pairs)
    ∧ Forall2
        (λ material pair,
           ∃ debitAccount creditAccount name amount,
             pair = (AccountMove.Debit debitAccount name amount,
                     AccountMove.Credit creditAccount name amount)
             ∧ (state = "REVERSED" →
                  amount = Material.meanPrice material
                  ∧ debitAccount = costCenterId
                  ∧ creditAccount = Some accountIdInventories)
             ∧ (state ≠ "REVERSED" →
                  amount = Js.mul (Material.meanPrice material) (Material.quantity material)
                  ∧ (∀ price quantity,
                       Material.meanPrice material = Some price →
                       Material.quantity material = Some quantity →
                       amount = Some (price * quantity))
                  ∧ debitAccount = Some accountIdInventories
                  ∧ creditAccount = costCenterId))
        (WorkOrder.material accountingData) pairs.
Proof.
  eexists. exists ((λ material,
      (AccountMove.Debit
         (if bool_decide (state = "REVERSED") then costCenterId
          else Some accountIdInventories)
         (line_name accountingData orderType state material)
         (if bool_decide (state = "REVERSED") then Material.meanPrice material
          else Js.mul (Material.meanPrice material) (Material.quantity material)),
       AccountMove.Credit
         (if bool_decide (state = "REVERSED") then Some accountIdInventories
          else costCenterId)
         (line_name accountingData orderType state material)
         (if bool_decide (state = "REVERSED") then Material.meanPrice material
          else Js.mul (Material.meanPrice material) (Material.quantity material))))
    <$> WorkOrder.material accountingData).
  rewrite postOdooAccounting_world. simpl.
  split; [reflexivity|]. split.
  - simpl. unfold materialLines. f_equal.
    rewrite <- list_fmap_compose. done.
  - apply Forall2_fmap_r, Forall_Forall2_diag, Forall_forall.
    intros material _. unfold compose. eexists _, _, _, _.
    split; [reflexivity|].
    case_bool_decide; split; try done; intros _; repeat split; try done.
    by intros price quantity -> ->.
Qed.

(** [processWorkOrder] sends nothing to Odoo. *)
Lemma processWorkOrder_log infraspeakData costCenters workOrderId orderType
    upserted requestId (w : World) :
  odoo_log (processWorkOrder remote infraspeakData costCenters workOrderId orderType
              upserted requestId w).1 = odoo_log w.
Proof.
  unfold processWorkOrder, getOdooCostCenterId, getOdooAccounts, saveCostCenterToDynamo.
  run. repeat case_match; simplify_eq/=; done.
Qed.

(** Every error of [postToOdoo] is wrapped by its handler. *)
Lemma postToOdoo_error inventoryData accountingData orderType state requestId
    (w w' : World) e :
  postToOdoo remote inventoryData accountingData orderType state requestId w
  = (w', inl e) →
  ∃ cause, e = ErrorPostingDataToOdoo cause.
Proof.
  unfold postToOdoo, catch, throw.
  destruct (bind _ _ w) as [w1 [e1|r]]; intros [= <- <-]; eauto.
Qed.

(** An error of [prepareInventoryPosting] leaves the loop body before
    anything is sent to Odoo. *)
Lemma handle_item_preparing_error costCenters odooStock item (w w' : World) cause :
  handle_item remote costCenters odooStock item w
  = (w', inl (ErrorPreparingInventory cause)) →
  odoo_log w' = odoo_log w.
Proof.
  unfold handle_item, getInfraspeakData, fetchOdooIdsFromDynamo,
    processStockReversal, processJournalReversal, fetchStockMovementOdoo,
    fetchAccountMovementOdoo.
  case_bool_decide as Hstate.
  - unfold bind at 1 2. unfold lift at 1, rethrow at 1.
    destruct (infraspeak_order remote _ _) as [e0|infraspeakData]; [done|].
    unfold bind at 1. destruct (Infraspeak.data infraspeakData) as [data|] eqn:Hdata;
      [|done]. unfold ret at 1. unfold bind at 1.
    pose proof (processWorkOrder_log infraspeakData costCenters
                  (Classified.related_to_id item)
                  (if bool_decide (Classified.related_to_type item = Some "FAILURE")
                   then "Work Order" else "Planned Order")
                  (Classified.upserted item) (Classified.request_id item) w) as Hlog.
    destruct (processWorkOrder _ _ _ _ _ _ _ w) as [w1 [e1|order]] eqn:Hrun.
    { intros [= <- ->]. revert Hrun.
      unfold processWorkOrder, getOdooCostCenterId, getOdooAccounts,
        saveCostCenterToDynamo, materialData.
      run. repeat case_match; simplify_eq/=; done. }
    simpl in Hlog. unfold bind at 1. unfold lift at 1.
    destruct (prepareInventoryPosting _ odooStock) as [e2|postings].
    { by intros [= <- _]. }
    unfold bind at 1.
    destruct (postToOdoo _ _ _ _ _ _ w1) as [w2 [e3|response]] eqn:Hpost.
    { intros [= <- ->]. by apply postToOdoo_error in Hpost as [? [=]]. }
    done.
  - run. repeat (case_match; simplify_eq/=; try done).
    all: intros [= <- ->].
    all: match goal with
      | H : postToOdoo _ _ _ _ _ _ _ = (_, inl _) |- _ =>
          by apply postToOdoo_error in H as [? [=]]
      end.
Qed.

(** C5. For the material lines given to [prepareInventoryPosting]: when no
    record of the stock snapshot has a bracketed reference code equal to the
    code of a line up to case, the function throws and returns no postings
    (with the error of an unmatched product when the line is alone and the
    snapshot is well-formed); when the first matching record has less on
    hand than a line requests, it throws (with the error of insufficient
    stock in the same circumstances); a list of postings that it returns has,
    for every line in order, the product and the location of the first
    matching record and the requested quantity, which that record covers;
    and when the loop body of the handler ends with an error of this function,
    nothing was sent to Odoo. *)
Theorem C5_inventory_matching (processedWorkOrder : list Material.t)
    (odooStock : list StockQuant.t) :
  let out := prepareInventoryPosting processedWorkOrder odooStock in
  (∀ line code,
     line ∈ processedWorkOrder → Material.materialCode line = Some code →
     Forall (λ product, ¬ code_matches code product) odooStock →
     ∃ e, out = inl (ErrorPreparingInventory e))
  ∧ (∀ line code quantity m,
       line ∈ processedWorkOrder → Material.materialCode line = Some code →
       Material.quantity line = Some quantity →
       first_match code odooStock m → quantity > StockQuant.quantity m →
       ∃ e, out = inl (ErrorPreparingInventory e))
  ∧ (∀ postings, out = inr postings →
       Forall2 (λ line posting,
                  ∃ code m,
                    Material.materialCode line = Some code
                    ∧ first_match code odooStock m
                    ∧ Inventory.product_id posting = Some (StockQuant.product_id m).1
                    ∧ Inventory.location_id posting = Some (StockQuant.location_id m).1
                    ∧ Inventory.quantity posting = Material.quantity line
                    ∧ (∀ quantity, Material.quantity line = Some quantity →
                                   (quantity ≤ StockQuant.quantity m)%Z))
               processedWorkOrder postings)
  ∧ (∀ line code,
       processedWorkOrder = [line] → Material.materialCode line = Some code →
       code ≠ "" →
       Forall (λ product, well_formed product ∧ ¬ code_matches code product) odooStock →
       out = inl (ErrorPreparingInventory (NoMatchingProduct code)))
  ∧ (∀ line code pre m post,
       processedWorkOrder = [line] → Material.materialCode line = Some code →
       code ≠ "" → odooStock = pre ++ m :: post →
       Forall (λ product, well_formed product ∧ ¬ code_matches code product) pre →
       well_formed m → code_matches code m →
       out = match Material.quantity line with
             | Some quantity =>
                 if bool_decide (quantity > StockQuant.quantity m)
                 then inl (ErrorPreparingInventory
                             (CannotPost (Some quantity) (StockQuant.id m)
                                (StockQuant.quantity m)))
                 else inr [posting_of [line] line m]
             | None => inr [posting_of [line] line m]
             end)
  ∧ (∀ costCenters item (w w' : World) cause,
       handle_item remote costCenters odooStock item w
       = (w', inl (ErrorPreparingInventory cause)) →
       odoo_log w' = odoo_log w).
Proof.
  intros out. subst out. repeat split.
  - intros line code Hin Hcode Hall.
    destruct (inventory_item_no_match processedWorkOrder odooStock line code Hcode Hall)
      as [e He].
    by eapply prepareInventoryPosting_inl.
  - intros line code quantity m Hin Hcode Hquantity Hfirst Hgt.
    destruct (inventory_item_insufficient processedWorkOrder odooStock line code
                quantity m Hcode Hquantity Hfirst Hgt) as [e He].
    by eapply prepareInventoryPosting_inl.
  - intros postings [_ Hall]%prepareInventoryPosting_inr.
    eapply Forall2_impl; [exact Hall|].
    intros line posting (code & m & Hcode & Hfirst & -> & Hle)%inventory_item_inr.
    exists code, m. by repeat split.
  - intros line code -> Hcode Hne Hall.
    unfold prepareInventoryPosting. simpl.
    by rewrite (inventory_item_well_formed_no_match [line] odooStock line code).
  - intros line code pre m post -> Hcode Hne Hstock Hpre Hwf Hm.
    unfold prepareInventoryPosting. simpl.
    rewrite (inventory_item_well_formed [line] odooStock line code pre m post) by done.
    destruct (Material.quantity line) as [quantity|]; simpl; [|done].
    destruct (decide (quantity > StockQuant.quantity m)).
    + by rewrite !bool_decide_eq_true_2 by lia.
    + by rewrite !bool_decide_eq_false_2 by lia.
  - intros costCenters item w w' cause. apply handle_item_preparing_error.
Qed.

End PosterProperties.

(** * The loop of the handler *)

Lemma journal_entries_app (calls1 calls2 : list OdooCall) :
  journal_entries (calls1 ++ calls2) = journal_entries calls1 ++ journal_entries calls2.
Proof. unfold journal_entries. apply omap_app. Qed.

Section Sending.
Context {A : Type}.

Lemma sends_nothing (m : M A) :
  (∀ w, odoo_log (m w).1 = odoo_log w) → sends_at_most 0 m.
Proof. intros Hm w. exists []. by rewrite app_nil_r, Hm. Qed.

Lemma sends_at_most_mono (n n' : nat) (m : M A) :
  (n ≤ n')%nat → sends_at_most n m → sends_at_most n' m.
Proof.
  intros Hle Hm w. destruct (Hm w) as (calls & Hlog & Hlen).
  exists calls. split; [done|lia].
Qed.

Lemma sends_ret (a : A) : sends_at_most 0 (ret a).
Proof. by apply sends_nothing. Qed.

Lemma sends_throw (e : Error) : sends_at_most 0 (throw e : M A).
Proof. by apply sends_nothing. Qed.

Lemma sends_lift (r : Result A) : sends_at_most 0 (lift r).
Proof. by apply sends_nothing. Qed.

End Sending.

Section Sequencing.
Context {A B : Type}.

Lemma sends_bind (n k : nat) (m : M A) (f : A → M B) :
  sends_at_most n m → (∀ a, sends_at_most k (f a)) → sends_at_most (n + k) (bind m f).
Proof.
  intros Hm Hf w. unfold bind.
  destruct (Hm w) as (calls & Hlog & Hlen).
  destruct (m w) as [w1 [e|a]]; simpl in *.
  - exists calls. split; [done|lia].
  - destruct (Hf a w1) as (calls' & Hlog' & Hlen').
    exists (calls ++ calls'). rewrite Hlog', Hlog, app_assoc. split; [done|].
    rewrite journal_entries_app, length_app. lia.
Qed.

Lemma sends_catch (n k : nat) (m : M A) (h : Error → M A) :
  sends_at_most n m → (∀ e, sends_at_most k (h e)) → sends_at_most (n + k) (catch m h).
Proof.
  intros Hm Hh w. unfold catch.
  destruct (Hm w) as (calls & Hlog & Hlen).
  destruct (m w) as [w1 [e|a]]; simpl in *.
  - destruct (Hh e w1) as (calls' & Hlog' & Hlen').
    exists (calls ++ calls'). rewrite Hlog', Hlog, app_assoc. split; [done|].
    rewrite journal_entries_app, length_app. lia.
  - exists calls. split; [done|lia].
Qed.

Lemma sends_promise_all (f : A → M B) (l : list A) :
  (∀ x, sends_at_most 0 (f x)) → sends_at_most 0 (promise_all f l).
Proof.
  intros Hf. induction l as [|x l IH].
  { intros w. exists []. by rewrite app_nil_r. }
  intros w. simpl.
  destruct (Hf x w) as (calls & Hlog & Hlen).
  destruct (f x w) as [w1 r]; simpl in *.
  destruct (IH w1) as (calls' & Hlog' & Hlen').
  exists (calls ++ calls'). split.
  - destruct r as [e|y]; simpl; [by rewrite Hlog', Hlog, app_assoc|].
    destruct (promise_all f l w1) as [w2 [e|ys]]; simpl in *;
      by rewrite Hlog', Hlog, app_assoc.
  - rewrite journal_entries_app, length_app. lia.
Qed.

(** A loop whose body never ends normally runs its body once, on the first
    element. *)
Lemma for_of_first (body : A → M (Completion B)) (x : A) (l : list A) (w : World) :
  (∀ w' c, body x w = (w', inr c) → c ≠ Normal) →
  for_of body (x :: l) w
  = match body x w with
    | (w', inr (Return b)) => (w', inr (Return b))
    | (w', inr Normal) => for_of body l w'
    | (w', inl e) => (w', inl e)
    end
  ∧ for_of body (x :: l) w = for_of body [x] w.
Proof.
  intros Hbody. simpl. unfold bind.
  destruct (body x w) as [w' [e|[|b]]] eqn:Hrun; try done.
  by destruct (Hbody w' Normal).
Qed.

Lemma sends_bind_0 (n : nat) (m : M A) (f : A → M B) :
  sends_at_most 0 m → (∀ a, sends_at_most n (f a)) → sends_at_most n (bind m f).
Proof. intros Hm Hf. by apply (sends_bind 0 n). Qed.

Lemma sends_bind_n (n : nat) (m : M A) (f : A → M B) :
  sends_at_most n m → (∀ a, sends_at_most 0 (f a)) → sends_at_most n (bind m f).
Proof.
  intros Hm Hf. eapply sends_at_most_mono; [|by apply (sends_bind n 0)]. lia.
Qed.

Lemma sends_catch_n (n : nat) (m : M A) (h : Error → M A) :
  sends_at_most n m → (∀ e, sends_at_most 0 (h e)) → sends_at_most n (catch m h).
Proof.
  intros Hm Hh. eapply sends_at_most_mono; [|by apply (sends_catch n 0)]. lia.
Qed.

Lemma bind_inr (m : M A) (f : A → M B) (w w' : World) (b : B) :
  bind m f w = (w', inr b) → ∃ a w1, m w = (w1, inr a) ∧ f a w1 = (w', inr b).
Proof. unfold bind. destruct (m w) as [w1 [e|a]]; [done|eauto]. Qed.

End Sequencing.

Section Loop.
Context (remote : Remote).

Lemma sends_send (call : OdooCall) :
  sends_at_most (length (journal_entries [call])) (send call).
Proof. intros w. exists [call]. done. Qed.

Lemma sends_postOdooInventory data orderType state :
  sends_at_most 0 (postOdooInventory remote data orderType state).
Proof.
  unfold postOdooInventory. apply sends_bind_0; [apply sends_send|].
  intros _. apply sends_lift.
Qed.

Lemma sends_postOdooAccounting accountingData costCenterId orderType state :
  sends_at_most 1 (postOdooAccounting remote accountingData costCenterId orderType state).
Proof.
  unfold postOdooAccounting. apply sends_bind_n; [apply sends_send|].
  intros _. apply sends_lift.
Qed.

Lemma sends_saveInventoryResponseToDynamo requestId inventoryResultIds accountResultId :
  sends_at_most 0
    (saveInventoryResponseToDynamo requestId inventoryResultIds accountResultId).
Proof.
  unfold saveInventoryResponseToDynamo.
  destruct (mapM id inventoryResultIds); by apply sends_nothing.
Qed.

Lemma sends_updateJournalFromDraftToDone moveId :
  sends_at_most 0 (updateJournalFromDraftToDone remote moveId).
Proof.
  unfold updateJournalFromDraftToDone. apply sends_bind_0; [apply sends_send|].
  intros _. apply sends_lift.
Qed.

Lemma sends_postToOdoo inventoryData accountingData orderType state requestId :
  sends_at_most 1
    (postToOdoo remote inventoryData accountingData orderType state requestId).
Proof.
  unfold postToOdoo. apply sends_catch_n; [|intros e; apply sends_throw].
  apply sends_bind_0.
  { apply sends_promise_all. intros data. apply sends_postOdooInventory. }
  intros responseInventory. apply sends_bind_n; [apply sends_postOdooAccounting|].
  intros responseAccounting. apply sends_bind_0; [|intros _; apply sends_ret].
  destruct (result responseAccounting) as [accountResultId|]; [|apply sends_throw].
  destruct (_ && _); [|apply sends_throw].
  apply sends_bind_0; [apply sends_saveInventoryResponseToDynamo|].
  intros _. apply sends_updateJournalFromDraftToDone.
Qed.

Lemma sends_processWorkOrder infraspeakData costCenters workOrderId orderType
    upserted requestId :
  sends_at_most 0
    (processWorkOrder remote infraspeakData costCenters workOrderId orderType
       upserted requestId).
Proof. apply sends_nothing. intros w. apply processWorkOrder_log. Qed.

Lemma sends_handle_item costCenters odooStock item :
  sends_at_most 1 (handle_item remote costCenters odooStock item).
Proof.
  unfold handle_item. cbv zeta.
  apply sends_bind_n.
  2:{ intros [response|]; [apply sends_ret|apply sends_throw]. }
  case_bool_decide.
  - apply sends_bind_0; [apply sends_lift|]. intros infraspeakData.
    apply sends_bind_0.
    { destruct (Infraspeak.data infraspeakData); [apply sends_ret|apply sends_throw]. }
    intros _. apply sends_bind_0; [apply sends_processWorkOrder|].
    intros processedWorkOrder. apply sends_bind_0; [apply sends_lift|].
    intros preparedInventoryPosting.
    apply sends_bind_n; [apply sends_postToOdoo|]. intros response. apply sends_ret.
  - apply sends_bind_0; [by apply sends_nothing|]. intros resultIds.
    apply sends_bind_0.
    { unfold processStockReversal, fetchStockMovementOdoo.
      apply sends_catch_n; [|intros e; apply sends_throw].
      apply sends_bind_0; [apply sends_lift|]. intros stockResponse. apply sends_ret. }
    intros preparedStock. apply sends_bind_0.
    { unfold processJournalReversal, fetchAccountMovementOdoo.
      apply sends_catch_n; [|intros e; apply sends_throw].
      apply sends_bind_0; [|intros amount_total; apply sends_ret].
      apply sends_catch_n; [|intros e; apply sends_throw].
      apply sends_bind_0; [apply sends_lift|].
      intros [|row rows]; [apply sends_throw|apply sends_ret]. }
    intros preparedJournal.
    apply sends_bind_n; [apply sends_postToOdoo|]. intros response. apply sends_ret.
Qed.

(** The body of the loop ends with [return] or with an exception. *)
Lemma handle_item_returns costCenters odooStock item (w w' : World) completion :
  handle_item remote costCenters odooStock item w = (w', inr completion) →
  completion
  = Return (createResponse
              (Message ("Successfully posted "
                        +:+ (if bool_decide (Classified.related_to_type item = Some "FAILURE")
                             then "Work Order" else "Planned Order")
                        +:+ " Id " +:+ Js.show_id (Classified.related_to_id item)
                        +:+ " to Odoo."))
              200).
Proof.
  unfold handle_item. cbv zeta.
  intros (odooResponse & w1 & _ & Hend)%bind_inr.
  destruct odooResponse as [response|]; [|done].
  by injection Hend as _ <-.
Qed.

Lemma sends_for_of costCenters odooStock (items : list Classified.item) :
  sends_at_most 1 (for_of (handle_item remote costCenters odooStock) items).
Proof.
  destruct items as [|item rest].
  { eapply sends_at_most_mono; [|apply sends_ret]. lia. }
  intros w.
  destruct (for_of_first (handle_item remote costCenters odooStock) item rest w)
    as [-> _].
  { intros w' c Hrun. apply handle_item_returns in Hrun. by subst c. }
  destruct (sends_handle_item costCenters odooStock item w) as (calls & Hlog & Hlen).
  exists calls. split; [|done].
  pose proof (handle_item_returns costCenters odooStock item w) as Hreturns.
  destruct (handle_item remote costCenters odooStock item w) as [w' [e|[|response]]];
    try done.
  by specialize (Hreturns w' Normal eq_refl).
Qed.

Lemma sends_handler : sends_at_most 1 (handler remote).
Proof.
  unfold handler.
  apply sends_catch_n.
  2:{ intros e. apply sends_bind_0; [apply sends_lift|]. intros _. apply sends_ret. }
  apply sends_bind_0; [apply sends_lift|]. intros payloadRequest.
  apply sends_bind_0; [by apply sends_nothing|].
  intros [checkedWithDynamo|].
  - apply sends_bind_0; [apply sends_lift|]. intros costCenters.
    apply sends_bind_0; [apply sends_lift|]. intros odooStock.
    apply sends_bind_n; [apply sends_for_of|].
    intros [|response]; apply sends_ret.
  - eapply sends_at_most_mono; [|apply sends_ret]. lia.
Qed.

(** C9. The loop of the handler over a classified list runs its body on the
    first item only: the items after the first do not change its outcome,
    which is the response for the first item when the posting of that item
    succeeds and the exception of that item otherwise; so the loop, and the
    handler as a whole, send at most one journal entry to Odoo. *)
Theorem C9_first_item_only costCenters odooStock (item : Classified.item)
    (rest : list Classified.item) (w : World) :
  for_of (handle_item remote costCenters odooStock) (item :: rest) w
  = for_of (handle_item remote costCenters odooStock) [item] w
  ∧ for_of (handle_item remote costCenters odooStock) (item :: rest) w
    = match handle_item remote costCenters odooStock item w with
      | (w', inr _) =>
          (w', inr (Return
                      (createResponse
                         (Message
                            ("Successfully posted "
                             +:+ (if bool_decide
                                       (Classified.related_to_type item = Some "FAILURE")
                                  then "Work Order" else "Planned Order")
                             +:+ " Id " +:+ Js.show_id (Classified.related_to_id item)
                             +:+ " to Odoo."))
                         200)))
      | (w', inl e) => (w', inl e)
      end
  ∧ sends_at_most 1 (for_of (handle_item remote costCenters odooStock) (item :: rest))
  ∧ sends_at_most 1 (handler remote).
Proof.
  assert (Hbody : ∀ w' c,
            handle_item remote costCenters odooStock item w = (w', inr c) →
            c ≠ Normal).
  { intros w' c Hrun. apply handle_item_returns in Hrun. by subst c. }
  destruct (for_of_first (handle_item remote costCenters odooStock) item rest w Hbody)
    as [Hfirst Hsame].
  split; [done|]. split; [|split; [apply sends_for_of|apply sends_handler]].
  rewrite Hfirst.
  pose proof (handle_item_returns costCenters odooStock item w) as Hreturns.
  destruct (handle_item remote costCenters odooStock item w) as [w' [e|c]]; [done|].
  by rewrite (Hreturns w' c eq_refl).
Qed.

End Loop.



(** * Properties of the bracket-code extraction *)

Section Extraction.

Lemma matches_reference_answers line product (b : bool) :
  matches_reference line product = inr b → is_Some (reference_code product).
Proof.
  unfold matches_reference, reference_code.
  destruct (Js.match_bracket _); [eauto|done].
Qed.

Lemma matches_reference_type_error line product reading :
  matches_reference line product = inl (TypeError reading) →
  reference_code product = None.
Proof.
  unfold matches_reference, reference_code.
  destruct (Js.match_bracket _); [|done]. by case_bool_decide.
Qed.

Lemma prepareInventoryPosting_type_error lines odooStock reading :
  prepareInventoryPosting lines odooStock
  = inl (ErrorPreparingInventory (TypeError reading)) →
  ∃ product, product ∈ odooStock ∧ reference_code product = None.
Proof.
  unfold prepareInventoryPosting.
  destruct (traverse _ lines) as [e|results] eqn:Htraverse; simpl.
  - intros [= ->].
    apply traverse_inl_inv in Htraverse as (line & _ & Hline).
    revert Hline. unfold inventory_item.
    destruct (Js.truthy_string _); simpl; [|done].
    pose proof (find_throwing_spec (matches_reference line) odooStock) as Hfind.
    destruct (find_throwing _ _) as [e|[m|]]; simpl.
    + intros [= ->]. destruct Hfind as (pre & product & post & -> & _ & Hproduct).
      exists product. split; [|by eapply matches_reference_type_error].
      apply elem_of_app. right. by left.
    + by destruct (Js.is_negative _).
    + done.
  - by case_bool_decide.
Qed.

Lemma process_stock_error products materials warehouses stock e :
  Sync.process_stock products materials warehouses stock = inl e →
  Js.match_bracket (Sync.Stock.product_id stock).2 = None.
Proof.
  unfold Sync.process_stock. repeat case_match; done.
Qed.

Lemma processOdooData_type_error stockOdoo productsOdoo materialInfraspeak
    warehouseInfraspeak reading :
  Sync.processOdooData stockOdoo productsOdoo materialInfraspeak warehouseInfraspeak
  = inl (TypeError reading) →
  ∃ stock, stock ∈ stockOdoo
           ∧ Js.match_bracket (Sync.Stock.product_id stock).2 = None.
Proof.
  unfold Sync.processOdooData. case_bool_decide; [done|].
  destruct (traverse _ stockOdoo) as [e|rows] eqn:Htraverse; simpl; [|done].
  intros [= ->]. apply traverse_inl_inv in Htraverse as (stock & Hin & Hstock).
  exists stock. split; [done|]. by eapply process_stock_error.
Qed.

End Extraction.

(** C10. The extraction of the bracketed code is partial: there is a stock
    snapshot with a record without brackets on which
    [prepareInventoryPosting] throws the type error of the null match
    although another record of the snapshot matches the line, and likewise
    for [processOdooData]; the predicate of the scan answers only on records
    with a bracketed code, and on snapshots whose records all have one
    neither function throws that type error. *)
Theorem C10_bracket_extraction_is_partial :
  (∃ line odooStock product m,
     product ∈ odooStock ∧ reference_code product = None
     ∧ m ∈ odooStock ∧ well_formed m
     ∧ code_matches (default "" (Material.materialCode line)) m
     ∧ prepareInventoryPosting [line] odooStock
       = inl (ErrorPreparingInventory (TypeError "1")))
  ∧ (∃ stock others productsOdoo materialInfraspeak warehouseInfraspeak row,
       Js.match_bracket (Sync.Stock.product_id stock).2 = None
       ∧ Sync.processOdooData others productsOdoo materialInfraspeak
           warehouseInfraspeak = inr [row]
       ∧ Sync.processOdooData (stock :: others) productsOdoo materialInfraspeak
           warehouseInfraspeak = inl (TypeError "1"))
  ∧ (∀ line product (b : bool),
       matches_reference line product = inr b → is_Some (reference_code product))
  ∧ (∀ lines odooStock reading,
       Forall (λ product, is_Some (reference_code product)) odooStock →
       prepareInventoryPosting lines odooStock
       ≠ inl (ErrorPreparingInventory (TypeError reading)))
  ∧ (∀ stockOdoo productsOdoo materialInfraspeak warehouseInfraspeak reading,
       Forall (λ stock, is_Some (Js.match_bracket (Sync.Stock.product_id stock).2))
              stockOdoo →
       Sync.processOdooData stockOdoo productsOdoo materialInfraspeak warehouseInfraspeak
       ≠ inl (TypeError reading)).
Proof.
  split; [|split; [|split; [|split]]].
  - exists (Inputs.line "wid-001" 4), Inputs.unlabelled_first,
      (Inputs.quant 1 8 "Unlabelled widget" 10), (Inputs.quant 2 9 "Widget [WID-001]" 10).
    split; [by left|]. split; [reflexivity|].
    split; [by right; left|].
    split; [by exists "WID-001"|].
    split; [by exists "WID-001"|].
    vm_compute. reflexivity.
  - exists {| Sync.Stock.id := 1; Sync.Stock.product_id := (8, "Unlabelled widget");
              Sync.Stock.warehouse_id := Some (1, "Main"); Sync.Stock.quantity := 10 |},
      (drop 1 Inputs.stockOdoo), Inputs.productsOdoo, Inputs.materialInfraspeak,
      Inputs.warehouseInfraspeak.
    eexists. split; [reflexivity|]. split; vm_compute; reflexivity.
  - apply matches_reference_answers.
  - intros lines odooStock reading Hall Herror.
    apply prepareInventoryPosting_type_error in Herror as (product & Hin & Hnone).
    rewrite Forall_forall in Hall. specialize (Hall product Hin).
    rewrite Hnone in Hall. by destruct Hall.
  - intros stockOdoo' productsOdoo' materialInfraspeak' warehouseInfraspeak' reading
      Hall Herror.
    apply processOdooData_type_error in Herror as (stock & Hin & Hnone).
    rewrite Forall_forall in Hall. specialize (Hall stock Hin).
    rewrite Hnone in Hall. by destruct Hall.
Qed.

(** * Properties of the drift reconciler *)

Section Drift.
Context {R : Type} (fetchRequestInfraspeak : Sync.Movement.t → Result R).

(** The movements that the callback of [postStockToInfraspeak] sends for a
    mapped row, by the quantity that Infraspeak reports. *)
Lemma post_stock_movements (warehouseQtyInfraspeak : list Sync.MaterialQuantity.t)
    (warehouse : Sync.Row.t) (materialId : Z) :
  Sync.Row.MaterialId warehouse = Some materialId → materialId ≠ 0 →
  let ledger := Sync.Row.AvailableQty warehouse in
  let add quantity :=
    Sync.stockMovementPayloadAdd materialId quantity
      (Sync.Row.WarehouseId warehouse) (Sync.Row.AverageCost warehouse) in
  let consume quantity :=
    Sync.stockMovementPayloadConsume materialId quantity
      (Sync.Row.WarehouseId warehouse) (Sync.Row.AverageCost warehouse) in
  (Sync.post_stock fetchRequestInfraspeak warehouseQtyInfraspeak warehouse).1
  = match Sync.getMaterialQuantitiesFromInfraspeak warehouseQtyInfraspeak materialId
            (Sync.Row.WarehouseId warehouse) with
    | Some (Some field) =>
        if bool_decide (field = 0) then [add ledger]
        else if bool_decide (ledger > field) then [add (ledger - field)]
        else if bool_decide (ledger < field) then [consume (field - ledger)]
        else []
    | Some None => []
    | None => [add ledger]
    end.
Proof.
  intros Hid Hne ledger add consume. unfold Sync.post_stock.
  rewrite Hid, bool_decide_eq_true_2 by done.
  destruct (Sync.getMaterialQuantitiesFromInfraspeak _ _ _) as [[field|]|]; try done.
  repeat case_bool_decide; try done.
Qed.

End Drift.

(** C8 (defect). Ledger and field quantity are both zero: the quantities
    are equal and yet a movement is posted, an ADD of quantity 0; with a
    negative ledger quantity and a field quantity of zero an ADD of the
    negative quantity is posted where a CONSUME of its absolute value is
    due. *)
Theorem C8_equal_zero_quantities_post_a_movement :
  (Sync.postStockToInfraspeak Inputs.accept [Inputs.row 0] [Inputs.field 0]).1
  = [ Sync.stockMovementPayloadAdd 5 0 2 (Some 3) ]
  ∧ (Sync.postStockToInfraspeak Inputs.accept [Inputs.row (-3)] [Inputs.field 0]).1
    = [ Sync.stockMovementPayloadAdd 5 (-3) 2 (Some 3) ].
Proof. split; vm_compute; reflexivity. Qed.

(** ** Concrete runs of the translation *)

Module TranslationExamples.

Import Inputs.

Example aggregation :
  (processWorkOrder (remote two_entries []) (order two_entries) costCenters
     (Some (Js.Num 100)) "Work Order" (Some "INSERTED") "7" world).2
  = inr {| WorkOrder.workOrderId := Some (Js.Num 100);
           WorkOrder.costCenter := Some 77;
           WorkOrder.material :=
             [ {| Material.workOrderId := Some (Js.Num 100);
                  Material.materialId := Some 5;
                  Material.materialCode := Some "WID-001";
                  Material.folderCode := Some "EL";
                  Material.quantity := Some 8;
                  Material.meanPrice := Some 10 |} ] |}.
Proof. vm_compute. reflexivity. Qed.

Lemma C6_material_line_witness :
  ∃ included,
    Infraspeak.included (order two_entries) = Some included
    ∧ Forall2 (λ material line,
                 let group :=
                   stock_entries
                     (Included.material_id (Included.attributes material))
                     included in
                 Material.materialId line
                 = Included.material_id (Included.attributes material)
                 ∧ Material.quantity line = Some (sum_quantities group)
                 ∧ Material.meanPrice line
                   = match group with
                     | first :: _ => Included.mean_price (Included.attributes first)
                     | [] => Included.mean_price (Included.attributes material)
                     end)
              (materials_with_id included)
              [ {| Material.workOrderId := Some (Js.Num 100);
                   Material.materialId := Some 5;
                   Material.materialCode := Some "WID-001";
                   Material.folderCode := Some "EL";
                   Material.quantity := Some 8;
                   Material.meanPrice := Some 10 |} ].
Proof.
  apply (C6_material_line_aggregates (remote two_entries []) (order two_entries)
           costCenters (Some (Js.Num 100)) "Work Order" (Some "INSERTED") "7" world
           (processWorkOrder (remote two_entries []) (order two_entries) costCenters
              (Some (Js.Num 100)) "Work Order" (Some "INSERTED") "7" world).1
           {| WorkOrder.workOrderId := Some (Js.Num 100);
              WorkOrder.costCenter := Some 77;
              WorkOrder.material :=
                [ {| Material.workOrderId := Some (Js.Num 100);
                     Material.materialId := Some 5;
                     Material.materialCode := Some "WID-001";
                     Material.folderCode := Some "EL";
                     Material.quantity := Some 8;
                     Material.meanPrice := Some 10 |} ] |}).
  vm_compute. reflexivity.
Defined.

Example material_without_id_is_skipped :
  (processWorkOrder (remote without_id []) (order without_id) costCenters
     (Some (Js.Num 100)) "Work Order" (Some "INSERTED") "7" world).2
  = inr {| WorkOrder.workOrderId := Some (Js.Num 100);
           WorkOrder.costCenter := Some 77;
           WorkOrder.material :=
             [ {| Material.workOrderId := Some (Js.Num 100);
                  Material.materialId := Some 5;
                  Material.materialCode := Some "WID-001";
                  Material.folderCode := Some "EL";
                  Material.quantity := Some 0;
                  Material.meanPrice := Some 2 |} ] |}.
Proof. vm_compute. reflexivity. Qed.

Example material_without_code_aborts :
  (processWorkOrder (remote without_code []) (order without_code) costCenters
     (Some (Js.Num 100)) "Work Order" (Some "INSERTED") "7" world).2
  = inl (ErrorPreparingMaterialData MaterialCodeMissing).
Proof. vm_compute. reflexivity. Qed.

(** C4, as stated: a material without an id does not make the translation
    fail. *)
Lemma C4_counterexample :
  ¬ (∀ (remote : Remote) infraspeakData costCenters workOrderId orderType
       upserted requestId (w : World) included (material : Included.t),
       Infraspeak.included infraspeakData = Some included →
       material ∈ included → Included.type material = "material" →
       lacks_required_field material →
       ∃ e, (processWorkOrder remote infraspeakData costCenters workOrderId
               orderType upserted requestId w).2 = inl e).
Proof.
  intros H.
  destruct (H (remote without_id []) (order without_id) costCenters
              (Some (Js.Num 100)) "Work Order" (Some "INSERTED") "7" world
              without_id
              (entry "material" None None (Some 2) (Some "NUT-002") (Some "EL.NUT-002")))
    as [e He].
  - reflexivity.
  - by left.
  - reflexivity.
  - by left.
  - rewrite material_without_id_is_skipped in He. discriminate He.
Qed.

Lemma C4_material_validation_witness :
  Infraspeak.included (order without_code) = Some without_code
  ∧ ∃ e, (processWorkOrder (remote without_code []) (order without_code) costCenters
            (Some (Js.Num 100)) "Work Order" (Some "INSERTED") "7" world).2 = inl e.
Proof.
  split; [reflexivity|].
  refine (proj1 (C4_material_validation (remote without_code []) (order without_code)
                   costCenters (Some (Js.Num 100)) "Work Order" (Some "INSERTED")
                   "7" world without_code eq_refl)
            (entry "material" (Some 6) None (Some 2) None (Some "EL.NUT-002"))
            _ eq_refl eq_refl (or_introl eq_refl)).
  apply list_elem_of_In. simpl. tauto.
Defined.

End TranslationExamples.

(** ** Concrete runs of the inventory matching and of the extraction *)

Module MatchingExamples.

Import Inputs.

(** On hand 4, requested 5: no posting. *)
Example negative_stock_guard :
  prepareInventoryPosting [line "wid-001" 5] [quant 1 9 "Widget [WID-001]" 4]
  = inl (ErrorPreparingInventory (CannotPost (Some 5) 1 4)).
Proof. vm_compute. reflexivity. Qed.

Example matched_posting :
  prepareInventoryPosting [line "wid-001" 4] [quant 1 9 "Widget [WID-001]" 4]
  = inr [ {| Inventory.product_id := Some 9;
             Inventory.location_id := Some 8;
             Inventory.location_dest_id := None;
             Inventory.quantity := Some 4;
             Inventory.work_order_id := Some (Js.Num 100) |} ].
Proof. vm_compute. reflexivity. Qed.

Example unmatched_product :
  prepareInventoryPosting [line "NUT-002" 1] [quant 1 9 "Widget [WID-001]" 4]
  = inl (ErrorPreparingInventory (NoMatchingProduct "NUT-002")).
Proof. vm_compute. reflexivity. Qed.

Example labelled_rows_are_processed :
  Sync.processOdooData (drop 1 stockOdoo) productsOdoo materialInfraspeak warehouseInfraspeak
  = inr [ {| Sync.Row.MaterialId := Some 5; Sync.Row.StandardCost := Some 2;
             Sync.Row.AverageCost := Some 3; Sync.Row.WarehouseId := 2;
             Sync.Row.AvailableQty := 12 |} ].
Proof. vm_compute. reflexivity. Qed.

End MatchingExamples.

(** ** Concrete runs of the drift reconciler *)

Module DriftExamples.

Import Inputs.

Example drift_add :
  (Sync.postStockToInfraspeak accept [row 12] [field 7]).1
  = [ Sync.stockMovementPayloadAdd 5 5 2 (Some 3) ].
Proof. vm_compute. reflexivity. Qed.

Example drift_consume :
  (Sync.postStockToInfraspeak accept [row 7] [field 12]).1
  = [ Sync.stockMovementPayloadConsume 5 5 2 (Some 3) ].
Proof. vm_compute. reflexivity. Qed.

Example drift_zero :
  (Sync.postStockToInfraspeak accept [row 10] [field 10]).1 = [].
Proof. vm_compute. reflexivity. Qed.

Example drift_no_record :
  (Sync.postStockToInfraspeak accept [row 4] []).1
  = [ Sync.stockMovementPayloadAdd 5 4 2 (Some 3) ].
Proof. vm_compute. reflexivity. Qed.

End DriftExamples.

(** ** Concrete runs of the handler *)

Module HandlerExamples.

Import Inputs.

(** Both requests are inserted, the first is posted, the second is not. *)
Example one_order_per_invocation :
  let out := handler two_requests world in
  out.2 = inr (Some (createResponse
                       (Message "Successfully posted Work Order Id 100 to Odoo.") 200))
  ∧ journal_entries (odoo_log out.1)
    = [ {| AccountMove.ref := Some "Work Order 100 - Ref: WID-001 (Qty: 8)";
           AccountMove.move_type := "entry";
           AccountMove.journal_id := 16;
           AccountMove.line_ids :=
             [ AccountMove.Debit (Some 482)
                 "Work Order 100 - Ref: WID-001 (Qty: 8)" (Some 80);
               AccountMove.Credit (Some 77)
                 "Work Order 100 - Ref: WID-001 (Qty: 8)" (Some 80) ];
           AccountMove.x_work_order_id := Some (Js.Num 100) |} ]
  ∧ (table out.1 !! "7") ≫= Item.account_move_id = Some 900
  ∧ (Item.account_move_id <$> table out.1 !! "9") = Some None.
Proof. vm_compute. repeat split; reflexivity. Qed.

(** The journal entry of a reversal: the accounts are swapped and the
    amount is the total read back from Odoo. *)
Example reversal_entry :
  materialLines
    {| WorkOrder.workOrderId := Some (Js.Str "100");
       WorkOrder.costCenter := Some 77;
       WorkOrder.material :=
         [ {| Material.workOrderId := Some (Js.Str "100");
              Material.materialId := None;
              Material.materialCode := None;
              Material.folderCode := None;
              Material.quantity := None;
              Material.meanPrice := Some 80 |} ] |}
    (Some 77) "Work Order" "REVERSED"
  = [ AccountMove.Debit (Some 77) "Work Order 100 REVERSED" (Some 80);
      AccountMove.Credit (Some 482) "Work Order 100 REVERSED" (Some 80) ].
Proof. vm_compute. reflexivity. Qed.

End HandlerExamples.

(** * Further properties of the reconciliation *)

Section ReconciliationInvariants.
Implicit Types (db : Table) (k : string).
#[local] Arguments upsert_request : simpl never.
#[local] Arguments reverse_missing : simpl never.

(** The keys after a run: those of the table and those of the payload. *)
Lemma checkAndUpsertRequests_dom payload db k :
  is_Some ((checkAndUpsertRequests payload db).1 !! k)
  ↔ is_Some (db !! k) ∨ k ∈ payload_ids payload.
Proof.
  rewrite elem_of_payload_ids.
  destruct (decide (k ∈ (λ request, Js.String (Request.request_id request)) <$> payload))
    as [Hk|Hk].
  - rewrite checkAndUpsertRequests_lookup_present by done.
    split; [tauto|]. intros _.
    apply list_elem_of_fmap in Hk as (request & -> & Hin).
    destruct (db !! Js.String (Request.request_id request)) as [e|] eqn:He.
    + destruct (fold_upsert_not_reversed payload db [] request _ e Hin eq_refl He)
        as (a & -> & _). eauto.
    + destruct (fold_upsert_inserted payload db db [] request _ Hin eq_refl He)
        as (a & -> & _). eauto.
  - rewrite checkAndUpsertRequests_lookup_absent by done.
    rewrite fmap_is_Some. tauto.
Qed.

(** One iteration of the first loop keeps the ledger identifiers of a
    persisted item. *)
Lemma upsert_request_ledger_ids db0 db results request k e :
  db0 !! k = Some e →
  ledger_ids <$> db !! k = Some (ledger_ids e) →
  ledger_ids <$> (upsert_request (getAllRequestsFromDynamo db0) (db, results) request).1 !! k
  = Some (ledger_ids e).
Proof.
  intros He Hk.
  destruct (decide (Js.String (Request.request_id request) = k)) as [Heq|Hne].
  2:{ by rewrite upsert_request_lookup_ne. }
  destruct (db !! k) as [a|] eqn:Ha; [|done]. simpl in Hk.
  unfold upsert_request, updateRequestInDynamo, resetReversedFlag.
  rewrite Heq, find_item_scan, He. simpl.
  destruct (Item.is_reversed e); case_bool_decide; simpl;
    rewrite ?updateItem_lookup_eq, ?Ha; simpl;
    rewrite ?updateItem_lookup_eq, ?Ha; simpl; try done.
Qed.

Lemma checkAndUpsertRequests_ledger_ids payload db k e :
  db !! k = Some e →
  ledger_ids <$> (checkAndUpsertRequests payload db).1 !! k = Some (ledger_ids e).
Proof.
  intros He.
  destruct (decide (k ∈ (λ request, Js.String (Request.request_id request)) <$> payload))
    as [Hk|Hk].
  - rewrite checkAndUpsertRequests_lookup_present by done.
    apply (fold_left_invariant _
             (λ acc, ledger_ids <$> acc.1 !! k = Some (ledger_ids e))).
    + intros [db' results] request _ Hacc. by apply upsert_request_ledger_ids.
    + simpl. by rewrite He.
  - rewrite checkAndUpsertRequests_lookup_absent, He by done. simpl.
    by destruct (Item.is_reversed e).
Qed.

(** After a run on a payload with consistent dates nothing is left to do. *)
Lemma settled_after_run payload db :
  consistent_dates payload → settled payload (checkAndUpsertRequests payload db).1.
Proof.
  intros Hagree. split.
  - intros request Hin.
    rewrite checkAndUpsertRequests_lookup_present
      by (apply list_elem_of_fmap; eauto).
    apply fold_upsert_settled; [done..|].
    intros request' Hin' Heq. by apply Hagree.
  - intros k a Ha Hk. rewrite elem_of_payload_ids in Hk.
    rewrite checkAndUpsertRequests_lookup_absent in Ha by done.
    destruct (db !! k) as [e|]; simplify_eq/=.
    by destruct (Item.is_reversed e) eqn:Hrev.
Qed.

(** On a settled table a run changes nothing and returns null. *)
Lemma settled_idle payload db :
  settled payload db → checkAndUpsertRequests payload db = (db, None).
Proof.
  intros [Hpresent Habsent].
  assert (H1 : fold_left (upsert_request (getAllRequestsFromDynamo db))
                 payload (db, []) = (db, [])).
  { apply fold_left_fixed. intros request Hin.
    destruct (Hpresent request Hin) as (a & Ha & Hdate & Hrev).
    unfold upsert_request. rewrite find_item_scan, Ha. simpl.
    rewrite Hrev, Hdate.
    by rewrite bool_decide_eq_false_2 by (intros Hne; by apply Hne). }
  assert (H2 : fold_left (reverse_missing (payload_ids payload))
                 (getAllRequestsFromDynamo db) (db, []) = (db, [])).
  { apply fold_left_fixed. intros [k a] Hin.
    apply elem_of_map_to_list in Hin.
    unfold reverse_missing. simpl.
    destruct (decide (k ∈ payload_ids payload)) as [Hk|Hk].
    - by rewrite bool_decide_eq_false_2 by tauto.
    - by rewrite (Habsent k a Hin Hk), andb_false_r. }
  unfold checkAndUpsertRequests. fold (payload_ids payload).
  by rewrite H1, H2.
Qed.

Lemma same_flags_refl db : same_flags db db.
Proof. done. Qed.

Lemma same_flags_sym db db' : same_flags db db' → same_flags db' db.
Proof. intros Hsame k. by rewrite Hsame. Qed.

Lemma same_flags_trans db1 db2 db3 :
  same_flags db1 db2 → same_flags db2 db3 → same_flags db1 db3.
Proof. intros H12 H23 k. by rewrite H12. Qed.

Lemma same_flags_is_Some db db' k :
  same_flags db db' → is_Some (db !! k) → is_Some (db' !! k).
Proof.
  intros Hsame Hk. specialize (Hsame k).
  rewrite <- (fmap_is_Some flags). rewrite <- Hsame. by rewrite fmap_is_Some.
Qed.

Lemma same_flags_lookup db db' k a' :
  same_flags db db' → db' !! k = Some a' →
  ∃ a, db !! k = Some a ∧ flags a = flags a'.
Proof.
  intros Hsame Ha'. specialize (Hsame k). rewrite Ha' in Hsame.
  destruct (db !! k) as [a|]; simpl in Hsame; [|done].
  exists a. split; [done|congruence].
Qed.

Lemma settled_same_flags payload db db' :
  same_flags db db' → settled payload db → settled payload db'.
Proof.
  intros Hsame [Hpresent Habsent]. split.
  - intros request Hin. destruct (Hpresent request Hin) as (a & Ha & Hdate & Hrev).
    destruct (same_flags_lookup db' db _ a (same_flags_sym _ _ Hsame) Ha)
      as (a' & Ha' & Hflags).
    exists a'. unfold flags, Item.is_reversed in *. simplify_eq/=.
    split; [done|]. split; congruence.
  - intros k a' Ha' Hk.
    destruct (same_flags_lookup db db' k a' Hsame Ha') as (a & Ha & Hflags).
    specialize (Habsent k a Ha Hk).
    unfold flags, Item.is_reversed in *. simplify_eq/=. congruence.
Qed.

(** An update of an item that is there, which keeps its date and its
    flag. *)
Lemma same_flags_updateItem db k set :
  is_Some (db !! k) → (∀ a, flags (set a) = flags a) →
  same_flags db (updateItem k set db).
Proof.
  intros [a Ha] Hset k'. destruct (decide (k = k')) as [<-|Hne].
  - rewrite updateItem_lookup_eq, Ha. simpl. by rewrite Hset.
  - by rewrite updateItem_lookup_ne.
Qed.

(** The items that a run returns are items of the table that it leaves. *)
Lemma all_items_keys payload db item :
  item ∈ all_items payload db →
  is_Some ((checkAndUpsertRequests payload db).1 !! Classified.request_id item).
Proof.
  intros [(request & Hin & Hx)|(k & a & Ha & Hx)]%elem_of_all_items;
    apply checkAndUpsertRequests_dom.
  - right. apply emitted_for_request_id in Hx. rewrite Hx.
    apply elem_of_payload_ids, list_elem_of_fmap. eauto.
  - left. apply reversal_for_state in Hx as (_ & -> & _). eauto.
Qed.

(** X1. [checkAndUpsertRequests] leaves an item for every key that the
    table had and for every string-normalised id of the payload, and for
    no other key: it deletes nothing and creates nothing else. *)
Theorem X1_checkAndUpsertRequests_keys payload db :
  dom (checkAndUpsertRequests payload db).1 = dom db ∪ payload_ids payload.
Proof.
  apply set_eq. intros k. rewrite elem_of_union, !elem_of_dom.
  apply checkAndUpsertRequests_dom.
Qed.

(** X2. [checkAndUpsertRequests] keeps, on every persisted item, the
    identifiers of the ledger entries ([stock_move_ids], [account_move_id])
    and [cost_center_odoo], whether the item is updated, marked reversed,
    reset or left alone. *)
Theorem X2_checkAndUpsertRequests_keeps_ledger_ids payload db k e :
  db !! k = Some e →
  ∃ e', (checkAndUpsertRequests payload db).1 !! k = Some e'
        ∧ Item.stock_move_ids e' = Item.stock_move_ids e
        ∧ Item.account_move_id e' = Item.account_move_id e
        ∧ Item.cost_center_odoo e' = Item.cost_center_odoo e.
Proof.
  intros He. pose proof (checkAndUpsertRequests_ledger_ids payload db k e He) as Hids.
  destruct ((checkAndUpsertRequests payload db).1 !! k) as [e'|]; [|done].
  exists e'. unfold ledger_ids in Hids. by simplify_eq/=.
Qed.

(** X3. A request that was marked reversed and is in the payload again
    with the [date_updated] that the table has: its flag is reset to
    [false], and the run returns no item for it, neither COMPLETED nor
    REVERSED, so that nothing is posted for it again. *)
Theorem X3_reappearing_request_is_not_reposted payload db k e :
  db !! k = Some e → Item.is_reversed e = true →
  k ∈ payload_ids payload →
  (∀ request, request ∈ payload → Js.String (Request.request_id request) = k →
     Item.date_updated e = Some (Request.date_updated request)) →
  let out := checkAndUpsertRequests payload db in
  out.1 !! k = Some (set_reversed false e)
  ∧ ∀ item, item ∈ default [] out.2 → Classified.request_id item ≠ k.
Proof.
  intros He Hrev Hk Hdate out. subst out. split.
  - rewrite elem_of_payload_ids in Hk.
    rewrite checkAndUpsertRequests_lookup_present by done.
    apply list_elem_of_fmap in Hk as (request & Heq & Hin). symmetry in Heq.
    assert (Hstep : ∀ db' results request',
              request' ∈ payload → Js.String (Request.request_id request') = k →
              db' !! k = Some e ∨ db' !! k = Some (set_reversed false e) →
              (upsert_request (getAllRequestsFromDynamo db) (db', results) request').1
                !! k = Some (set_reversed false e)).
    { intros db' results request' Hin' Heq' Hdb'.
      unfold upsert_request, resetReversedFlag.
      rewrite Heq', find_item_scan, He. simpl. rewrite Hrev.
      rewrite bool_decide_eq_false_2
        by (intros Hne; apply Hne; by apply Hdate).
      simpl. rewrite updateItem_lookup_eq.
      destruct Hdb' as [->| ->]; simpl; [done|]. by rewrite set_reversed_idemp. }
    apply (fold_upsert_establish
             (λ o, o = Some e ∨ o = Some (set_reversed false e))
             (λ o, o = Some (set_reversed false e))
             _ payload request k); eauto.
  - rewrite returned_items.
    intros x [(request & Hin & Hx)|(k' & a & Ha & Hx)]%elem_of_all_items.
    + destruct (decide (Js.String (Request.request_id request) = k)) as [Heq|Hne].
      * rewrite emitted_for_scan, Heq, He in Hx.
        rewrite decide_True in Hx by by apply Hdate. by apply elem_of_nil in Hx.
      * apply emitted_for_request_id in Hx. congruence.
    + apply reversal_for_state in Hx as (_ & -> & Hnot & _). congruence.
Qed.

(** The item of a request that one run inserts. *)
Lemma checkAndUpsertRequests_inserted payload db request :
  request ∈ payload →
  db !! Js.String (Request.request_id request) = None →
  (∀ request', request' ∈ payload →
     Js.String (Request.request_id request') = Js.String (Request.request_id request) →
     request' = request) →
  (checkAndUpsertRequests payload db).1 !! Js.String (Request.request_id request)
  = insertRequestToDynamo request ∅ !! Js.String (Request.request_id request).
Proof.
  intros Hin Hnone Hunique.
  rewrite checkAndUpsertRequests_lookup_present by (apply list_elem_of_fmap; eauto).
  set (k := Js.String (Request.request_id request)) in *.
  assert (Hstep : ∀ db' results request',
            request' ∈ payload → Js.String (Request.request_id request') = k →
            (upsert_request (getAllRequestsFromDynamo db) (db', results) request').1 !! k
            = insertRequestToDynamo request ∅ !! k).
  { intros db' results request' Hin' Heq'.
    rewrite (Hunique request' Hin' Heq').
    unfold upsert_request. fold k. rewrite find_item_scan, Hnone. simpl.
    unfold insertRequestToDynamo. fold k. by rewrite !lookup_insert_eq. }
  apply (fold_upsert_establish
           (λ o, True) (λ o, o = insertRequestToDynamo request ∅ !! k)
           _ payload request k); eauto.
Qed.

(** X29. A retraction carries the order of the request.  A request that
    one run inserts and that the payload of the next run lacks is returned
    by that run as a REVERSED item with the type of its order and with the
    id of its order as a string, also when Infraspeak gave the id as a
    number; the item has no cost center, no journal entry and no stock
    moves. *)
Theorem X29_retraction_carries_the_order payload payload' db request :
  request ∈ payload →
  db !! Js.String (Request.request_id request) = None →
  (∀ request', request' ∈ payload →
     Js.String (Request.request_id request') = Js.String (Request.request_id request) →
     request' = request) →
  Js.String (Request.request_id request) ∉ payload_ids payload' →
  let first := checkAndUpsertRequests payload db in
  let second := checkAndUpsertRequests payload' first.1 in
  {| Classified.cost_center_odoo := None;
     Classified.journal_move_id := None;
     Classified.request_id := Js.String (Request.request_id request);
     Classified.related_to_id :=
       Some (Js.Str (Js.String (Request.related_to_id request)));
     Classified.related_to_type := Some (Request.related_to_type request);
     Classified.stock_move_ids := None;
     Classified.state := "REVERSED";
     Classified.upserted := None |} ∈ default [] second.2.
Proof.
  intros Hin Hnone Hunique Habsent first second. subst second.
  rewrite returned_items. apply elem_of_all_items. right.
  pose proof (checkAndUpsertRequests_inserted payload db request Hin Hnone Hunique)
    as Hitem.
  fold first in Hitem. unfold insertRequestToDynamo in Hitem.
  rewrite lookup_insert_eq in Hitem.
  eexists _, _. split; [exact Hitem|].
  unfold reversal_for, reverse_missing. simpl.
  rewrite bool_decide_eq_true_2 by done. simpl.
  apply list_elem_of_singleton. reflexivity.
Qed.

End ReconciliationInvariants.

(** * What the handler leaves in the table *)

Section Keeping.
Context {A : Type}.

Lemma keeps_unchanged k (m : M A) :
  (∀ w, table (m w).1 = table w) → keeps_flags k m.
Proof. intros Hm w _. rewrite Hm. apply same_flags_refl. Qed.

End Keeping.

Section KeepingSequence.
Context {A B : Type}.

Lemma keeps_bind k (m : M A) (f : A → M B) :
  keeps_flags k m → (∀ a, keeps_flags k (f a)) → keeps_flags k (bind m f).
Proof.
  intros Hm Hf w Hk. unfold bind. specialize (Hm w Hk).
  destruct (m w) as [w1 [e|a]]; simpl in *; [done|].
  eapply same_flags_trans; [done|]. apply Hf. by eapply same_flags_is_Some.
Qed.

Lemma keeps_catch k (m : M A) (h : Error → M A) :
  keeps_flags k m → (∀ e, keeps_flags k (h e)) → keeps_flags k (catch m h).
Proof.
  intros Hm Hh w Hk. unfold catch. specialize (Hm w Hk).
  destruct (m w) as [w1 [e|a]]; simpl in *; [|done].
  eapply same_flags_trans; [done|]. apply Hh. by eapply same_flags_is_Some.
Qed.

Lemma keeps_promise_all k (f : A → M B) (l : list A) :
  (∀ x, keeps_flags k (f x)) → keeps_flags k (promise_all f l).
Proof.
  intros Hf. induction l as [|x l IH]; [by apply keeps_unchanged|].
  intros w Hk. simpl. specialize (Hf x w Hk).
  destruct (f x w) as [w1 r]; simpl in *.
  assert (Hk1 : is_Some (table w1 !! k)) by by eapply same_flags_is_Some.
  specialize (IH w1 Hk1).
  destruct r as [e|y]; simpl; [by eapply same_flags_trans|].
  destruct (promise_all f l w1) as [w2 [e|ys]]; simpl in *;
    by eapply same_flags_trans.
Qed.

Lemma catch_table (m : M A) (h : Error → M A) (w : World) :
  (∀ e w', table (h e w').1 = table w') → table (catch m h w).1 = table (m w).1.
Proof. intros Hh. unfold catch. destruct (m w) as [w1 [e|a]]; [apply Hh|done]. Qed.

End KeepingSequence.

Section KeepingHandler.
Context (remote : Remote).

Lemma keeps_processWorkOrder infraspeakData costCenters workOrderId orderType
    upserted k :
  keeps_flags k
    (processWorkOrder remote infraspeakData costCenters workOrderId orderType upserted k).
Proof.
  unfold processWorkOrder.
  destruct (Infraspeak.data infraspeakData) as [data|]; [|by apply keeps_unchanged].
  destruct (Infraspeak.included infraspeakData) as [included|];
    [|by apply keeps_unchanged].
  apply keeps_bind.
  { apply keeps_unchanged. intros w. unfold getOdooCostCenterId, getOdooAccounts. run.
    destruct (odoo_accounts remote) as [e|accounts]; [done|]. simpl.
    by destruct (filter _ accounts). }
  intros costCenter. apply keeps_bind.
  { intros w Hk. by apply same_flags_updateItem. }
  intros _. apply keeps_bind; [by apply keeps_unchanged|].
  intros materialData. by apply keeps_unchanged.
Qed.

Lemma keeps_postToOdoo inventoryData accountingData orderType state k :
  keeps_flags k (postToOdoo remote inventoryData accountingData orderType state k).
Proof.
  unfold postToOdoo. apply keeps_catch; [|intros e; by apply keeps_unchanged].
  apply keeps_bind.
  { apply keeps_promise_all. intros data. apply keeps_unchanged. intros w.
    unfold postOdooInventory. by run. }
  intros responseInventory. apply keeps_bind.
  { apply keeps_unchanged. intros w. unfold postOdooAccounting. by run. }
  intros responseAccounting. apply keeps_bind; [|intros _; by apply keeps_unchanged].
  destruct (result responseAccounting) as [accountResultId|];
    [|by apply keeps_unchanged].
  destruct (_ && _); [|by apply keeps_unchanged].
  apply keeps_bind.
  { unfold saveInventoryResponseToDynamo.
    destruct (mapM id _); [|by apply keeps_unchanged].
    intros w Hk. by apply same_flags_updateItem. }
  intros _. apply keeps_unchanged. intros w. unfold updateJournalFromDraftToDone.
  by run.
Qed.

Lemma keeps_handle_item costCenters odooStock item :
  keeps_flags (Classified.request_id item)
    (handle_item remote costCenters odooStock item).
Proof.
  unfold handle_item. cbv zeta.
  apply keeps_bind.
  2:{ intros [response|]; by apply keeps_unchanged. }
  case_bool_decide.
  - apply keeps_bind; [by apply keeps_unchanged|]. intros infraspeakData.
    apply keeps_bind.
    { destruct (Infraspeak.data infraspeakData); by apply keeps_unchanged. }
    intros _. apply keeps_bind; [apply keeps_processWorkOrder|].
    intros processedWorkOrder. apply keeps_bind; [by apply keeps_unchanged|].
    intros preparedInventoryPosting.
    apply keeps_bind; [apply keeps_postToOdoo|]. intros response.
    by apply keeps_unchanged.
  - apply keeps_bind; [by apply keeps_unchanged|]. intros resultIds.
    apply keeps_bind.
    { apply keeps_unchanged. intros w.
      unfold processStockReversal, fetchStockMovementOdoo. run.
      by destruct (odoo_stock_move_search remote _ _). }
    intros preparedStock. apply keeps_bind.
    { apply keeps_unchanged. intros w.
      unfold processJournalReversal, fetchAccountMovementOdoo. run.
      by destruct (odoo_account_move_search remote _ _) as [e|[|row rows]]. }
    intros preparedJournal.
    apply keeps_bind; [apply keeps_postToOdoo|]. intros response.
    by apply keeps_unchanged.
Qed.

Lemma keeps_for_of costCenters odooStock item rest :
  keeps_flags (Classified.request_id item)
    (for_of (handle_item remote costCenters odooStock) (item :: rest)).
Proof.
  intros w Hk.
  destruct (for_of_first (handle_item remote costCenters odooStock) item rest w)
    as [-> _].
  { intros w' c Hrun. apply handle_item_returns in Hrun. by subst c. }
  pose proof (keeps_handle_item costCenters odooStock item w Hk) as Hkeep.
  pose proof (handle_item_returns remote costCenters odooStock item w) as Hreturns.
  destruct (handle_item remote costCenters odooStock item w) as [w1 [e|[|response]]];
    try done.
  by specialize (Hreturns w1 Normal eq_refl).
Qed.

(** The table after the handler differs from the table after the
    reconciliation in nothing that the reconciliation reads. *)
Lemma handler_table payload (w : World) :
  infraspeak_requests remote = inr payload →
  same_flags (checkAndUpsertRequests payload (table w)).1 (table (handler remote w).1).
Proof.
  intros Hpayload. unfold handler.
  rewrite catch_table.
  2:{ intros e w'. unfold getUserDetails. run. by destruct (infraspeak_user remote). }
  unfold getInfraspeakRequests. rewrite Hpayload.
  unfold bind at 1. simpl. unfold bind at 1. simpl.
  pose proof (checkAndUpsertRequests_returned payload (table w)) as Hreturned.
  pose proof (all_items_keys payload (table w)) as Hkeys.
  destruct (checkAndUpsertRequests payload (table w)) as [db1 checked]. simpl in *.
  subst checked.
  destruct (all_items payload (table w)) as [|item rest]; [apply same_flags_refl|].
  set (w0 := {| table := db1; odoo_log := odoo_log w |}).
  change db1 with (table w0) at 1.
  assert (Hk : is_Some (table w0 !! Classified.request_id item)).
  { apply Hkeys. by left. }
  revert Hk. generalize w0. clear. intros w Hk. revert w Hk.
  change (keeps_flags (Classified.request_id item)
            (let! costCenters := getCostCentersInfraspeak remote in
             let! odooStock := getOdooStockQuant remote in
             let! completion :=
               for_of (handle_item remote costCenters odooStock) (item :: rest) in
             match completion with
             | Return response => ret (Some response)
             | Normal => ret None
             end)).
  apply keeps_bind; [by apply keeps_unchanged|]. intros costCenters.
  apply keeps_bind; [by apply keeps_unchanged|]. intros odooStock.
  apply keeps_bind; [apply keeps_for_of|].
  intros [|response]; by apply keeps_unchanged.
Qed.

(** X4. A second invocation of the handler does nothing.  When Infraspeak
    gives the same payload again (with consistent dates), the invocation
    that follows any invocation, whatever that one posted, failed to post
    or never reached, answers 200 "Okay. No new Requests to process." and
    changes neither the table nor what was sent to Odoo: the items that the
    first invocation returned are not processed again. *)
Theorem X4_second_invocation_is_idle payload (w : World) :
  infraspeak_requests remote = inr payload → consistent_dates payload →
  let w1 := (handler remote w).1 in
  handler remote w1
  = (w1, inr (Some (createResponse (Message "Okay. No new Requests to process.") 200))).
Proof.
  intros Hpayload Hagree w1.
  assert (Hidle : checkAndUpsertRequests payload (table w1) = (table w1, None)).
  { apply settled_idle. eapply settled_same_flags; [by apply handler_table|].
    by apply settled_after_run. }
  unfold handler, getInfraspeakRequests. rewrite Hpayload.
  unfold catch, bind at 1. simpl. unfold bind at 1. rewrite Hidle. simpl.
  by destruct w1.
Qed.

(** The loop of the handler ends normally on the empty list only, and
    otherwise returns the response of a posting. *)
Lemma for_of_handle_item costCenters odooStock items (w w' : World) completion :
  for_of (handle_item remote costCenters odooStock) items w = (w', inr completion) →
  match completion with
  | Normal => items = []
  | Return response =>
      statusCode response = 200 ∧ ∃ message, body response = Message message
  end.
Proof.
  destruct items as [|item rest].
  { by intros [= <- <-]. }
  destruct (for_of_first (handle_item remote costCenters odooStock) item rest w)
    as [-> _].
  { intros w1 c Hrun. apply handle_item_returns in Hrun. by subst c. }
  pose proof (handle_item_returns remote costCenters odooStock item w) as Hreturns.
  destruct (handle_item remote costCenters odooStock item w) as [w1 [e|c]]; [done|].
  rewrite (Hreturns w1 c eq_refl). intros [= <- <-]. simpl. eauto.
Qed.

(** X5. The outcomes of the handler: it answers 200 with a message, or it
    answers 500 with the error when the details of the user can be
    fetched; it never ends without a response; and it rejects exactly with
    the error of [getUserDetails], which then takes the place of the error
    that was caught. *)
Theorem X5_handler_outcome (w : World) :
  match (handler remote w).2 with
  | inr (Some response) =>
      (statusCode response = 200 ∧ ∃ message, body response = Message message)
      ∨ (statusCode response = 500
         ∧ (∃ error, body response = ErrorProcessingRequests error)
         ∧ ∃ userDetails, infraspeak_user remote = inr userDetails)
  | inr None => False
  | inl error =>
      ∃ cause, infraspeak_user remote = inl cause
               ∧ error = ErrorFetchingUserDetails cause
  end.
Proof.
  unfold handler, catch.
  match goal with
  | |- context [bind ?m ?f w] => destruct (bind m f w) as [w1 [e|r]] eqn:Hrun
  end.
  { unfold getUserDetails. run.
    destruct (infraspeak_user remote) as [cause|userDetails]; simpl; eauto 10. }
  simpl.
  apply bind_inr in Hrun as (payload & w2 & _ & Hrun).
  apply bind_inr in Hrun as (checked & w3 & Hchecked & Hrun).
  injection Hchecked as <- <-.
  pose proof (checkAndUpsertRequests_returned payload (table w2)) as Hreturned.
  destruct ((checkAndUpsertRequests payload (table w2)).2) as [items|].
  2:{ injection Hrun as <- <-. left. eauto. }
  apply bind_inr in Hrun as (costCenters & w4 & _ & Hrun).
  apply bind_inr in Hrun as (odooStock & w5 & _ & Hrun).
  apply bind_inr in Hrun as (completion & w6 & Hloop & Hrun).
  apply for_of_handle_item in Hloop.
  destruct completion as [|response]; injection Hrun as <- <-.
  - subst items. by destruct (all_items payload (table w2)).
  - by left.
Qed.

End KeepingHandler.

(** * Further properties of the translation and of the posting *)

Section TranslationOutcomes.
Context (remote : Remote).
#[local] Arguments updateItem : simpl never.

(** X6. [processWorkOrder] writes the cost center on the item of the
    request before it validates the materials: when it returns, and also
    when it throws the error of the material data, the item holds the
    identifier of the Odoo account; on every other error the table is as
    it was.  No other item is touched. *)
Theorem X6_processWorkOrder_saves_cost_center infraspeakData costCenters workOrderId
    orderType upserted requestId (w : World) :
  let out := processWorkOrder remote infraspeakData costCenters workOrderId orderType
               upserted requestId w in
  (∀ k, k ≠ requestId → table out.1 !! k = table w !! k)
  ∧ match out.2 with
    | inr order =>
        is_Some (WorkOrder.costCenter order)
        ∧ Item.cost_center_odoo <$> table out.1 !! requestId
          = Some (WorkOrder.costCenter order)
    | inl (ErrorPreparingMaterialData _) =>
        ∃ costCenter,
          Item.cost_center_odoo <$> table out.1 !! requestId = Some (Some costCenter)
    | inl _ => table out.1 = table w
    end.
Proof.
  cbv zeta. unfold processWorkOrder.
  destruct (Infraspeak.data infraspeakData) as [data|]; [|done].
  destruct (Infraspeak.included infraspeakData) as [included|]; [|done].
  unfold getOdooCostCenterId, getOdooAccounts, saveCostCenterToDynamo. run.
  destruct (odoo_accounts remote) as [e|accounts]; [done|]. simpl.
  destruct (filter _ accounts) as [|account ?]; [done|]. simpl.
  split; [intros k Hk; destruct (materialData workOrderId included); simpl;
          by rewrite updateItem_lookup_ne|].
  unfold materialData, rethrow.
  destruct (let? mapped := traverse _ _ in _) as [e|materials]; simpl;
    rewrite updateItem_lookup_eq; eauto.
Qed.

(** X7. An order whose cost center has no code, or a code that no account
    of Odoo has, is rejected with the error of the cost center id before
    anything is written or validated. *)
Theorem X7_processWorkOrder_without_account infraspeakData data included costCenters
    workOrderId orderType upserted requestId accounts (w : World) :
  Infraspeak.data infraspeakData = Some data →
  Infraspeak.included infraspeakData = Some included →
  odoo_accounts remote = inr accounts →
  (costCenterCode (Infraspeak.attributes data) costCenters = None
   ∨ ∀ account, account ∈ accounts →
       Account.code account ≠ costCenterCode (Infraspeak.attributes data) costCenters) →
  processWorkOrder remote infraspeakData costCenters workOrderId orderType upserted
    requestId w
  = (w, inl (ErrorFetchingCostCenterId (TypeError "id"))).
Proof.
  intros Hdata Hincluded Haccounts Hcode.
  unfold processWorkOrder. rewrite Hdata, Hincluded.
  unfold getOdooCostCenterId, getOdooAccounts. run. rewrite Haccounts. simpl.
  destruct (filter _ accounts) as [|account rest] eqn:Hfilter; [done|].
  assert (Hin : account ∈ account :: rest) by left.
  rewrite <- Hfilter in Hin. apply list_elem_of_filter in Hin as [[Heq Hsome] Hin].
  destruct Hcode as [Hcode|Hcode].
  - rewrite Hcode in Hsome. by destruct Hsome.
  - by destruct (Hcode account Hin).
Qed.

End TranslationOutcomes.

Section Posting.
Context (remote : Remote).

Lemma stock_moves_app calls1 calls2 :
  stock_moves (calls1 ++ calls2) = stock_moves calls1 ++ stock_moves calls2.
Proof. apply omap_app. Qed.

Lemma journal_posts_app calls1 calls2 :
  journal_posts (calls1 ++ calls2) = journal_posts calls1 ++ journal_posts calls2.
Proof. apply omap_app. Qed.

Lemma stock_moves_create moves : stock_moves (StockMoveCreate <$> moves) = moves.
Proof.
  induction moves as [|move moves IH]; [done|].
  simpl. f_equal. exact IH.
Qed.

Lemma journal_entries_create moves : journal_entries (StockMoveCreate <$> moves) = [].
Proof. by induction moves. Qed.

Lemma journal_posts_create moves : journal_posts (StockMoveCreate <$> moves) = [].
Proof. by induction moves. Qed.

(** The stock moves of one batch: every move is sent, whatever Odoo
    answers to the others. *)
Lemma promise_all_postOdooInventory orderType state (l : list Inventory.t) (w : World) :
  let out := promise_all (λ data, postOdooInventory remote data orderType state) l w in
  table out.1 = table w
  ∧ (∃ moves, odoo_log out.1 = odoo_log w ++ (StockMoveCreate <$> moves)
              ∧ StockMove.product_id <$> moves = Inventory.product_id <$> l
              ∧ StockMove.quantity <$> moves = Inventory.quantity <$> l)
  ∧ match out.2 with
    | inr responses => length responses = length l
    | inl e => ∃ cause, e = ErrorPostingStock cause
    end.
Proof.
  revert w. induction l as [|data l IH]; intros w; simpl.
  { split; [done|]. split; [|done]. exists []. by rewrite app_nil_r. }
  unfold postOdooInventory at 1 2 3. run.
  set (args := {| StockMove.product_id := Inventory.product_id data |}).
  set (w1 := {| table := table w; odoo_log := odoo_log w ++ [StockMoveCreate args] |}).
  destruct (IH w1) as (Htable & (moves & Hlog & Hproducts & Hquantities) & Hout).
  assert (Hlog' : odoo_log (promise_all
                    (λ data, postOdooInventory remote data orderType state) l w1).1
                  = odoo_log w ++ (StockMoveCreate <$> args :: moves)).
  { rewrite Hlog. simpl. by rewrite <- app_assoc. }
  assert (Hmoves : ∃ moves',
            odoo_log (promise_all
              (λ data, postOdooInventory remote data orderType state) l w1).1
            = odoo_log w ++ (StockMoveCreate <$> moves')
            ∧ StockMove.product_id <$> moves'
              = Inventory.product_id data :: (Inventory.product_id <$> l)
            ∧ StockMove.quantity <$> moves'
              = Inventory.quantity data :: (Inventory.quantity <$> l)).
  { exists (args :: moves). split; [exact Hlog'|].
    by rewrite !fmap_cons, Hproducts, Hquantities. }
  destruct (odoo_stock_move_create remote args) as [e|response]; simpl.
  { split; [done|]. split; [done|]. eauto. }
  destruct (promise_all _ l w1) as [w2 [e|responses]]; simpl in *.
  - done.
  - split; [done|]. split; [done|]. by rewrite Hout.
Qed.

(** Every run of [postToOdoo]: what it sends and what it writes, by its
    outcome. *)
Lemma postToOdoo_run inventoryData accountingData orderType state requestId (w : World) :
  ∃ moves entry,
    StockMove.product_id <$> moves = Inventory.product_id <$> inventoryData
    ∧ StockMove.quantity <$> moves = Inventory.quantity <$> inventoryData
    ∧ let out := postToOdoo remote inventoryData accountingData orderType state
                   requestId w in
      match out.2 with
      | inl error =>
          ∃ cause, error = ErrorPostingDataToOdoo cause
            ∧ match cause with
              | ErrorPostingStock _ =>
                  odoo_log out.1 = odoo_log w ++ (StockMoveCreate <$> moves)
                  ∧ table out.1 = table w
              | ErrorPostingJournal _ | ReferenceError _ =>
                  odoo_log out.1
                  = odoo_log w ++ (StockMoveCreate <$> moves) ++ [AccountMoveCreate entry]
                  ∧ table out.1 = table w
              | ErrorUpdatingJournal _ =>
                  ∃ a, odoo_log out.1
                       = odoo_log w ++ (StockMoveCreate <$> moves)
                         ++ [AccountMoveCreate entry; AccountMoveActionPost a]
              | _ => False
              end
      | inr response =>
          ∃ a, accounting response = Some a ∧ a ≠ 0 ∧ requestId ≠ ""
            ∧ length (inventory response) = length inventoryData
            ∧ odoo_log out.1
              = odoo_log w ++ (StockMoveCreate <$> moves)
                ++ [AccountMoveCreate entry; AccountMoveActionPost a]
            ∧ table out.1
              = table (saveInventoryResponseToDynamo requestId (inventory response)
                         (Some a) w).1
      end.
Proof.
  destruct (promise_all_postOdooInventory orderType state inventoryData w)
    as (Htable & (moves & Hlog & Hproducts & Hquantities) & Hout).
  exists moves.
  eexists. split; [done|]. split; [done|].
  cbv zeta.
  destruct (postToOdoo remote inventoryData accountingData orderType state requestId w)
    as [w' r] eqn:Hrun.
  simpl. revert Hrun.
  unfold postToOdoo, catch. unfold bind at 1.
  destruct (promise_all _ inventoryData w) as [w1 [e|responses]]; simpl in *.
  { destruct Hout as [cause ->]. intros [= <- <-]. eexists. split; [done|]. done. }
  unfold postOdooAccounting. unfold bind at 1 2. simpl.
  unfold lift, rethrow.
  match goal with
  | |- context [odoo_account_move_create remote ?args] =>
      destruct (odoo_account_move_create remote args) as [e|responseAccounting]
  end; simpl.
  { intros [= <- <-]. eexists. split; [done|]. simpl.
    rewrite Hlog, Htable, <- app_assoc. done. }
  unfold bind at 1.
  destruct (result responseAccounting) as [a|] eqn:Hresult; simpl.
  2:{ intros [= <- <-]. eexists. split; [done|]. simpl.
      rewrite Hlog, Htable, <- app_assoc. done. }
  destruct (bool_decide (requestId ≠ "")) eqn:Hid; simpl.
  2:{ intros [= <- <-]. eexists. split; [done|]. simpl.
      rewrite Hlog, Htable, <- app_assoc. done. }
  destruct (bool_decide (a ≠ 0)) eqn:Ha; simpl.
  2:{ intros [= <- <-]. eexists. split; [done|]. simpl.
      rewrite Hlog, Htable, <- app_assoc. done. }
  apply bool_decide_eq_true in Hid, Ha.
  unfold bind at 1. unfold saveInventoryResponseToDynamo, updateJournalFromDraftToDone.
  destruct (mapM id (result <$> responses)) as [ids|] eqn:Hids; run;
    destruct (odoo_account_move_action_post remote a) as [e|[]]; simpl;
    intros [= <- <-].
  - eexists. split; [done|]. simpl. exists a. rewrite Hlog, <- !app_assoc. done.
  - exists a. simpl. rewrite Hids, length_fmap, Hlog, Htable, <- !app_assoc. done.
  - eexists. split; [done|]. simpl. exists a. rewrite Hlog, <- !app_assoc. done.
  - exists a. simpl. rewrite Hids, length_fmap, Hlog, Htable, <- !app_assoc. done.
Qed.

(** X8. [postToOdoo] issues one stock move for every inventory movement,
    in order and with its product and quantity, whatever the outcome: the
    moves of a batch are all started before the first answer is awaited,
    so that a move that Odoo refuses does not keep the others from being
    issued; and no move is issued twice. *)
Theorem X8_postToOdoo_sends_every_stock_move inventoryData accountingData orderType
    state requestId (w : World) :
  ∃ calls,
    odoo_log (postToOdoo remote inventoryData accountingData orderType state
                requestId w).1 = odoo_log w ++ calls
    ∧ StockMove.product_id <$> stock_moves calls = Inventory.product_id <$> inventoryData
    ∧ StockMove.quantity <$> stock_moves calls = Inventory.quantity <$> inventoryData.
Proof.
  destruct (postToOdoo_run inventoryData accountingData orderType state
              requestId w) as (moves & entry & Hproducts & Hquantities & Hrun).
  cbv zeta in Hrun.
  destruct (postToOdoo remote inventoryData accountingData orderType state requestId w)
    as [w' [error|response]]; simpl in *.
  - destruct Hrun as (cause & -> & Hrun).
    destruct cause; try done.
    + destruct Hrun as [-> _]. eexists. split; [done|].
      by rewrite stock_moves_app, stock_moves_create, app_nil_r.
    + destruct Hrun as [-> _]. eexists. split; [done|].
      by rewrite stock_moves_create.
    + destruct Hrun as [-> _]. eexists. split; [done|].
      by rewrite stock_moves_app, stock_moves_create, app_nil_r.
    + destruct Hrun as (a & ->). eexists. split; [done|].
      by rewrite stock_moves_app, stock_moves_create, app_nil_r.
  - destruct Hrun as (a & _ & _ & _ & _ & -> & _). eexists. split; [done|].
    by rewrite stock_moves_app, stock_moves_create, app_nil_r.
Qed.

(** X9. What a failed [postToOdoo] leaves behind.  Its error wraps one of
    four causes.  A refused stock move: no journal entry was sent.  A
    refused journal entry, or an answer without a usable id (also when the
    request id is empty): one journal entry was sent and none was posted.
    In these three cases the table is as it was.  A refused posting of the
    journal entry: one entry was sent and its posting was sent once. *)
Theorem X9_postToOdoo_failure inventoryData accountingData orderType state requestId
    (w w' : World) (error : Error) :
  postToOdoo remote inventoryData accountingData orderType state requestId w
  = (w', inl error) →
  ∃ cause calls,
    error = ErrorPostingDataToOdoo cause
    ∧ odoo_log w' = odoo_log w ++ calls
    ∧ match cause with
      | ErrorPostingStock _ =>
          journal_entries calls = [] ∧ journal_posts calls = [] ∧ table w' = table w
      | ErrorPostingJournal _ | ReferenceError _ =>
          length (journal_entries calls) = 1%nat ∧ journal_posts calls = []
          ∧ table w' = table w
      | ErrorUpdatingJournal _ =>
          length (journal_entries calls) = 1%nat ∧ length (journal_posts calls) = 1%nat
      | _ => False
      end.
Proof.
  intros Hout.
  destruct (postToOdoo_run inventoryData accountingData orderType state
              requestId w) as (moves & entry & _ & _ & Hrun).
  cbv zeta in Hrun. rewrite Hout in Hrun. simpl in Hrun.
  destruct Hrun as (cause & -> & Hrun). exists cause.
  destruct cause; try done.
  - destruct Hrun as [-> ->]. eexists. split; [done|]. split; [done|].
    by rewrite journal_entries_app, journal_posts_app, journal_entries_create,
      journal_posts_create.
  - destruct Hrun as [-> ->]. eexists. split; [done|]. split; [done|].
    by rewrite journal_entries_create, journal_posts_create.
  - destruct Hrun as [-> ->]. eexists. split; [done|]. split; [done|].
    by rewrite journal_entries_app, journal_posts_app, journal_entries_create,
      journal_posts_create.
  - destruct Hrun as (a & ->). eexists. split; [done|]. split; [done|].
    by rewrite journal_entries_app, journal_posts_app, journal_entries_create,
      journal_posts_create.
Qed.

(** X10. When [postToOdoo] returns, Odoo gave a non-zero id for the
    journal entry and the request id is not empty; one journal entry was
    sent and exactly that entry was posted; the response has one id for
    every inventory movement; and the ids of the stock moves and of the
    journal entry are on the item of the request, with its cost center as
    it was, unless a stock move came back without an id, in which case the
    table is as it was.  No other item is touched. *)
Theorem X10_postToOdoo_success inventoryData accountingData orderType state requestId
    (w w' : World) (response : OdooResponse) :
  postToOdoo remote inventoryData accountingData orderType state requestId w
  = (w', inr response) →
  ∃ accountResultId calls,
    accounting response = Some accountResultId ∧ accountResultId ≠ 0
    ∧ requestId ≠ ""
    ∧ length (inventory response) = length inventoryData
    ∧ odoo_log w' = odoo_log w ++ calls
    ∧ length (journal_entries calls) = 1%nat
    ∧ journal_posts calls = [accountResultId]
    ∧ (∀ k, k ≠ requestId → table w' !! k = table w !! k)
    ∧ match mapM id (inventory response) with
      | Some stock_move_ids =>
          ∃ item, table w' !! requestId = Some item
                  ∧ Item.stock_move_ids item = Some stock_move_ids
                  ∧ Item.account_move_id item = Some accountResultId
                  ∧ Item.cost_center_odoo item
                    = table w !! requestId ≫= Item.cost_center_odoo
      | None => table w' = table w
      end.
Proof.
  intros Hout.
  destruct (postToOdoo_run inventoryData accountingData orderType state
              requestId w) as (moves & entry & _ & _ & Hrun).
  cbv zeta in Hrun. rewrite Hout in Hrun. simpl in Hrun.
  destruct Hrun as (a & Ha & Hne & Hid & Hlen & -> & Htable).
  exists a. eexists. do 5 (split; [done|]).
  rewrite journal_entries_app, journal_posts_app, journal_entries_create,
    journal_posts_create. do 2 (split; [done|]).
  rewrite Htable. unfold saveInventoryResponseToDynamo.
  destruct (mapM id (inventory response)) as [ids|]; simpl.
  - split; [intros k Hk; by rewrite updateItem_lookup_ne|].
    rewrite updateItem_lookup_eq. eexists. split; [done|]. simpl.
    by destruct (table w !! requestId).
  - done.
Qed.

(** X11. The ids that [saveInventoryResponseToDynamo] writes are the ids
    that [fetchOdooIdsFromDynamo] reads back, a zero id of the journal
    entry as null, and the cost center is the one that the item had; for a
    request without an item the read gives no stock moves, no journal entry
    and no cost center. *)
Theorem X11_fetchOdooIdsFromDynamo_after_save requestId (stock_move_ids : list Z)
    (accountResultId : Z) (w : World) :
  let w1 := (saveInventoryResponseToDynamo requestId (Some <$> stock_move_ids)
               (Some accountResultId) w).1 in
  let w0 := {| table := delete requestId (table w); odoo_log := odoo_log w |} in
  fetchOdooIdsFromDynamo requestId w1
  = (w1, inr (stock_move_ids,
              (if bool_decide (accountResultId = 0) then None else Some accountResultId),
              nonzero (table w !! requestId ≫= Item.cost_center_odoo)))
  ∧ fetchOdooIdsFromDynamo requestId w0 = (w0, inr ([], None, None)).
Proof.
  split.
  - unfold saveInventoryResponseToDynamo.
    rewrite (mapM_fmap_Some id Some) by done.
    unfold fetchOdooIdsFromDynamo. run.
    rewrite updateItem_lookup_eq. simpl.
    by destruct (table w !! requestId).
  - unfold fetchOdooIdsFromDynamo. run. by rewrite lookup_delete_eq.
Qed.

(** The calls that a batch of stock moves sends. *)
Lemma promise_all_sent orderType state (l : list Inventory.t) (w : World) :
  odoo_log (promise_all (λ data, postOdooInventory remote data orderType state) l w).1
  = odoo_log w
    ++ (StockMoveCreate
          <$> ((λ data,
                  {| StockMove.product_id := Inventory.product_id data;
                     StockMove.location_id :=
                       if bool_decide (state = "REVERSED") then Some locationDestId
                       else Inventory.location_id data;
                     StockMove.location_dest_id :=
                       if bool_decide (state = "REVERSED") then Inventory.location_id data
                       else Some locationDestId;
                     StockMove.quantity := Inventory.quantity data;
                     StockMove.x_work_order_id := Inventory.work_order_id data;
                     StockMove.name :=
                       orderType +:+ " " +:+ Js.show_id (Inventory.work_order_id data)
                       +:+ " - "
                       +:+ (if bool_decide (state = "REVERSED")
                            then "Stock Move REVERSED" else "Stock move");
                     StockMove.state := "done" |}) <$> l)).
Proof.
  revert w. induction l as [|data l IH]; intros w; simpl.
  { by rewrite app_nil_r. }
  unfold postOdooInventory at 1. run.
  match goal with
  | |- context [odoo_stock_move_create remote ?args] =>
      destruct (odoo_stock_move_create remote args) as [e|response]
  end; simpl.
  - rewrite IH. simpl. by rewrite <- app_assoc.
  - match goal with
    | |- context [promise_all _ l ?w1] =>
        specialize (IH w1); destruct (promise_all _ l w1) as [w2 [e|responses]]
    end; simpl in *; rewrite IH; by rewrite <- app_assoc.
Qed.

Lemma sent_moves_promise_all orderType state (l : list Inventory.t) (w : World) :
  sent_moves (promise_all (λ data, postOdooInventory remote data orderType state) l) w
  = (λ data,
       {| StockMove.product_id := Inventory.product_id data;
          StockMove.location_id :=
            if bool_decide (state = "REVERSED") then Some locationDestId
            else Inventory.location_id data;
          StockMove.location_dest_id :=
            if bool_decide (state = "REVERSED") then Inventory.location_id data
            else Some locationDestId;
          StockMove.quantity := Inventory.quantity data;
          StockMove.x_work_order_id := Inventory.work_order_id data;
          StockMove.name :=
            orderType +:+ " " +:+ Js.show_id (Inventory.work_order_id data)
            +:+ " - "
            +:+ (if bool_decide (state = "REVERSED")
                 then "Stock Move REVERSED" else "Stock move");
          StockMove.state := "done" |}) <$> l.
Proof.
  unfold sent_moves. rewrite promise_all_sent, drop_app_length.
  apply stock_moves_create.
Qed.

(** X12. The reversal mirrors the posting.  When Odoo gives back the stock
    moves of a COMPLETED posting as rows, [processStockReversal] prepares
    one movement for every row, and the moves that the REVERSED posting of
    these movements sends carry, one for one, the same product and
    quantity from the destination of the posted move back to its
    source. *)
Theorem X12_reversal_mirrors_posting inventoryData orderType orderType' orderId
    requestId resultIds (w w' : World) :
  Forall has_ids inventoryData →
  let posted :=
    sent_moves (promise_all (λ data, postOdooInventory remote data orderType "COMPLETED")
                  inventoryData) w in
  odoo_stock_move_search remote orderId resultIds = inr (Some (row_of <$> posted)) →
  ∃ preparedStock,
    processStockReversal remote orderId requestId resultIds w' = (w', inr preparedStock)
    ∧ Forall2 mirrors posted
        (sent_moves (promise_all
                       (λ data, postOdooInventory remote data orderType' "REVERSED")
                       preparedStock) w').
Proof.
  intros Hids posted Hsearch. subst posted.
  rewrite sent_moves_promise_all in *.
  unfold processStockReversal, fetchStockMovementOdoo. run. rewrite Hsearch. simpl.
  eexists. split; [done|].
  rewrite sent_moves_promise_all. clear Hsearch.
  induction Hids as [|data l ((p & Hp & Hp0) & (loc & Hl & Hl0) & (q & Hq)) Hids IH];
    [constructor|].
  rewrite !fmap_cons. constructor; [|exact IH].
  unfold mirrors, row_of, nonzero. simpl. rewrite Hp, Hl, Hq. simpl.
  rewrite !bool_decide_eq_false_2 by done. done.
Qed.

(** X13. The journal entry of a reversal: when Odoo finds the entry of the
    posting, [processJournalReversal] returns an order with one material
    whose price is the total of that entry, and the REVERSED lines of this
    order are one debit of the cost center and one credit of the
    inventories account, both of that total. *)
Theorem X13_reversal_journal_lines orderId accountMoveId costCenterOdoo orderType
    amount_total rows (w : World) :
  odoo_account_move_search remote orderId accountMoveId = inr (amount_total :: rows) →
  ∃ preparedJournal,
    processJournalReversal remote orderId accountMoveId costCenterOdoo w
    = (w, inr preparedJournal)
    ∧ materialLines preparedJournal (WorkOrder.costCenter preparedJournal) orderType
        "REVERSED"
      = [ AccountMove.Debit costCenterOdoo
            (orderType +:+ " " +:+ Js.show_id orderId +:+ " REVERSED") amount_total;
          AccountMove.Credit (Some accountIdInventories)
            (orderType +:+ " " +:+ Js.show_id orderId +:+ " REVERSED") amount_total ].
Proof.
  intros Hsearch.
  unfold processJournalReversal, fetchAccountMovementOdoo. run. rewrite Hsearch. simpl.
  eexists. split; [done|]. reflexivity.
Qed.

(** X14. The reversal of a request for which Odoo finds no journal entry
    (a request that was never posted) fails with the error of the stock
    reversal or of the journal reversal; nothing is sent to Odoo and
    nothing is written. *)
Theorem X14_reversal_without_journal_entry costCenters odooStock item (w : World) :
  Classified.state item ≠ "COMPLETED" →
  (∀ orderId moveId, odoo_account_move_search remote orderId moveId = inr []) →
  ∃ error, handle_item remote costCenters odooStock item w = (w, inl error)
           ∧ (error = FailedStockReversal ∨ error = FailedJournalReversal).
Proof.
  intros Hstate Hsearch. unfold handle_item. cbv zeta.
  rewrite bool_decide_eq_false_2 by done.
  unfold fetchOdooIdsFromDynamo, processStockReversal, fetchStockMovementOdoo,
    processJournalReversal, fetchAccountMovementOdoo.
  run.
  destruct (odoo_stock_move_search remote _ _) as [e|stockResponse]; simpl.
  { eauto. }
  rewrite Hsearch. simpl. destruct w. eauto.
Qed.

Lemma last_line_label accountingData costCenterId orderType state :
  last (line_label <$> materialLines accountingData costCenterId orderType state)
  = last (line_name accountingData orderType state <$> WorkOrder.material accountingData).
Proof.
  unfold materialLines.
  induction (WorkOrder.material accountingData) as [|material materials IH]; [done|].
  rewrite !fmap_cons, concat_cons, fmap_app, !fmap_cons, fmap_nil.
  cbn [app line_label]. rewrite !last_cons, IH.
  by destruct (last (line_name accountingData orderType state <$> materials)).
Qed.

(** X27. The head of the journal entry that [postOdooAccounting] sends: it
    is an entry of the journal 16 for the order, and its reference is the
    name of its last line, the one the loop over the materials assigned
    last; an entry without lines has no reference. *)
Theorem X27_journal_entry_header accountingData costCenterId orderType state
    (w : World) :
  ∃ args,
    odoo_log (postOdooAccounting remote accountingData costCenterId orderType state w).1
    = odoo_log w ++ [AccountMoveCreate args]
    ∧ AccountMove.journal_id args = 16
    ∧ AccountMove.move_type args = "entry"
    ∧ AccountMove.x_work_order_id args = WorkOrder.workOrderId accountingData
    ∧ AccountMove.ref args = last (line_label <$> AccountMove.line_ids args).
Proof.
  rewrite postOdooAccounting_world. eexists. split; [done|]. simpl.
  by rewrite last_line_label.
Qed.

End Posting.

(** * Properties of the paginated reads *)

Section PaginationProperties.
Context {A : Type}.
Implicit Types (rows : list A) (batches : list (list A)).

(** The loop over a collection that is read by slices. *)
Lemma paginate_from_slices rows (page : Z → Z → Result (list A)) (limit : nat) :
  (0 < limit)%nat →
  (∀ offset : nat,
     page (Z.of_nat limit) (Z.of_nat offset) = inr (take limit (drop offset rows))) →
  ∀ (fuel offset : nat),
    (length (drop offset rows) + limit ≤ limit * fuel)%nat →
    Paged.fetchRequestPaginateOdoo_from fuel page (Z.of_nat limit) (take offset rows)
      (Z.of_nat offset)
    = Some (inr rows).
Proof.
  intros Hlimit Hpage fuel. induction fuel as [|fuel IH]; intros offset Hfuel; [lia|].
  simpl. rewrite Hpage. case_bool_decide as Hbatch.
  - rewrite take_take_drop, <- Nat2Z.inj_add. apply IH.
    rewrite length_take, !length_drop in *. clear IH. destruct fuel; lia.
  - rewrite length_take, length_drop in Hbatch.
    rewrite take_ge; [done|]. lia.
Qed.

(** The loop over non-empty batches that end with an empty page or with
    an error. *)
Lemma paginate_from_batches batches (page : Z → Z → Result (list A)) (limit : Z)
    (final : Result (list A)) :
  Forall (λ batch, batch ≠ []) batches →
  ∀ (fuel : nat) (allResults : list A) (offset : Z),
    (∀ (i : nat) batch, batches !! i = Some batch →
       page limit (offset + limit * Z.of_nat i) = inr batch) →
    page limit (offset + limit * Z.of_nat (length batches)) = final →
    (∀ batch, final = inr batch → batch = []) →
    (length batches < fuel)%nat →
    Paged.fetchRequestPaginateOdoo_from fuel page limit allResults offset
    = Some match final with
           | inl error => inl error
           | inr _ => inr (allResults ++ concat batches)
           end.
Proof.
  intros Hbatches. induction Hbatches as [|batch batches Hbatch _ IH];
    intros fuel allResults offset Hpages Hfinal Hempty Hfuel.
  - destruct fuel as [|fuel]; [simpl in Hfuel; lia|]. simpl in *.
    rewrite Z.mul_0_r, Z.add_0_r in Hfinal. rewrite Hfinal.
    destruct final as [e|batch]; [done|].
    rewrite (Hempty batch eq_refl). simpl. by rewrite app_nil_r.
  - destruct fuel as [|fuel]; [simpl in Hfuel; lia|]. simpl in *.
    pose proof (Hpages 0%nat batch eq_refl) as Hfirst.
    rewrite Z.mul_0_r, Z.add_0_r in Hfirst. rewrite Hfirst.
    rewrite bool_decide_eq_true_2 by (destruct batch; [done|simpl; lia]).
    rewrite (IH fuel (allResults ++ batch) (offset + limit)).
    + by rewrite <- app_assoc.
    + intros i batch' Hi. rewrite <- (Hpages (S i) batch' Hi). f_equal. lia.
    + rewrite <- Hfinal. f_equal. lia.
    + done.
    + lia.
Qed.

(** X15. The paginated read of the request poller returns all the rows
    that Odoo holds, each once and in order, when Odoo answers every page
    of 100 with its slice of the rows; the loop ends, after one request
    more than there are non-empty pages. *)
Theorem X15_fetchRequestPaginateOdoo_complete rows fetchRequestOdoo (fuel : nat) :
  serves rows fetchRequestOdoo →
  (length rows + 100 ≤ 100 * fuel)%nat →
  Paged.fetchRequestPaginateOdoo fuel fetchRequestOdoo = Some (inr rows).
Proof.
  intros Hserves Hfuel. unfold Paged.fetchRequestPaginateOdoo.
  apply (paginate_from_slices rows (Paged.fetchRequestOdooPage fetchRequestOdoo)
           100 ltac:(lia)) with (offset := 0%nat).
  - intros offset. unfold Paged.fetchRequestOdooPage.
    by rewrite (Hserves 100%nat offset).
  - by rewrite drop_0.
Qed.

(** X16. In the request poller a page that fails makes the whole paginated
    read fail: the rows of the pages before it are not returned. *)
Theorem X16_fetchRequestPaginateOdoo_fails batches fetchRequestOdoo (fuel : nat)
    (error : Error) :
  answers batches 100 fetchRequestOdoo →
  fetchRequestOdoo 100 (100 * Z.of_nat (length batches)) = inl error →
  (length batches < fuel)%nat →
  Paged.fetchRequestPaginateOdoo fuel fetchRequestOdoo
  = Some (inl (RemoteFailure "fetchRequestOdooPage")).
Proof.
  intros [Hbatches Hpages] Hfinal Hfuel. unfold Paged.fetchRequestPaginateOdoo.
  rewrite (paginate_from_batches batches _ 100
             (inl (RemoteFailure "fetchRequestOdooPage")) Hbatches); try done.
  - intros i batch Hi. unfold Paged.fetchRequestOdooPage.
    by rewrite Z.add_0_l, (Hpages i batch Hi).
  - unfold Paged.fetchRequestOdooPage. by rewrite Z.add_0_l, Hfinal.
Qed.

(** X17. In the stock synchroniser a page that fails ends the paginated
    read without an error: the rows of the pages before it are returned as
    if they were all the rows. *)
Theorem X17_sync_fetchRequestPaginateOdoo_truncates batches post (fuel : nat)
    (error : Error) :
  answers batches 500 post →
  post 500 (500 * Z.of_nat (length batches)) = inl error →
  (length batches < fuel)%nat →
  Sync.fetchRequestPaginateOdoo fuel post = Some (inr (concat batches)).
Proof.
  intros [Hbatches Hpages] Hfinal Hfuel. unfold Sync.fetchRequestPaginateOdoo.
  rewrite (paginate_from_batches batches _ 500 (inr []) Hbatches); try done.
  - intros i batch Hi. unfold Sync.fetchRequestOdooPage, Sync.fetchRequestOdoo.
    by rewrite Z.add_0_l, (Hpages i batch Hi).
  - unfold Sync.fetchRequestOdooPage, Sync.fetchRequestOdoo.
    by rewrite Z.add_0_l, Hfinal.
  - by intros batch [= <-].
Qed.

(** X30. The paginated read stops on an empty page or on an error only:
    against a server that answers every request with rows (one that
    ignores the offset, say) the loop is still running after any number of
    iterations. *)
Theorem X30_fetchRequestPaginateOdoo_runs_on
    (fetchRequestOdoo : Z → Z → Result (option (list A))) (fuel : nat) :
  (∀ limit offset, ∃ batch,
     fetchRequestOdoo limit offset = inr (Some batch) ∧ batch ≠ []) →
  Paged.fetchRequestPaginateOdoo fuel fetchRequestOdoo = None.
Proof.
  intros Hrows. unfold Paged.fetchRequestPaginateOdoo.
  generalize (@nil A) at 1. generalize 0.
  induction fuel as [|fuel IH]; intros offset allResults; [done|]. simpl.
  unfold Paged.fetchRequestOdooPage at 1.
  destruct (Hrows 100 offset) as (batch & -> & Hbatch). simpl.
  rewrite bool_decide_eq_true_2 by (destruct batch; [done|simpl; lia]).
  apply IH.
Qed.

(** The loop over the pages of Infraspeak that have a next page, up to a
    page without one or an error. *)
Lemma getInfraspeakRequests_from_pages (pages : list (Page.t A))
    (fetchRequestInfraspeak : Z → Result (Page.t A)) (final : Result (Page.t A)) :
  Forall (λ page, Page.next page = true) pages →
  ∀ (fuel : nat) (pageNumber : Z) (allRequests : list A),
    (∀ (i : nat) page, pages !! i = Some page →
       fetchRequestInfraspeak (pageNumber + Z.of_nat i) = inr page) →
    fetchRequestInfraspeak (pageNumber + Z.of_nat (length pages)) = final →
    (∀ page, final = inr page → Page.next page = false) →
    (length pages < fuel)%nat →
    Paged.getInfraspeakRequests_from fuel fetchRequestInfraspeak pageNumber allRequests
    = Some match final with
           | inl error => inl error
           | inr last =>
               inr (allRequests
                    ++ concat ((λ page, default [] (Page.data page)) <$> pages)
                    ++ default [] (Page.data last))
           end.
Proof.
  intros Hpages. induction Hpages as [|page pages Hnext _ IH];
    intros fuel pageNumber allRequests Hfetch Hfinal Hlast Hfuel.
  - destruct fuel as [|fuel]; [simpl in Hfuel; lia|]. simpl in *.
    rewrite Z.add_0_r in Hfinal. rewrite Hfinal.
    destruct final as [e|last]; [done|]. by rewrite (Hlast last eq_refl).
  - destruct fuel as [|fuel]; [simpl in Hfuel; lia|]. simpl in *.
    pose proof (Hfetch 0%nat page eq_refl) as Hfirst.
    rewrite Z.add_0_r in Hfirst. rewrite Hfirst, Hnext.
    rewrite (IH fuel (pageNumber + 1)).
    + destruct final; [done|]. by rewrite <- !app_assoc.
    + intros i page' Hi. rewrite <- (Hfetch (S i) page' Hi). f_equal. lia.
    + rewrite <- Hfinal. f_equal. lia.
    + done.
    + lia.
Qed.

(** X18. [getInfraspeakRequests] reads the pages from 1 on while they have
    a next page: it returns the requests of these pages and of the first
    page without a next page, in order (a page whose data is not an array
    gives none), and reads no page after that one; a page that fails makes
    the whole read fail. *)
Theorem X18_getInfraspeakRequests_pages (pages : list (Page.t A))
    (fetchRequestInfraspeak : Z → Result (Page.t A)) (final : Result (Page.t A))
    (fuel : nat) :
  Forall (λ page, Page.next page = true) pages →
  (∀ (i : nat) page, pages !! i = Some page →
     fetchRequestInfraspeak (1 + Z.of_nat i) = inr page) →
  fetchRequestInfraspeak (1 + Z.of_nat (length pages)) = final →
  (∀ page, final = inr page → Page.next page = false) →
  (length pages < fuel)%nat →
  Paged.getInfraspeakRequests fuel fetchRequestInfraspeak
  = Some match final with
         | inl error => inl (RemoteFailure "getInfraspeakRequests")
         | inr last =>
             inr (concat ((λ page, default [] (Page.data page)) <$> pages)
                  ++ default [] (Page.data last))
         end.
Proof.
  intros Hpages Hfetch Hfinal Hlast Hfuel. unfold Paged.getInfraspeakRequests.
  rewrite (getInfraspeakRequests_from_pages pages _ final Hpages); try done.
  by destruct final.
Qed.

End PaginationProperties.

(** * Further properties of the stock synchroniser *)

Lemma length_omap_le {A B} (f : A → option B) (l : list A) :
  (length (omap f l) ≤ length l)%nat.
Proof.
  induction l as [|x l IH]; [done|]. csimpl. destruct (f x); simpl; lia.
Qed.

Lemma traverse_app {A B} (f : A → Result B) (l1 l2 : list A) ys1 ys2 :
  traverse f l1 = inr ys1 → traverse f l2 = inr ys2 →
  traverse f (l1 ++ l2) = inr (ys1 ++ ys2).
Proof.
  revert ys1. induction l1 as [|x l1 IH]; intros ys1; simpl.
  - by intros [= <-].
  - destruct (f x) as [e|y]; simpl; [done|].
    destruct (traverse f l1) as [e|ys]; simpl; [done|].
    intros [= <-] H2. by rewrite (IH ys eq_refl H2).
Qed.

(** [parseInt] reads back the decimal numeral of an integer. *)
Section Numerals.

Lemma digit_pretty_N_char (d : N) :
  (d < 10)%N → Js.digit (pretty_N_char d) = Some (Z.of_N d).
Proof.
  intros Hd.
  destruct d as [|p]; [done|].
  do 4 (destruct p as [p|p|]; try lia; try done).
Qed.

Lemma digits_pretty_N_go (x : N) : ∀ acc s,
  (0 < x)%N →
  ∃ k : nat, Js.digits acc (pretty_N_go x s)
             = Js.digits (Some (10 ^ Z.of_nat k * default 0 acc + Z.of_N x)) s.
Proof.
  induction (N.lt_wf_0 x) as [x _ IH]. intros acc s Hx.
  rewrite pretty_N_go_step by done.
  assert (Hmod : (x `mod` 10 < 10)%N) by (apply N.mod_lt; lia).
  assert (Hsplit : x = (10 * (x `div` 10) + x `mod` 10)%N) by (apply N.div_mod; lia).
  destruct (decide (x `div` 10 = 0)%N) as [Hdiv|Hdiv].
  - rewrite Hdiv, pretty_N_go_0. exists 1%nat. simpl.
    rewrite digit_pretty_N_char by done. do 2 f_equal. lia.
  - destruct (IH (x `div` 10)%N) with (acc := acc)
      (s := String.String (pretty_N_char (x `mod` 10)) s) as [k Hk].
    + apply N.div_lt; lia.
    + lia.
    + exists (S k). rewrite Hk. simpl. rewrite digit_pretty_N_char by done.
      do 2 f_equal. rewrite Nat2Z.inj_succ, Z.pow_succ_r by lia.
      rewrite <- Z.mul_assoc. generalize (10 ^ Z.of_nat k * default 0 acc).
      intros t. apply (f_equal Z.of_N) in Hsplit.
      rewrite N2Z.inj_add, N2Z.inj_mul in Hsplit. rewrite Hsplit.
      change (Z.of_N 10) with 10. ring.
Qed.

Lemma pretty_N_go_head (x : N) : ∀ s,
  (0 < x)%N →
  ∃ d rest, (d < 10)%N ∧ pretty_N_go x s = String.String (pretty_N_char d) rest.
Proof.
  induction (N.lt_wf_0 x) as [x _ IH]. intros s Hx.
  rewrite pretty_N_go_step by done.
  assert (Hmod : (x `mod` 10 < 10)%N) by (apply N.mod_lt; lia).
  destruct (decide (x `div` 10 = 0)%N) as [Hdiv|Hdiv].
  - rewrite Hdiv, pretty_N_go_0. by eexists _, _.
  - apply IH; [apply N.div_lt; lia|by apply N.neq_0_lt_0].
Qed.

Lemma digits_pretty_pos (p : positive) :
  Js.digits None (pretty (Npos p)) = Some (Zpos p).
Proof.
  unfold pretty, pretty_N. rewrite decide_False by done.
  destruct (digits_pretty_N_go (Npos p) None "") as [k Hk]; [lia|].
  rewrite Hk. simpl. f_equal. lia.
Qed.

Lemma parseInt_pretty (n : Z) : Js.parseInt (pretty n) = Some n.
Proof.
  destruct n as [|p|p].
  - done.
  - change (pretty (Z.pos p)) with (pretty (Npos p)).
    rewrite <- digits_pretty_pos. unfold Js.parseInt, pretty, pretty_N.
    rewrite decide_False by done.
    destruct (pretty_N_go_head (Npos p) "") as (d & rest & Hd & ->); [lia|].
    destruct d as [|q]; [done|].
    do 4 (destruct q as [q|q|]; try lia; try done).
  - change (pretty (Z.neg p)) with (String.String "-" (pretty (Npos p))).
    change (Js.parseInt (String.String "-" (pretty (Npos p))))
      with (Z.opp <$> Js.digits None (pretty (Npos p))).
    by rewrite digits_pretty_pos.
Qed.

End Numerals.

Section SyncProperties.

Lemma productMap_lookup productsOdoo (k : Z) product :
  Sync.productMap productsOdoo !! k = Some product →
  product ∈ productsOdoo ∧ k ∈ Sync.Product.stock_quant_ids product.
Proof.
  unfold Sync.productMap.
  apply (fold_left_invariant _
           (λ acc : gmap Z Sync.Product.t, acc !! k = Some product →
              product ∈ productsOdoo ∧ k ∈ Sync.Product.stock_quant_ids product));
    [|done].
  intros acc product' Hin Hacc.
  apply (fold_left_invariant _
           (λ acc : gmap Z Sync.Product.t, acc !! k = Some product →
              product ∈ productsOdoo ∧ k ∈ Sync.Product.stock_quant_ids product));
    [|done].
  intros acc' stock_id Hid Hacc'.
  destruct (decide (stock_id = k)) as [->|Hne].
  - rewrite lookup_insert_eq. by intros [= <-].
  - by rewrite lookup_insert_ne.
Qed.

Lemma materialMap_lookup materialInfraspeak (code : option string) (materialId : string) :
  Sync.materialMap materialInfraspeak !! code = Some materialId →
  ∃ material, material ∈ materialInfraspeak
              ∧ Sync.MaterialRef.code material = code
              ∧ Sync.MaterialRef.id material = materialId.
Proof.
  unfold Sync.materialMap.
  apply (fold_left_invariant _
           (λ acc : gmap (option string) string, acc !! code = Some materialId →
              ∃ material, material ∈ materialInfraspeak
                          ∧ Sync.MaterialRef.code material = code
                          ∧ Sync.MaterialRef.id material = materialId));
    [|done].
  intros acc material Hin Hacc.
  destruct (decide (Sync.MaterialRef.code material = code)) as [<-|Hne].
  - rewrite lookup_insert_eq. intros [= <-]. eauto.
  - by rewrite lookup_insert_ne.
Qed.

(** X19. [processOdooData] invents no row: every row that it returns is
    backed by a stock record of Odoo, by a product that lists this record,
    by a material of Infraspeak whose code is the bracketed code of the
    record and by a warehouse of Infraspeak, and takes its quantity, its
    costs and its identifiers from them; there are no more rows than stock
    records. *)
Theorem X19_processOdooData_rows stockOdoo productsOdoo materialInfraspeak
    warehouseInfraspeak rows :
  Sync.processOdooData stockOdoo productsOdoo materialInfraspeak warehouseInfraspeak
  = inr rows →
  (length rows ≤ length stockOdoo)%nat
  ∧ Forall (λ row,
      ∃ stock product material warehouse,
        stock ∈ stockOdoo ∧ product ∈ productsOdoo
        ∧ material ∈ materialInfraspeak ∧ warehouse ∈ warehouseInfraspeak
        ∧ Sync.Stock.id stock ∈ Sync.Product.stock_quant_ids product
        ∧ Js.match_bracket (Sync.Stock.product_id stock).2
          = Sync.MaterialRef.code material
        ∧ Sync.Row.MaterialId row = Js.parseInt (Sync.MaterialRef.id material)
        ∧ Sync.Row.WarehouseId row = Sync.Warehouse.warehouse_id warehouse
        ∧ Sync.Row.AvailableQty row = Sync.Stock.quantity stock
        ∧ Sync.Row.AverageCost row = Sync.Product.avg_cost product
        ∧ Sync.Row.StandardCost row = Sync.Product.standard_price product) rows.
Proof.
  unfold Sync.processOdooData. case_bool_decide; [done|].
  destruct (traverse _ stockOdoo) as [e|mapped] eqn:Htraverse; simpl; [done|].
  intros [= <-]. apply traverse_inr in Htraverse. split.
  { rewrite (Forall2_length _ _ _ Htraverse). apply length_omap_le. }
  apply Forall_forall. intros row Hrow.
  apply list_elem_of_omap in Hrow as (mapped_row & Hin & ->).
  apply list_elem_of_lookup in Hin as [i Hi].
  destruct (Forall2_lookup_r _ _ _ _ _ Htraverse Hi) as (stock & Hstock & Hprocess).
  apply list_elem_of_lookup_2 in Hstock.
  revert Hprocess. unfold Sync.process_stock.
  destruct (Sync.productMap productsOdoo !! Sync.Stock.id stock) as [product|] eqn:Hp;
    [|done].
  destruct (Js.match_bracket _) as [code|] eqn:Hcode; [|done].
  destruct (Sync.materialMap materialInfraspeak !! Some code) as [materialId|] eqn:Hm;
    [|done].
  case_bool_decide; [done|].
  destruct (List.find _ warehouseInfraspeak) as [warehouse|] eqn:Hw; [|done].
  intros [= <-].
  apply productMap_lookup in Hp as [Hp Hid].
  apply materialMap_lookup in Hm as (material & Hmaterial & Hmcode & <-).
  apply find_some in Hw as [Hw _]. apply list_elem_of_In in Hw.
  exists stock, product, material, warehouse. by rewrite Hmcode.
Qed.

(** The movements that the callback sends do not depend on the answers of
    Infraspeak. *)
Lemma post_stock_sent {R R'} (fetch : Sync.Movement.t → Result R)
    (fetch' : Sync.Movement.t → Result R') warehouseQtyInfraspeak row :
  (Sync.post_stock fetch warehouseQtyInfraspeak row).1
  = (Sync.post_stock fetch' warehouseQtyInfraspeak row).1.
Proof.
  unfold Sync.post_stock.
  destruct (Sync.Row.MaterialId row) as [materialId|]; [|done].
  case_bool_decide; [|done].
  destruct (Sync.getMaterialQuantitiesFromInfraspeak _ _ _) as [[field|]|]; try done.
  repeat case_bool_decide; done.
Qed.

(** X20. The movements that [postStockToInfraspeak] sends do not depend on
    what Infraspeak answers to them: a movement that is refused neither
    stops nor changes the movements of the other rows; and at most one
    movement is sent for a row. *)
Theorem X20_postStockToInfraspeak_sent {R R'} (fetch : Sync.Movement.t → Result R)
    (fetch' : Sync.Movement.t → Result R') stockToPost warehouseQtyInfraspeak :
  (Sync.postStockToInfraspeak fetch stockToPost warehouseQtyInfraspeak).1
  = (Sync.postStockToInfraspeak fetch' stockToPost warehouseQtyInfraspeak).1
  ∧ (length (Sync.postStockToInfraspeak fetch stockToPost warehouseQtyInfraspeak).1
     ≤ length stockToPost)%nat.
Proof.
  unfold Sync.postStockToInfraspeak. simpl. split.
  - f_equal. rewrite <- !list_fmap_compose. apply list_fmap_ext.
    intros i row _. apply post_stock_sent.
  - induction stockToPost as [|row rows IH]; [done|].
    rewrite !fmap_cons. simpl. rewrite length_app.
    assert (length (Sync.post_stock fetch warehouseQtyInfraspeak row).1 ≤ 1)%nat;
      [|simpl in *; lia].
    unfold Sync.post_stock.
    destruct (Sync.Row.MaterialId row) as [materialId|]; [|simpl; lia].
    case_bool_decide; [|simpl; lia].
    destruct (Sync.getMaterialQuantitiesFromInfraspeak _ _ _) as [[field|]|];
      repeat case_bool_decide; simpl; lia.
Qed.

(** [getMaterialQuantitiesFromInfraspeak] parses what the first record
    reports. *)
Lemma getMaterialQuantities_reported warehouseQtyInfraspeak materialId warehouseId :
  Sync.getMaterialQuantitiesFromInfraspeak warehouseQtyInfraspeak materialId warehouseId
  = Sync.parseInt <$> reported warehouseQtyInfraspeak materialId warehouseId.
Proof.
  unfold reported.
  induction warehouseQtyInfraspeak as [|qty rest IH]; simpl; [done|].
  by case_bool_decide.
Qed.

Lemma parseInt_whole v n : whole v n → Sync.parseInt v = Some n.
Proof. intros [_ [->| ->]]; simpl; [done|apply parseInt_pretty]. Qed.

(** X21. The movements sent for a mapped row close the drift when the
    quantity that Infraspeak reports is a whole number (as a number or as
    its decimal numeral; zero when Infraspeak has no record): applied to
    it, an [ADD] adding and an [ABATE] subtracting its quantity, they give
    the quantity of Odoo.  In general the drift is closed against what
    [parseInt] makes of the reported quantity, which is cut at the first
    character that is not a digit: for a record with the quantity 7.9 and
    8 in Odoo one unit is added, and with 7 in Odoo nothing is sent.  The
    movements are of the material and of the warehouse of the row. *)
Theorem X21_post_stock_closes_the_drift {R} (fetch : Sync.Movement.t → Result R)
    warehouseQtyInfraspeak (row : Sync.Row.t) (materialId : Z) :
  Sync.Row.MaterialId row = Some materialId → materialId ≠ 0 →
  let sent := (Sync.post_stock fetch warehouseQtyInfraspeak row).1 in
  let field := reported warehouseQtyInfraspeak materialId (Sync.Row.WarehouseId row) in
  (field = None → fold_left apply_movement sent 0 = Sync.Row.AvailableQty row)
  ∧ (∀ v quantity, field = Some v → whole v quantity →
       fold_left apply_movement sent quantity = Sync.Row.AvailableQty row)
  ∧ (∀ v truncated, field = Some v → Sync.parseInt v = Some truncated →
       fold_left apply_movement sent truncated = Sync.Row.AvailableQty row)
  ∧ Sync.parseInt (Some (Js.Str "7.9")) = Some 7
  ∧ (Sync.post_stock fetch [Cases.decimal] (Inputs.row 8)).1
    = [Sync.stockMovementPayloadAdd 5 1 2 (Some 3)]
  ∧ (Sync.post_stock fetch [Cases.decimal] (Inputs.row 7)).1 = []
  ∧ Forall (λ movement,
              Sync.Movement.material_id movement = materialId
              ∧ Sync.Movement.warehouse_id movement = Sync.Row.WarehouseId row) sent.
Proof.
  intros Hid Hne sent field. subst sent field.
  rewrite (post_stock_movements fetch warehouseQtyInfraspeak row materialId Hid Hne).
  cbv zeta. rewrite getMaterialQuantities_reported.
  assert (Hparsed : ∀ v truncated,
    reported warehouseQtyInfraspeak materialId (Sync.Row.WarehouseId row) = Some v →
    Sync.parseInt v = Some truncated →
    fold_left apply_movement
      match Sync.parseInt <$> reported warehouseQtyInfraspeak materialId
                                (Sync.Row.WarehouseId row) with
      | Some (Some field) =>
          if bool_decide (field = 0)
          then [Sync.stockMovementPayloadAdd materialId (Sync.Row.AvailableQty row)
                  (Sync.Row.WarehouseId row) (Sync.Row.AverageCost row)]
          else if bool_decide (Sync.Row.AvailableQty row > field)
          then [Sync.stockMovementPayloadAdd materialId
                  (Sync.Row.AvailableQty row - field)
                  (Sync.Row.WarehouseId row) (Sync.Row.AverageCost row)]
          else if bool_decide (Sync.Row.AvailableQty row < field)
          then [Sync.stockMovementPayloadConsume materialId
                  (field - Sync.Row.AvailableQty row)
                  (Sync.Row.WarehouseId row) (Sync.Row.AverageCost row)]
          else []
      | Some None => []
      | None =>
          [Sync.stockMovementPayloadAdd materialId (Sync.Row.AvailableQty row)
             (Sync.Row.WarehouseId row) (Sync.Row.AverageCost row)]
      end truncated = Sync.Row.AvailableQty row).
  { intros v truncated -> Hv. simpl. rewrite Hv.
    repeat case_bool_decide; simpl; unfold apply_movement; simpl; lia. }
  split; [|split; [|split; [|split; [|split; [|split]]]]].
  - intros ->. simpl. unfold apply_movement. simpl. lia.
  - intros v quantity Hfield Hwhole. apply (Hparsed v); [done|].
    by apply parseInt_whole.
  - exact Hparsed.
  - reflexivity.
  - reflexivity.
  - reflexivity.
  - destruct (reported _ _ _) as [v|]; simpl.
    + destruct (Sync.parseInt v) as [quantity|]; [|constructor].
      repeat case_bool_decide; repeat constructor.
    + repeat constructor.
Qed.

(** X26. The quantity that [getMaterialQuantitiesFromInfraspeak] gives
    is that of the first record of the material and the warehouse, parsed
    as an integer; the records after it are not read; it is null exactly
    when no record is of the material and the warehouse. *)
Theorem X26_getMaterialQuantities_first_record warehouseQuantitiesInfraspeak
    (materialId warehouseId : Z) :
  let matches record :=
    Sync.MaterialQuantity.material_id record = Some materialId
    ∧ Sync.MaterialQuantity.warehouse_id record = Some warehouseId in
  match Sync.getMaterialQuantitiesFromInfraspeak warehouseQuantitiesInfraspeak
          materialId warehouseId with
  | None => Forall (λ record, ¬ matches record) warehouseQuantitiesInfraspeak
  | Some quantity =>
      ∃ pre record post,
        warehouseQuantitiesInfraspeak = pre ++ record :: post
        ∧ Forall (λ record, ¬ matches record) pre
        ∧ matches record
        ∧ quantity = Sync.parseInt (Sync.MaterialQuantity.stock_quantity record)
  end.
Proof.
  intros matches.
  induction warehouseQuantitiesInfraspeak as [|qty rest IH]; simpl; [constructor|].
  case_bool_decide as Hqty.
  - exists [], qty, rest. split; [done|]. split; [constructor|].
    split; [exact Hqty|done].
  - destruct (Sync.getMaterialQuantitiesFromInfraspeak rest materialId warehouseId)
      as [quantity|].
    + destruct IH as (pre & record & post & -> & Hpre & Hrecord & ->).
      exists (qty :: pre), record, post. split; [done|]. split; [|done].
      by constructor.
    + by constructor.
Qed.

Context (fetchRequestInfraspeak : Sync.Movement.t → Result Sync.Created.t).

Lemma post_stock_refused warehouseQtyInfraspeak row :
  (∀ payload, ∃ error, fetchRequestInfraspeak payload = inl error) →
  readable warehouseQtyInfraspeak row →
  (Sync.post_stock fetchRequestInfraspeak warehouseQtyInfraspeak row).2 = Sync.Null.
Proof.
  intros Hrefused Hreadable. unfold Sync.post_stock, Sync.post.
  destruct (Sync.Row.MaterialId row) as [materialId|] eqn:Hid; [|done].
  specialize (Hreadable materialId Hid).
  case_bool_decide; [|done].
  destruct (Sync.getMaterialQuantitiesFromInfraspeak _ _ _) as [[field|]|]; [|done|];
    repeat case_bool_decide; simpl; try done;
    match goal with
    | |- context [fetchRequestInfraspeak ?payload] =>
        by destruct (Hrefused payload) as [error ->]
    end.
Qed.

(** X22. When Infraspeak refuses every movement, the handler of the
    synchroniser still answers 200 "No stock quantity differences. Nothing
    to post", whatever movements it has sent: the refused movements are
    dropped from the results and the refusals are not reported. *)
Theorem X22_sync_handler_all_refused stockOdoo productsOdoo materialInfraspeak
    warehouseInfraspeak warehouseQtyInfraspeak rows :
  Sync.processOdooData stockOdoo productsOdoo materialInfraspeak warehouseInfraspeak
  = inr rows →
  (∀ payload, ∃ error, fetchRequestInfraspeak payload = inl error) →
  Forall (readable warehouseQtyInfraspeak) rows →
  Sync.handler fetchRequestInfraspeak (inr stockOdoo) (inr productsOdoo)
    (inr materialInfraspeak) (inr warehouseInfraspeak) (inr warehouseQtyInfraspeak)
  = ((Sync.postStockToInfraspeak fetchRequestInfraspeak rows
        warehouseQtyInfraspeak).1,
     createResponse (Message "No stock quantity differences. Nothing to post") 200).
Proof.
  intros Hrows Hrefused Hreadable. unfold Sync.handler. simpl. rewrite Hrows. simpl.
  f_equal.
  assert (Hnone : filter (λ result : Sync.posted Sync.Created.t,
                            Sync.not_null result = true)
                    ((Sync.post_stock fetchRequestInfraspeak warehouseQtyInfraspeak
                        <$> rows).*2) = []).
  { clear Hrows. induction Hreadable as [|row rows' Hrow _ IH]; [done|].
    rewrite !fmap_cons, filter_cons, (post_stock_refused _ row Hrefused Hrow).
    simpl. exact IH. }
  by rewrite Hnone.
Qed.

(** X23. One mapped row whose quantity in Infraspeak is not a number makes
    the handler of the synchroniser answer 500, after the movements of the
    other rows have been sent. *)
Theorem X23_sync_handler_unreadable_quantity stockOdoo productsOdoo materialInfraspeak
    warehouseInfraspeak warehouseQtyInfraspeak rows row materialId :
  Sync.processOdooData stockOdoo productsOdoo materialInfraspeak warehouseInfraspeak
  = inr rows →
  row ∈ rows → Sync.Row.MaterialId row = Some materialId → materialId ≠ 0 →
  Sync.getMaterialQuantitiesFromInfraspeak warehouseQtyInfraspeak materialId
    (Sync.Row.WarehouseId row) = Some None →
  Sync.handler fetchRequestInfraspeak (inr stockOdoo) (inr productsOdoo)
    (inr materialInfraspeak) (inr warehouseInfraspeak) (inr warehouseQtyInfraspeak)
  = ((Sync.postStockToInfraspeak fetchRequestInfraspeak rows
        warehouseQtyInfraspeak).1,
     createResponse (Message "Error handling webhook event") 500).
Proof.
  intros Hrows Hin Hid Hne Hnan. unfold Sync.handler. simpl. rewrite Hrows. simpl.
  f_equal.
  destruct (traverse_inl Sync.stock_movement_id
              (filter (λ result : Sync.posted Sync.Created.t,
                         Sync.not_null result = true)
                 ((Sync.post_stock fetchRequestInfraspeak warehouseQtyInfraspeak
                     <$> rows).*2))
              Sync.Undefined (TypeError "data")) as [error ->]; [|done..].
  apply list_elem_of_filter. split; [done|].
  apply list_elem_of_fmap. eexists. split; [|apply list_elem_of_fmap; eauto].
  unfold Sync.post_stock. by rewrite Hid, bool_decide_eq_true_2, Hnan.
Qed.

(** X24. When one of the five reads fails, or when the stock records, the
    products, the materials or the warehouses are empty, the handler of
    the synchroniser answers 500 and sends no movement. *)
Theorem X24_sync_handler_read_failure stockOdoo productsOdoo materialInfraspeak
    warehouseInfraspeak warehouseQtyInfraspeak :
  (∃ error, stockOdoo = inl error ∨ productsOdoo = inl error
            ∨ materialInfraspeak = inl error ∨ warehouseInfraspeak = inl error
            ∨ warehouseQtyInfraspeak = inl error)
  ∨ stockOdoo = inr [] ∨ productsOdoo = inr [] ∨ materialInfraspeak = inr []
  ∨ warehouseInfraspeak = inr [] →
  Sync.handler fetchRequestInfraspeak stockOdoo productsOdoo materialInfraspeak
    warehouseInfraspeak warehouseQtyInfraspeak
  = ([], createResponse (Message "Error handling webhook event") 500).
Proof.
  intros Hfailure. unfold Sync.handler.
  destruct stockOdoo as [e1|stock], productsOdoo as [e2|products],
    materialInfraspeak as [e3|materials], warehouseInfraspeak as [e4|warehouses],
    warehouseQtyInfraspeak as [e5|quantities]; simpl; try done.
  unfold Sync.processOdooData. rewrite bool_decide_eq_true_2; [done|].
  destruct Hfailure as [(error & [?|[?|[?|[?|?]]]])|[?|[?|[?|?]]]];
    simplify_eq; auto.
Qed.

Lemma post_stock_accepted warehouseQtyInfraspeak row :
  (∀ payload, ∃ response, fetchRequestInfraspeak payload = inr response) →
  readable warehouseQtyInfraspeak row →
  let posted := Sync.post_stock fetchRequestInfraspeak warehouseQtyInfraspeak row in
  traverse Sync.stock_movement_id
    (filter (λ result, Sync.not_null result = true) [posted.2])
  = inr (movement_id fetchRequestInfraspeak <$> posted.1).
Proof.
  intros Haccepted Hreadable. unfold Sync.post_stock, Sync.post, movement_id.
  destruct (Sync.Row.MaterialId row) as [materialId|] eqn:Hid; [|done].
  specialize (Hreadable materialId Hid).
  case_bool_decide; [|done].
  destruct (Sync.getMaterialQuantitiesFromInfraspeak _ _ _) as [[field|]|]; [|done|];
    repeat case_bool_decide; cbv zeta; try done;
    match goal with
    | |- context [fetchRequestInfraspeak ?payload] =>
        destruct (Haccepted payload) as [response Hresponse];
        rewrite Hresponse; simpl; by rewrite Hresponse
    end.
Qed.

(** X28. When Infraspeak accepts every movement, the handler of the
    synchroniser answers 200: with "No stock quantity differences. Nothing
    to post" when no movement was due, and otherwise with the ids that
    Infraspeak gave, one for every movement sent and in the order of the
    rows. *)
Theorem X28_sync_handler_all_accepted stockOdoo productsOdoo materialInfraspeak
    warehouseInfraspeak warehouseQtyInfraspeak rows :
  Sync.processOdooData stockOdoo productsOdoo materialInfraspeak warehouseInfraspeak
  = inr rows →
  (∀ payload, ∃ response, fetchRequestInfraspeak payload = inr response) →
  Forall (readable warehouseQtyInfraspeak) rows →
  let sent := (Sync.postStockToInfraspeak fetchRequestInfraspeak rows
                 warehouseQtyInfraspeak).1 in
  Sync.handler fetchRequestInfraspeak (inr stockOdoo) (inr productsOdoo)
    (inr materialInfraspeak) (inr warehouseInfraspeak) (inr warehouseQtyInfraspeak)
  = (sent,
     if bool_decide (sent = []) then
       createResponse (Message "No stock quantity differences. Nothing to post") 200
     else
       createResponse
         (Message ("Success! Stock-Movement Id(s): "
                   +:+ Sync.show_ids (movement_id fetchRequestInfraspeak <$> sent)))
         200).
Proof.
  intros Hrows Haccepted Hreadable sent. subst sent.
  unfold Sync.handler. simpl. rewrite Hrows. simpl. f_equal.
  assert (Hids : traverse Sync.stock_movement_id
            (filter (λ result : Sync.posted Sync.Created.t,
                       Sync.not_null result = true)
               ((Sync.post_stock fetchRequestInfraspeak warehouseQtyInfraspeak
                   <$> rows).*2))
          = inr (movement_id fetchRequestInfraspeak
                   <$> concat ((Sync.post_stock fetchRequestInfraspeak
                                  warehouseQtyInfraspeak <$> rows).*1))).
  { clear Hrows. induction Hreadable as [|row rows' Hrow _ IH]; [done|].
    rewrite !fmap_cons, concat_cons, fmap_app.
    change (?x :: ?l) with ([x] ++ l) at 1. rewrite filter_app.
    apply traverse_app; [|exact IH].
    by apply post_stock_accepted. }
  rewrite Hids.
  destruct (concat _) as [|movement sent] eqn:Hsent; [done|].
  by rewrite !(bool_decide_eq_false_2 (_ = [])) by done.
Qed.

End SyncProperties.

(** * Further properties of the bracket-code extraction *)

Section Bracket.

Lemma up_to_close_code (code post : string) :
  Forall (λ c, c ≠ "]"%char ∧ Js.is_line_terminator c = false)
         (list_ascii_of_string code) →
  Js.up_to_close (code +:+ String.String "]" post) = Some code.
Proof.
  induction code as [|c code IH]; simpl.
  - done.
  - intros [[Hc Hline] Hcode]%Forall_cons.
    rewrite bool_decide_eq_false_2, Hline by done.
    by rewrite IH.
Qed.

(** X25. The extraction finds the code of a display name: for a name made
    of a prefix without an opening bracket, a bracketed code without a
    closing bracket and without a line break, and any suffix, the match is
    that code. *)
Theorem X25_match_bracket_extracts (pre code post : string) :
  Forall (λ c, c ≠ "["%char) (list_ascii_of_string pre) →
  Forall (λ c, c ≠ "]"%char ∧ Js.is_line_terminator c = false)
         (list_ascii_of_string code) →
  Js.match_bracket (pre +:+ String.String "[" (code +:+ String.String "]" post))
  = Some code.
Proof.
  intros Hpre Hcode. induction pre as [|c pre IH]; simpl.
  - by rewrite up_to_close_code.
  - apply Forall_cons in Hpre as [Hc Hpre].
    rewrite bool_decide_eq_false_2 by done. by apply IH.
Qed.

End Bracket.

(** ** Concrete runs of the further properties *)

Module FurtherExamples.

Import Inputs Cases.

Lemma X2_keeps_ledger_ids_witness :
  ∃ e', (checkAndUpsertRequests [request 7 "2024-02-02"]
           {["7" := persisted "2024-01-01" false]}).1 !! "7" = Some e'
        ∧ Item.stock_move_ids e' = Some [501]
        ∧ Item.account_move_id e' = Some 900
        ∧ Item.cost_center_odoo e' = Some 77.
Proof.
  apply (X2_checkAndUpsertRequests_keeps_ledger_ids [request 7 "2024-02-02"]
           {["7" := persisted "2024-01-01" false]} "7" (persisted "2024-01-01" false)).
  vm_compute; reflexivity.
Defined.

Lemma X3_reappearing_request_witness :
  let out := checkAndUpsertRequests [request 7 "2024-01-01"]
               {["7" := persisted "2024-01-01" true]} in
  out.1 !! "7" = Some (set_reversed false (persisted "2024-01-01" true))
  ∧ ∀ item, item ∈ default [] out.2 → Classified.request_id item ≠ "7".
Proof.
  apply (X3_reappearing_request_is_not_reposted [request 7 "2024-01-01"]
           {["7" := persisted "2024-01-01" true]} "7" (persisted "2024-01-01" true)).
  - vm_compute; reflexivity.
  - reflexivity.
  - apply elem_of_payload_ids, list_elem_of_fmap.
    exists (request 7 "2024-01-01"). split; [vm_compute; reflexivity|by left].
  - intros request' Hin _. apply list_elem_of_singleton in Hin as ->. reflexivity.
Defined.

Lemma X4_second_invocation_witness :
  let w1 := (handler two_requests world).1 in
  handler two_requests w1
  = (w1, inr (Some (createResponse (Message "Okay. No new Requests to process.") 200))).
Proof.
  apply (X4_second_invocation_is_idle two_requests
           [request 7 "2024-01-01"; request 9 "2024-01-01"] world).
  - reflexivity.
  - intros r1 r2 H1 H2.
    apply list_elem_of_In in H1, H2. simpl in H1, H2.
    destruct H1 as [<-|[<-|[]]], H2 as [<-|[<-|[]]]; vm_compute; congruence.
Defined.

Lemma X7_without_account_witness :
  processWorkOrder (remote [] []) (order []) [] (Some (Js.Num 100)) "Work Order"
    (Some "INSERTED") "7" world
  = (world, inl (ErrorFetchingCostCenterId (TypeError "id"))).
Proof.
  eapply (X7_processWorkOrder_without_account (remote [] []) (order [])).
  - reflexivity.
  - reflexivity.
  - reflexivity.
  - left. reflexivity.
Defined.

Lemma X9_postToOdoo_failure_witness :
  ∃ w' error,
    postToOdoo refusing_stock_moves [posting] workOrder "Work Order" "COMPLETED" "7" world
    = (w', inl error)
    ∧ ∃ cause calls,
        error = ErrorPostingDataToOdoo cause
        ∧ odoo_log w' = odoo_log world ++ calls
        ∧ match cause with
          | ErrorPostingStock _ =>
              journal_entries calls = [] ∧ journal_posts calls = []
              ∧ table w' = table world
          | ErrorPostingJournal _ | ReferenceError _ =>
              length (journal_entries calls) = 1%nat ∧ journal_posts calls = []
              ∧ table w' = table world
          | ErrorUpdatingJournal _ =>
              length (journal_entries calls) = 1%nat
              ∧ length (journal_posts calls) = 1%nat
          | _ => False
          end.
Proof.
  eexists _, _. split; [reflexivity|].
  apply (X9_postToOdoo_failure refusing_stock_moves [posting] workOrder "Work Order"
           "COMPLETED" "7" world).
  reflexivity.
Defined.

Lemma X10_postToOdoo_success_witness :
  ∃ w' response,
    postToOdoo (remote [] []) [posting] workOrder "Work Order" "COMPLETED" "7" world
    = (w', inr response)
    ∧ ∃ accountResultId calls,
        accounting response = Some accountResultId ∧ accountResultId ≠ 0
        ∧ "7" ≠ ""
        ∧ length (inventory response) = length [posting]
        ∧ odoo_log w' = odoo_log world ++ calls
        ∧ length (journal_entries calls) = 1%nat
        ∧ journal_posts calls = [accountResultId]
        ∧ (∀ k, k ≠ "7" → table w' !! k = table world !! k)
        ∧ match mapM id (inventory response) with
          | Some stock_move_ids =>
              ∃ item, table w' !! "7" = Some item
                      ∧ Item.stock_move_ids item = Some stock_move_ids
                      ∧ Item.account_move_id item = Some accountResultId
                      ∧ Item.cost_center_odoo item
                        = table world !! "7" ≫= Item.cost_center_odoo
          | None => table w' = table world
          end.
Proof.
  eexists _, _. split; [reflexivity|].
  apply (X10_postToOdoo_success (remote [] []) [posting] workOrder "Work Order"
           "COMPLETED" "7" world).
  reflexivity.
Defined.

Lemma X12_reversal_mirrors_witness :
  ∃ preparedStock,
    processStockReversal replaying (Some (Js.Num 100)) "7" [501] world
    = (world, inr preparedStock)
    ∧ Forall2 mirrors
        (sent_moves (promise_all
                       (λ data, postOdooInventory replaying data "Work Order" "COMPLETED")
                       [posting]) world)
        (sent_moves (promise_all
                       (λ data, postOdooInventory replaying data "Work Order" "REVERSED")
                       preparedStock) world).
Proof.
  apply (X12_reversal_mirrors_posting replaying [posting] "Work Order" "Work Order"
           (Some (Js.Num 100)) "7" [501] world world).
  - constructor; [|constructor]. unfold has_ids. simpl.
    split; [exists 9; split; [reflexivity|lia]|].
    split; [exists 8; split; [reflexivity|lia]|]. by exists 2.
  - vm_compute; reflexivity.
Defined.

Lemma X13_reversal_journal_witness :
  ∃ preparedJournal,
    processJournalReversal (remote [] []) (Some (Js.Num 100)) (Some 900) (Some 77) world
    = (world, inr preparedJournal)
    ∧ materialLines preparedJournal (WorkOrder.costCenter preparedJournal) "Work Order"
        "REVERSED"
      = [ AccountMove.Debit (Some 77) "Work Order 100 REVERSED" (Some 40);
          AccountMove.Credit (Some accountIdInventories) "Work Order 100 REVERSED"
            (Some 40) ].
Proof.
  apply (X13_reversal_journal_lines (remote [] []) (Some (Js.Num 100)) (Some 900)
           (Some 77) "Work Order" (Some 40) [] world).
  reflexivity.
Defined.

Lemma X14_reversal_without_entry_witness :
  ∃ error, handle_item refusing_stock_moves [] [] retracted world = (world, inl error)
           ∧ (error = FailedStockReversal ∨ error = FailedJournalReversal).
Proof.
  apply (X14_reversal_without_journal_entry refusing_stock_moves [] [] retracted world).
  - vm_compute; congruence.
  - reflexivity.
Defined.

Lemma X15_paginate_complete_witness :
  Paged.fetchRequestPaginateOdoo 2 (served [1; 2; 3]) = Some (inr [1; 2; 3]).
Proof.
  apply (X15_fetchRequestPaginateOdoo_complete [1; 2; 3] (served [1; 2; 3]) 2).
  - intros limit offset. unfold served. by rewrite !Nat2Z.id.
  - simpl. lia.
Defined.

Lemma X16_paginate_fails_witness :
  Paged.fetchRequestPaginateOdoo 2 failing_after_first
  = Some (inl (RemoteFailure "fetchRequestOdooPage")).
Proof.
  apply (X16_fetchRequestPaginateOdoo_fails [[1; 2]] failing_after_first 2
           (RemoteFailure "fetchRequestOdoo")).
  - split; [by repeat constructor|].
    intros [|i] batch Hi; simpl in Hi; [|done]. by injection Hi as <-.
  - reflexivity.
  - simpl. lia.
Defined.

Lemma X17_paginate_truncates_witness :
  Sync.fetchRequestPaginateOdoo 2 failing_after_first = Some (inr [1; 2]).
Proof.
  apply (X17_sync_fetchRequestPaginateOdoo_truncates [[1; 2]] failing_after_first 2
           (RemoteFailure "fetchRequestOdoo")).
  - split; [by repeat constructor|].
    intros [|i] batch Hi; simpl in Hi; [|done]. by injection Hi as <-.
  - reflexivity.
  - simpl. lia.
Defined.

Lemma X18_pages_witness :
  Paged.getInfraspeakRequests 2 two_pages = Some (inr [1; 2]).
Proof.
  apply (X18_getInfraspeakRequests_pages
           [ {| Page.data := Some [1]; Page.next := true |} ] two_pages
           (inr {| Page.data := Some [2]; Page.next := false |}) 2).
  - by repeat constructor.
  - intros [|i] page Hi; simpl in Hi; [|done]. by injection Hi as <-.
  - reflexivity.
  - by intros page [= <-].
  - simpl. lia.
Defined.

Lemma X19_rows_witness : (length [mapped] ≤ length labelled)%nat.
Proof.
  apply (X19_processOdooData_rows labelled productsOdoo materialInfraspeak
           warehouseInfraspeak [mapped]).
  vm_compute; reflexivity.
Defined.

Lemma X21_closes_the_drift_witness :
  fold_left apply_movement (Sync.post_stock accept [field 10] (row 12)).1 10 = 12.
Proof.
  refine (proj1 (proj2 (X21_post_stock_closes_the_drift accept [field 10] (row 12) 5 _ _))
            (Some (Js.Num 10)) 10 _ _).
  - reflexivity.
  - lia.
  - reflexivity.
  - split; [vm_compute; reflexivity|by left].
Defined.

Lemma X22_all_refused_witness :
  Sync.handler refuse (inr labelled) (inr productsOdoo) (inr materialInfraspeak)
    (inr warehouseInfraspeak) (inr [field 10])
  = ((Sync.postStockToInfraspeak refuse [mapped] [field 10]).1,
     createResponse (Message "No stock quantity differences. Nothing to post") 200).
Proof.
  apply (X22_sync_handler_all_refused refuse labelled productsOdoo materialInfraspeak
           warehouseInfraspeak [field 10] [mapped]).
  - vm_compute; reflexivity.
  - intros payload. by eexists.
  - constructor; [|constructor]. intros materialId Hid. injection Hid as <-.
    vm_compute; congruence.
Defined.

Lemma X23_unreadable_quantity_witness :
  Sync.handler accept' (inr labelled) (inr productsOdoo) (inr materialInfraspeak)
    (inr warehouseInfraspeak) (inr [unreadable])
  = ((Sync.postStockToInfraspeak accept' [mapped] [unreadable]).1,
     createResponse (Message "Error handling webhook event") 500).
Proof.
  apply (X23_sync_handler_unreadable_quantity accept' labelled productsOdoo
           materialInfraspeak warehouseInfraspeak [unreadable] [mapped] mapped 5).
  - vm_compute; reflexivity.
  - by left.
  - reflexivity.
  - lia.
  - vm_compute; reflexivity.
Defined.

Lemma X24_read_failure_witness :
  Sync.handler refuse (inr []) (inr productsOdoo) (inr materialInfraspeak)
    (inr warehouseInfraspeak) (inr [field 10])
  = ([], createResponse (Message "Error handling webhook event") 500).
Proof.
  apply (X24_sync_handler_read_failure refuse (inr []) (inr productsOdoo)
           (inr materialInfraspeak) (inr warehouseInfraspeak) (inr [field 10])).
  right. by left.
Defined.

Lemma X25_match_bracket_witness :
  Js.match_bracket "Widget [WID-001]" = Some "WID-001".
Proof.
  apply (X25_match_bracket_extracts "Widget " "WID-001" "").
  - repeat constructor; discriminate.
  - repeat constructor; discriminate.
Defined.

Lemma X30_runs_on_witness :
  Paged.fetchRequestPaginateOdoo 5 (λ limit offset : Z, inr (Some [1 : Z])) = None.
Proof.
  apply (X30_fetchRequestPaginateOdoo_runs_on (λ limit offset : Z, inr (Some [1 : Z])) 5).
  intros limit offset. by exists [1].
Defined.

Lemma X28_all_accepted_witness :
  Sync.handler accept' (inr labelled) (inr productsOdoo) (inr materialInfraspeak)
    (inr warehouseInfraspeak) (inr [field 10])
  = ([Sync.stockMovementPayloadAdd 5 2 2 (Some 3)],
     createResponse (Message "Success! Stock-Movement Id(s): 1") 200).
Proof.
  refine (eq_trans
            (X28_sync_handler_all_accepted accept' labelled productsOdoo
               materialInfraspeak warehouseInfraspeak [field 10] [mapped] _ _ _) _).
  - vm_compute; reflexivity.
  - intros payload. by eexists.
  - constructor; [|constructor]. intros materialId Hid. injection Hid as <-.
    vm_compute; congruence.
  - vm_compute; reflexivity.
Defined.

Lemma X29_retraction_witness :
  {| Classified.cost_center_odoo := None;
     Classified.journal_move_id := None;
     Classified.request_id := "7";
     Classified.related_to_id := Some (Js.Str "100");
     Classified.related_to_type := Some "FAILURE";
     Classified.stock_move_ids := None;
     Classified.state := "REVERSED";
     Classified.upserted := None |}
  ∈ default []
      (checkAndUpsertRequests []
         (checkAndUpsertRequests [request 7 "2024-01-01"] ∅).1).2.
Proof.
  apply (X29_retraction_carries_the_order [request 7 "2024-01-01"] [] ∅
           (request 7 "2024-01-01")).
  - by left.
  - reflexivity.
  - intros request' Hin _. by apply list_elem_of_singleton in Hin.
  - unfold payload_ids. simpl. apply not_elem_of_empty.
Defined.

End FurtherExamples.
